(** * Excel type checker: the upload pipeline of [backend/main.py]

    A shallow embedding of [upload_file]: the loader (pandas [read_excel]
    with its single-sheet retry), the required-column check, the
    consistency analysis (per-Name mode of "Data Type", row flags, deviation
    summary) and the report composer (openpyxl workbook, highlight fills,
    summary sheet, hyperlinks, output file name).

    Domain of the model.  Cells of a loaded frame are text or missing
    ([None] stands for NaN / an empty cell); numbers appear only where the
    program itself produces them (the [Count] column, index labels).
    Strings are byte strings: a Python [str] is represented by its UTF-8
    encoding, on which byte-wise lexicographic order coincides with
    Python's code-point order.

    The uploaded document itself is opaque: what pandas and openpyxl make
    of it is part of the request ([Upload]).  The state of a request is
    its log, the file it saves and the local [temp_input_dir] that the
    [finally] block reads.  Python's [str.strip] and [str.lower] follow the
    Unicode character database; where the program applies them to cell
    text they are functions of the environment ([Libraries]). *)

From Stdlib Require Import String Ascii List ZArith Lia Bool Arith PeanoNat.
From Stdlib Require Import DecimalString Permutation Sorted.
Import ListNotations.
Open Scope string_scope.

(** ** Generic list helpers (hash-table style de-duplication, counting,
       sorting), shared by the pandas operations below. *)

Section ListOps.
Context {A : Type}.
Variable eqb : A -> A -> bool.
Variable leb : A -> A -> bool.

(** Number of elements equal to [v]. *)
Definition count (v : A) (xs : list A) : nat :=
  length (filter (eqb v) xs).

Definition mem (v : A) (xs : list A) : bool := existsb (eqb v) xs.

(** Distinct values in order of first appearance ([Series.unique],
    and the key order of the value-count hash table). *)
Fixpoint unique (xs : list A) : list A :=
  match xs with
  | [] => []
  | x :: t => x :: filter (fun y => negb (eqb x y)) (unique t)
  end.

Fixpoint insert_sorted (x : A) (l : list A) : list A :=
  match l with
  | [] => [x]
  | y :: t => if leb x y then x :: l else y :: insert_sorted x t
  end.

(** Ascending sort ([np.sort], and the key order of a sorted groupby). *)
Definition sort (l : list A) : list A := fold_right insert_sorted [] l.
End ListOps.

(** ** Data model *)

(** A cell of a loaded frame: text, or missing. *)
Definition cell := option string.

Definition cell_eqb (a b : cell) : bool :=
  match a, b with
  | Some x, Some y => String.eqb x y
  | None, None => true
  | _, _ => false
  end.

(** One row of a frame: its index label and its cells, aligned with the
    frame's columns. *)
Record Row := mkRow { label : nat; cells : list cell }.

Record DataFrame := mkDataFrame { columns : list string; rows : list Row }.

Fixpoint index_of (c : string) (cols : list string) : option nat :=
  match cols with
  | [] => None
  | h :: t => if String.eqb h c then Some 0
              else option_map S (index_of c t)
  end.

(** [row[c]] for a row of frame [df]. *)
Definition at_col (cols : list string) (c : string) (r : Row) : cell :=
  match index_of c cols with
  | Some i => nth i (cells r) None
  | None => None
  end.

(** An analysed Record: a row that survived [dropna], with its key and
    categorical value. *)
Record Record_ := mkRecord
  { rec_label : nat;
    Name : string;
    DataType : string;
    rec_cells : list cell }.

(** [df.dropna(subset=["Name", "Data Type"], inplace=True)]: rows keep their
    index labels and their order. *)
Fixpoint dropna_rows (cols : list string) (rs : list Row) : list Record_ :=
  match rs with
  | [] => []
  | r :: t =>
      match at_col cols "Name" r, at_col cols "Data Type" r with
      | Some n, Some d =>
          mkRecord (label r) n d (cells r) :: dropna_rows cols t
      | _, _ => dropna_rows cols t
      end
  end.

Definition dropna (df : DataFrame) : list Record_ :=
  dropna_rows (columns df) (rows df).

(** ** Consistency analysis *)

(** [Series.mode()]: the values of maximal frequency.  pandas counts the
    values in a hash table (keys in first-seen order), keeps the keys whose
    count is the maximum, and sorts the result ([np.sort]). *)
Definition value_counts (xs : list string) : list (string * nat) :=
  map (fun v => (v, count String.eqb v xs)) (unique String.eqb xs).

Definition max_count (vc : list (string * nat)) : nat :=
  fold_right Nat.max 0 (map snd vc).

Definition mode (xs : list string) : list string :=
  let vc := value_counts xs in
  sort String.leb
    (map fst (filter (fun p => Nat.eqb (snd p) (max_count vc)) vc)).

(** The aggregation [lambda x: x.mode()[0] if not x.mode().empty else None]. *)
Definition agg_mode0 (xs : list string) : cell := hd_error (mode xs).

(** The values of "Data Type" in the group of Name [n], in row order. *)
Definition group (recs : list Record_) (n : string) : list string :=
  map DataType (filter (fun r => String.eqb n (Name r)) recs).

(** [df.groupby("Name")["Data Type"].agg(...).to_dict()]: one entry per
    distinct Name, keys in sorted order. *)
Definition common_types (recs : list Record_) : list (string * cell) :=
  map (fun n => (n, agg_mode0 (group recs n)))
      (sort String.leb (unique String.eqb (map Name recs))).

(** [dict.get(k)]: the value, or [None] for an absent key. *)
Fixpoint dict_get (d : list (string * cell)) (k : string) : cell :=
  match d with
  | [] => None
  | (k', v) :: t => if String.eqb k' k then v else dict_get t k
  end.

(** [row["Data Type"] != common_types.get(row["Name"])]. *)
Definition Highlight (recs : list Record_) (r : Record_) : bool :=
  negb (cell_eqb (Some (DataType r)) (dict_get (common_types recs) (Name r))).

(** [df[df["Highlight"]]["Name"].unique()]. *)
Definition inconsistent_names (recs : list Record_) : list string :=
  unique String.eqb (map Name (filter (Highlight recs) recs)).

Definition key_eqb (a b : string * string) : bool :=
  String.eqb (fst a) (fst b) && String.eqb (snd a) (snd b).

(** Lexicographic order on (Name, Data Type) keys. *)
Definition key_leb (a b : string * string) : bool :=
  if String.eqb (fst a) (fst b) then String.leb (snd a) (snd b)
  else String.leb (fst a) (fst b).

Definition key_of (r : Record_) : string * string := (Name r, DataType r).

(** [<frame>.groupby(["Name", "Data Type"]).size().reset_index(name="Count")]:
    one row per observed key, keys sorted, with the size of each group. *)
Definition groupby_size (recs : list Record_) : list (string * string * nat) :=
  map (fun k => (fst k, snd k, count key_eqb k (map key_of recs)))
      (sort key_leb (unique key_eqb (map key_of recs))).

(** [df[df["Name"].isin(inconsistent_names)].groupby([...]).size()...]. *)
Definition summary (recs : list Record_) : list (string * string * nat) :=
  groupby_size
    (filter (fun r => mem String.eqb (Name r) (inconsistent_names recs)) recs).

(** Scenario frames used below. *)
Definition frame_of (l : list (string * string)) : DataFrame :=
  mkDataFrame ["Name"; "Data Type"]
    (map (fun p => mkRow (fst p) [Some (fst (snd p)); Some (snd (snd p))])
         (combine (seq 0 (length l)) l)).

Definition scenario_A : DataFrame :=
  frame_of [("x", "int"); ("x", "int"); ("x", "str")].

Definition scenario_tie : DataFrame :=
  frame_of [("x", "str"); ("x", "int")].

(** Row 3 of Scenario A, as an analysed Record. *)
Definition record_3_of_A : Record_ :=
  mkRecord 2 "x" "str" [Some "x"; Some "str"].

(** ** Strings: the Python string operations the program uses *)

Definition str_of_nat (n : nat) : string :=
  NilZero.string_of_uint (Nat.to_uint n).

Definition str_of_Z (z : Z) : string :=
  NilZero.string_of_int (Z.to_int z).

(** [sep.join(parts)]. *)
Definition join (sep : string) (parts : list string) : string :=
  String.concat sep parts.

Definition ascii_in_range (lo hi : nat) (c : ascii) : bool :=
  (lo <=? nat_of_ascii c)%nat && (nat_of_ascii c <=? hi)%nat.

(** [str.lower()] on the ASCII letters.  It is used where the lowered
    string is compared with the three supported extensions or with a
    sheet title of the new book ("Sheet", the reserved title): no
    non-ASCII character lowers to one of their characters, so these tests
    come out as in Python.  Only the log line of an unsupported extension
    shows a lowered string; no property below depends on its text.  (Cell
    text is lowered with [str_lower] of [Libraries].) *)
Definition lower_ascii (c : ascii) : ascii :=
  if ascii_in_range 65 90 c then ascii_of_nat (nat_of_ascii c + 32) else c.

Fixpoint lower (s : string) : string :=
  match s with
  | EmptyString => EmptyString
  | String c t => String (lower_ascii c) (lower t)
  end.

(** [s.replace(c, by)] for a one-character pattern. *)
Fixpoint replace_char (c : ascii) (by_ : string) (s : string) : string :=
  match s with
  | EmptyString => EmptyString
  | String d t =>
      (if Ascii.eqb c d then by_ else String d EmptyString)
        ++ replace_char c by_ t
  end.

(** [p.rfind(c)], with [None] for -1. *)
Fixpoint rfind (c : ascii) (p : string) : option nat :=
  match p with
  | EmptyString => None
  | String d t =>
      match rfind c t with
      | Some i => Some (S i)
      | None => if Ascii.eqb c d then Some 0 else None
      end
  end.

(** Is some character of [p] in positions [from, from + len) different from
    [c]?  (The "skip all leading dots" loop of [splitext].) *)
Fixpoint has_other_char (c : ascii) (p : string) (from len : nat) : bool :=
  match len with
  | 0 => false
  | S len' =>
      match String.get from p with
      | Some d => if Ascii.eqb c d then has_other_char c p (S from) len'
                  else true
      | None => true
      end
  end.

Definition dot : ascii := ascii_of_nat 46.
Definition slash : ascii := ascii_of_nat 47.
Definition dquote : string := String (ascii_of_nat 34) EmptyString.

(** [os.path.splitext(p)] (POSIX): the extension starts at the last dot of
    the last path component, leading dots of that component excepted. *)
Definition splitext (p : string) : string * string :=
  match rfind dot p with
  | None => (p, EmptyString)
  | Some dotIndex =>
      let filenameIndex :=
        match rfind slash p with Some sepIndex => S sepIndex | None => 0 end in
      if (filenameIndex <=? dotIndex)%nat
         && has_other_char dot p filenameIndex (dotIndex - filenameIndex)
      then (substring 0 dotIndex p,
            substring dotIndex (String.length p - dotIndex) p)
      else (p, EmptyString)
  end.

(** [os.path.join(a, b)] for a directory [a] without trailing separator. *)
Definition path_join (a b : string) : string :=
  match b with
  | String c _ => if Ascii.eqb c slash then b
                  else a ++ String slash EmptyString ++ b
  | EmptyString => a ++ String slash EmptyString
  end.

(** ** Workbooks (openpyxl) *)

Inductive value :=
| VStr (s : string)
| VInt (z : Z)
| VBool (b : bool)
| VNaN.

Definition value_eqb (a b : value) : bool :=
  match a, b with
  | VStr x, VStr y => String.eqb x y
  | VInt x, VInt y => Z.eqb x y
  | VBool x, VBool y => Bool.eqb x y
  | _, _ => false
  end.

(** [str(v)] for a cell value. *)
Definition str_of_value (v : value) : string :=
  match v with
  | VStr s => s
  | VInt z => str_of_Z z
  | VBool true => "True"
  | VBool false => "False"
  | VNaN => "nan"
  end.

(** A worksheet cell: its value ([None] when empty), whether it carries the
    yellow fill, whether it carries the blue underlined font. *)
Record Cell := mkCell
  { cvalue : option value; yellow_fill : bool; blue_font : bool }.

Definition empty_cell : Cell := mkCell None false false.
Definition plain (v : value) : Cell := mkCell (Some v) false false.

(** A worksheet: title and cells, row-major; row [r] (counted from 1) is
    element [r - 1] of [grid]. *)
Record Worksheet := mkWorksheet { title : string; grid : list (list Cell) }.

(** A workbook: its sheets in order, and the VBA archive it carries. *)
Record Workbook := mkWorkbook
  { sheets : list Worksheet; vba_archive : option string }.

Definition sheetnames (wb : Workbook) : list string := map title (sheets wb).

Definition max_row (ws : Worksheet) : nat := Nat.max 1 (length (grid ws)).

Definition max_column (ws : Worksheet) : nat :=
  Nat.max 1 (fold_right Nat.max 0 (map (@length Cell) (grid ws))).

Definition pad_row (n : nat) (row : list Cell) : list Cell :=
  row ++ repeat empty_cell (n - length row).

(** [ws[r]]: the cells of row [r] in columns 1 .. max_column. *)
Definition ws_row (ws : Worksheet) (r : nat) : list Cell :=
  pad_row (max_column ws) (nth (r - 1) (grid ws) []).

(** [ws.cell(row=r, column=c).value]. *)
Definition cell_value (ws : Worksheet) (r c : nat) : option value :=
  cvalue (nth (c - 1) (nth (r - 1) (grid ws) []) empty_cell).

Fixpoint update_nth {A : Type} (i : nat) (f : A -> A) (d : A) (l : list A)
  : list A :=
  match i, l with
  | 0, [] => [f d]
  | 0, x :: t => f x :: t
  | S i', [] => d :: update_nth i' f d []
  | S i', x :: t => x :: update_nth i' f d t
  end.

(** [ws.cell(row=r, column=c, value=v)]: missing rows and cells are
    created empty. *)
Definition set_value (r c : nat) (v : value) (ws : Worksheet) : Worksheet :=
  mkWorksheet (title ws)
    (update_nth (r - 1)
       (update_nth (c - 1)
          (fun x => mkCell (Some v) (yellow_fill x) (blue_font x)) empty_cell)
       [] (grid ws)).

(** [for cell_obj in ws[r]: cell_obj.fill = yellow_fill]. *)
Definition fill_row (r : nat) (ws : Worksheet) : Worksheet :=
  mkWorksheet (title ws)
    (update_nth (r - 1)
       (fun _ => map (fun x => mkCell (cvalue x) true (blue_font x))
                     (ws_row ws r))
       [] (grid ws)).

(** [ws.append(values)]: a new row after the last one. *)
Definition append_row (vs : list value) (ws : Worksheet) : Worksheet :=
  mkWorksheet (title ws) (grid ws ++ [map plain vs]).

(** ** Effects: exceptions, the log and the output directory *)

Inductive level := INFO | WARNING | ERROR | CRITICAL.

(** Python exceptions, as far as the handlers of [upload_file] tell them
    apart: [ValueError] (and subclasses) against every other [Exception].
    The text is [str(e)]. *)
Inductive exn :=
| ValueError (text : string)
| OtherException (text : string).

Definition str_exn (e : exn) : string :=
  match e with ValueError t => t | OtherException t => t end.

Inductive outcome (A : Type) :=
| Return (a : A)
| Raise (e : exn).
Arguments Return {A} a.
Arguments Raise {A} e.

(** The state a request threads through: the log entries it wrote, the
    file it saved under [temp_output], if any, and the local variable
    [temp_input_dir] of [upload_file] ([None] until [mkdtemp] has run). *)
Record State := mkState
  { log : list (level * string);
    saved : option (string * Workbook);
    temp_input_dir : option string }.

Definition M (A : Type) : Type := State -> outcome A * State.

Definition ret {A} (a : A) : M A := fun st => (Return a, st).

Definition raise {A} (e : exn) : M A := fun st => (Raise e, st).

Definition bind {A B} (c : M A) (k : A -> M B) : M B :=
  fun st =>
    match c st with
    | (Return a, st') => k a st'
    | (Raise e, st') => (Raise e, st')
    end.

Declare Scope py_scope.
Delimit Scope py_scope with py.
Notation "x <- c ;; k" := (bind c (fun x => k))
  (at level 100, c at next level, right associativity) : py_scope.
Notation "c ;; k" := (bind c (fun _ => k))
  (at level 100, right associativity) : py_scope.
Notation "' pat <- c ;; k" := (bind c (fun x => let 'pat := x in k))
  (at level 100, pat pattern, c at next level, right associativity)
  : py_scope.
Open Scope py_scope.

(** [try: c  except Exception as e: h e]. *)
Definition try_except {A} (c : M A) (h : exn -> M A) : M A :=
  fun st =>
    match c st with
    | (Return a, st') => (Return a, st')
    | (Raise e, st') => h e st'
    end.

Definition lift {A} (o : outcome A) : M A := fun st => (o, st).

(** A library call that either raises or returns nothing. *)
Definition fault (f : option exn) : M unit :=
  match f with Some e => raise e | None => ret tt end.

(** [try: c  finally: f]: [f] runs on every exit of [c]; an exception of
    [f] would replace the outcome of [c]. *)
Definition try_finally {A} (c : M A) (f : M unit) : M A :=
  fun st =>
    match c st with
    | (o, st') =>
        match f st' with
        | (Return _, st'') => (o, st'')
        | (Raise e, st'') => (Raise e, st'')
        end
    end.

Definition logging (l : level) (msg : string) : M unit :=
  fun st =>
    (Return tt, mkState (log st ++ [(l, msg)]) (saved st) (temp_input_dir st)).

Definition save_to (path : string) (wb : Workbook) : M unit :=
  fun st =>
    (Return tt, mkState (log st) (Some (path, wb)) (temp_input_dir st)).

(** [temp_input_dir = d]. *)
Definition set_temp_input_dir (d : string) : M unit :=
  fun st => (Return tt, mkState (log st) (saved st) (Some d)).

(** The value of the local [temp_input_dir]. *)
Definition get_temp_input_dir : M (option string) :=
  fun st => (Return (temp_input_dir st), st).

(** ** The request and its environment *)

(** The JSON body and status of a response. *)
Record Response := mkResponse
  { status_code : Z;
    success : bool;
    message : string;
    download_filename : option string }.

(** An upload, with what the libraries make of the uploaded bytes.  The
    document is opaque; pandas and openpyxl each give their reading of it. *)
Record Upload := mkUpload
  { filename : string;
    content_type : string;
    file_size : Z;
    (** [tempfile.mkdtemp()] *)
    mkdtemp : string;
    (** the exception raised while the upload is written to disk, if any *)
    store_fault : option exn;
    (** [pd.read_excel(input_path, sheet_name=0)] *)
    read_excel_first : outcome DataFrame;
    (** [pd.ExcelFile(input_path).sheet_names] *)
    ExcelFile_sheet_names : outcome (list string);
    (** [pd.read_excel(input_path, sheet_name=name)] *)
    read_excel_sheet : string -> outcome DataFrame;
    (** whether the set [missing_columns] iterates with "Name" first
        (set order follows the string hashes of the process) *)
    name_iterates_first : bool;
    (** the exception pandas raises, if any, when the flag column is built
        and used on a frame without rows ([df.apply] on an empty frame does
        not give a boolean column; the outcome depends on the pandas
        version) *)
    empty_frame_fault : option exn;
    (** what [load_workbook] parses, macros included *)
    load_workbook_doc : outcome Workbook;
    (** the exception [wb.save] raises, if any *)
    save_fault : option exn;
    (** [os.path.exists(temp_input_dir)] when the request ends *)
    input_dir_exists : bool;
    (** the text of the [OSError] that [shutil.rmtree(temp_input_dir)]
        raises, if any *)
    rmtree_fault : option string }.

(** Library functions whose code is outside the repository and whose
    exact output does not matter to the pipeline's control flow: three of
    [openpyxl], and Python's [str.strip] and [str.lower], which follow the
    Unicode character database (white space such as U+3000, case pairs
    such as "É" / "é"). *)
Class Libraries := mkLibraries
  { (** [openpyxl.utils.quote_sheetname] *)
    quote_sheetname : string -> string;
    (** [openpyxl.utils.get_column_letter] *)
    get_column_letter : nat -> string;
    (** the highest number already appended to a title among the sheet
        names, as [avoid_duplicate_name] finds it *)
    highest_suffix : list string -> string -> nat;
    (** [s.strip()] *)
    str_strip : string -> string;
    (** [s.lower()] *)
    str_lower : string -> string }.

Definition MAX_FILE_SIZE_MB : Z := 10.
Definition TEMP_OUTPUT_DIR : string := "temp_output".
Definition supported_extensions : list string := [".xlsx"; ".xls"; ".xlsm"].
Definition summary_title : string := "統計結果".

Definition msg_multiple_sheets : string :=
  "Excel 檔案包含多個工作表，請確保僅上傳包含一個工作表的檔案，或修改程式以處理特定工作表。".

Definition msg_unreadable : string :=
  "無法讀取 Excel 檔案，請確認檔案格式正確、包含有效數據，且已安裝對應處理引擎。詳情: ".

Definition msg_missing_columns : string :=
  "上傳的 Excel 檔案缺少必要欄位：".

Definition msg_internal : string :=
  "伺服器內部錯誤，請聯繫管理員或稍後再試。錯誤訊息: ".

Definition bad_request (msg : string) : Response :=
  mkResponse 400 false msg None.

(** ** Step 3: the loader *)

Definition load (u : Upload) (file_ext : string) : M DataFrame :=
  try_except (lift (read_excel_first u))
    (fun e =>
       try_except
         (sheet_names <- lift (ExcelFile_sheet_names u) ;;
          match sheet_names with
          | [only] => lift (read_excel_sheet u only)
          | _ =>
              logging ERROR
                ("讀取 Excel 檔案 " ++ filename u ++ " 時發生錯誤: "
                 ++ str_exn e ++ ". 多個工作表且未指定。") ;;
              raise (ValueError msg_multiple_sheets)
          end)
         (fun e_inner =>
            logging ERROR
              ("讀取 Excel 檔案 " ++ filename u ++ " 時發生錯誤: "
               ++ str_exn e_inner ++ "。請確認已安裝處理 '" ++ file_ext
               ++ "' 格式所需的引擎 (如 xlrd for .xls)。") ;;
            raise (ValueError (msg_unreadable ++ str_exn e_inner)))).

(** ** Step 4: required columns *)

(** The set [{"Name", "Data Type"}] in the iteration order of the process. *)
Definition required_columns (u : Upload) : list string :=
  if name_iterates_first u then ["Name"; "Data Type"]
  else ["Data Type"; "Name"].

(** [required_columns - set(df.columns)]. *)
Definition missing_columns (u : Upload) (df : DataFrame) : list string :=
  filter (fun c => negb (mem String.eqb c (columns df))) (required_columns u).

(** [required_columns.issubset(df.columns)]. *)
Definition has_required (u : Upload) (df : DataFrame) : bool :=
  forallb (fun c => mem String.eqb c (columns df)) (required_columns u).

(** ** Step 6: the report composer *)

Section Composer.
Context {xl : Libraries}.

(** [avoid_duplicate_name(names, value)]: a title already in use (up to
    case) gets the next free number appended. *)
Definition avoid_duplicate_name (names : list string) (value : string)
  : string :=
  if existsb (fun n => String.eqb (lower n) (lower value)) names
  then value ++ str_of_nat (highest_suffix names value + 1)
  else value.

Definition invalid_title_char (c : ascii) : bool :=
  existsb (Ascii.eqb c)
    (map ascii_of_nat [92; 42; 63; 58; 47; 91; 93]).

Fixpoint first_invalid_char (s : string) : option ascii :=
  match s with
  | EmptyString => None
  | String c t => if invalid_title_char c then Some c
                  else first_invalid_char t
  end.

(** The title setter of a sheet whose workbook has sheets [names]. *)
Definition set_title (names : list string) (value : string)
    (ws : Worksheet) : outcome Worksheet :=
  match value with
  | EmptyString => Raise (ValueError "Title must have at least one character")
  | _ =>
      match first_invalid_char value with
      | Some c =>
          Raise (ValueError ("Invalid character " ++ String c EmptyString
                             ++ " found in sheet title"))
      | None =>
          Return (mkWorksheet
                    (if String.eqb (title ws) value then value
                     else avoid_duplicate_name names value)
                    (grid ws))
      end
  end.

(** [wb.create_sheet(t)]: the new, empty sheet (appended to the book by
    the caller once filled). *)
Definition create_sheet (wb : Workbook) (t : string) : Worksheet :=
  mkWorksheet (avoid_duplicate_name (sheetnames wb) t) [].

(** [wb.remove(wb[t])]: the first sheet titled [t] goes. *)
Fixpoint remove_titled (t : string) (l : list Worksheet) : list Worksheet :=
  match l with
  | [] => []
  | s :: r => if String.eqb (title s) t then r else s :: remove_titled t r
  end.

(** The columns of [df] once [df["Highlight"] = ...] has run. *)
Definition annotated_columns (df : DataFrame) : list string :=
  if mem String.eqb "Highlight" (columns df) then columns df
  else columns df ++ ["Highlight"].

Definition to_value (c : cell) : value :=
  match c with Some s => VStr s | None => VNaN end.

(** [df_row_series[col_name]] in the annotated frame. *)
Definition record_value (df : DataFrame) (recs : list Record_)
    (r : Record_) (col_name : string) : value :=
  if String.eqb col_name "Highlight" then VBool (Highlight recs r)
  else to_value (at_col (columns df) col_name
                   (mkRow (rec_label r) (rec_cells r))).

(** [for c_idx, v in enumerate(vs, start=c): ws.cell(row=r, column=c_idx,
    value=v)]. *)
Fixpoint write_row (r c : nat) (vs : list value) (ws : Worksheet)
  : Worksheet :=
  match vs with
  | [] => ws
  | v :: t => write_row r (S c) t (set_value r c v ws)
  end.

(** The header and data loops of the [.xls] branch. *)
Definition rebuild_sheet (df : DataFrame) (recs : list Record_)
    (ws : Worksheet) : Worksheet :=
  let cols := annotated_columns df in
  fold_left
    (fun w r =>
       let excel_row_num := rec_label r + 2 in
       write_row excel_row_num 1 (map (record_value df recs r) cols) w)
    recs
    (write_row 1 1 (map VStr cols) ws).

(** The highlight loop (the same in both branches). *)
Definition highlight_rows (recs : list Record_) (ws : Worksheet)
  : Worksheet :=
  fold_left
    (fun w r =>
       if Highlight recs r then
         let excel_row := rec_label r + 2 in
         if (excel_row <=? max_row w)%nat then fill_row excel_row w else w
       else w)
    recs ws.

(** [summary_row_data.tolist()]. *)
Definition summary_values (row : string * string * nat) : list value :=
  let '(n, d, c) := row in [VStr n; VStr d; VInt (Z.of_nat c)].

(** The summary sheet: header, then one appended row per summary row. *)
Definition fill_summary (rows_ : list (string * string * nat))
    (summary_ws : Worksheet) : Worksheet :=
  fold_left (fun w row => append_row (summary_values row) w) rows_
    (append_row [VStr "Name"; VStr "Data Type"; VStr "Count"] summary_ws).

(** Position (from 1) of the first header cell whose value is ["Name"];
    [None] is the program's [-1]. *)
Fixpoint find_name_col (header : list Cell) (col_idx : nat) : option nat :=
  match header with
  | [] => None
  | c :: t =>
      if match cvalue c with
         | Some v => value_eqb v (VStr "Name")
         | None => false
         end
      then Some col_idx
      else find_name_col t (S col_idx)
  end.

(** The first row [j] in [2 .. ws.max_row] whose cell in the Name column
    matches the summary name, both trimmed and lower-cased. *)
Definition find_row (ws : Worksheet) (name_col_idx : nat)
    (field_name : value) : option nat :=
  find
    (fun j =>
       match cell_value ws j name_col_idx with
       | Some original =>
           String.eqb (str_lower (str_strip (str_of_value original)))
                      (str_lower (str_strip (str_of_value field_name)))
       | None => false
       end)
    (seq 2 (max_row ws - 1)).

Definition hyperlink_formula (q_sheet_name : string) (name_col_idx : nat)
    (found_row : nat) (field_name : value) : string :=
  let internal_link_target :=
    "#" ++ q_sheet_name ++ "!" ++ get_column_letter name_col_idx
        ++ str_of_nat found_row in
  let escaped_display_text :=
    replace_char (ascii_of_nat 34) (dquote ++ dquote)
      (str_of_value field_name) in
  "=HYPERLINK(" ++ dquote ++ internal_link_target ++ dquote ++ ", "
    ++ dquote ++ escaped_display_text ++ dquote ++ ")".

(** One iteration of the hyperlink loop, on one row of the summary
    sheet. *)
Definition link_row (ws : Worksheet) (q_sheet_name : string)
    (name_col_idx : nat) (row : list Cell) : list Cell :=
  match row with
  | [] => []
  | name_cell :: rest =>
      match cvalue name_cell with
      | None => row
      | Some field_name =>
          match find_row ws name_col_idx field_name with
          | Some found_row =>
              mkCell (Some (VStr (hyperlink_formula q_sheet_name
                                    name_col_idx found_row field_name)))
                     (yellow_fill name_cell) true :: rest
          | None => row
          end
      end
  end.

(** The hyperlink loop over rows [2 .. max_row] of the summary sheet. *)
Definition add_hyperlinks (ws : Worksheet) (name_col_idx : nat)
    (summary_ws : Worksheet) : Worksheet :=
  let q := quote_sheetname (title ws) in
  match grid summary_ws with
  | [] => summary_ws
  | header :: data =>
      mkWorksheet (title summary_ws)
        (header :: map (link_row ws q name_col_idx) data)
  end.

(** From the removal of an old summary sheet to the hyperlinks: [wb] is
    the book, [ws] its primary sheet (already highlighted). *)
Definition append_summary (wb : Workbook) (ws : Worksheet)
    (rows_ : list (string * string * nat)) : M Workbook :=
  wb1 <- (if mem String.eqb summary_title (sheetnames wb) then
            logging INFO "已移除舊的 '統計結果' 工作表。" ;;
            ret (mkWorkbook (remove_titled summary_title (sheets wb))
                            (vba_archive wb))
          else ret wb) ;;
  let summary_ws := fill_summary rows_ (create_sheet wb1 summary_title) in
  logging INFO "已將統計結果寫入 '統計結果' 工作表。" ;;
  summary_ws' <-
    match find_name_col (ws_row ws 1) 1 with
    | None =>
        logging WARNING
          ("在工作表 '" ++ title ws
           ++ "' 中未找到 'Name' 欄位！無法生成超連結。") ;;
        ret summary_ws
    | Some name_col_idx =>
        logging INFO "已為統計結果添加超連結。" ;;
        ret (add_hyperlinks ws name_col_idx summary_ws)
    end ;;
  ret (mkWorkbook (sheets wb1 ++ [summary_ws']) (vba_archive wb1)).

(** The [.xls] branch: a new workbook, its sheet named after the first
    sheet of the input when that can be had, rebuilt from the frame. *)
Definition open_xls (u : Upload) (df : DataFrame) (recs : list Record_)
  : M (Workbook * Worksheet) :=
  logging INFO
    ("處理 .xls 檔案: " ++ filename u ++ ". 將創建新的 .xlsx 輸出檔案。") ;;
  let active := mkWorksheet "Sheet" [] in
  ws <- try_except
          (sheet_names <- lift (ExcelFile_sheet_names u) ;;
           match sheet_names with
           | first :: _ => lift (set_title ["Sheet"] first active)
           | [] => ret active
           end)
          (fun _ =>
             logging WARNING
               "無法從 .xls 獲取原始工作表名，使用預設名稱 Sheet1" ;;
             ret active) ;;
  let ws' := highlight_rows recs (rebuild_sheet df recs ws) in
  ret (mkWorkbook [ws'] None, ws').

Definition load_workbook (u : Upload) (keep_vba : bool) : M Workbook :=
  wb <- lift (load_workbook_doc u) ;;
  ret (mkWorkbook (sheets wb) (if keep_vba then vba_archive wb else None)).

(** The [.xlsx] / [.xlsm] branch: the input workbook, edited in place. *)
Definition open_xlsx (u : Upload) (file_ext : string)
    (recs : list Record_) : M (Workbook * Worksheet) :=
  wb <- (if String.eqb file_ext ".xlsm" then
           logging INFO
             ("處理 .xlsm 檔案: " ++ filename u ++ ". 將嘗試保留 VBA 宏。") ;;
           load_workbook u true
         else
           logging INFO ("處理 .xlsx 檔案: " ++ filename u ++ ".") ;;
           load_workbook u false) ;;
  match sheets wb with
  | [] => raise (OtherException "list index out of range")
  | first :: others =>
      let ws := highlight_rows recs first in
      ret (mkWorkbook (ws :: others) (vba_archive wb), ws)
  end.

(** The workbook to edit, its primary sheet and the output file name, by
    extension.  (With any other extension [wb] would still be [None] at
    the summary step; [upload_body] lets none through.) *)
Definition open_book (u : Upload) (file_base_name file_ext : string)
    (df : DataFrame) (recs : list Record_)
  : M (Workbook * Worksheet * string) :=
  if String.eqb file_ext ".xls" then
    p <- open_xls u df recs ;;
    ret (p, "result_" ++ file_base_name ++ ".xlsx")
  else if mem String.eqb file_ext [".xlsx"; ".xlsm"] then
    p <- open_xlsx u file_ext recs ;;
    ret (p, "result_" ++ filename u)
  else
    raise (OtherException "'NoneType' object has no attribute 'sheetnames'").

(** Steps 5 to 8 of [upload_file], for a frame that has the required
    columns. *)
Definition analyze_and_report (u : Upload) (file_base_name file_ext : string)
    (df : DataFrame) : M Response :=
  let recs := dropna df in
  (match recs with [] => fault (empty_frame_fault u) | _ => ret tt end) ;;
  let rows_ := summary recs in
  logging INFO
    ("檔案 " ++ filename u ++ " 分析完成，發現 "
     ++ str_of_nat (length (inconsistent_names recs))
     ++ " 個名稱存在型態不一致。") ;;
  '(wb, ws, output_filename) <-
    open_book u file_base_name file_ext df recs ;;
  wb' <- append_summary wb ws rows_ ;;
  let output_path := path_join TEMP_OUTPUT_DIR output_filename in
  fault (save_fault u) ;;
  save_to output_path wb' ;;
  logging INFO ("處理後檔案已保存到: " ++ output_path) ;;
  ret (mkResponse 200 true "檔案處理完成！" (Some output_filename)).

(** Steps 3 to 8: load, check the columns, analyse and report. *)
Definition process (u : Upload) (file_base_name file_ext : string)
  : M Response :=
  df <- load u file_ext ;;
  if negb (has_required u df) then
    let missing := missing_columns u df in
    logging WARNING
      ("檔案 " ++ filename u ++ " 缺少必要欄位: " ++ join ", " missing) ;;
    ret (bad_request (msg_missing_columns ++ join ", " missing))
  else
    analyze_and_report u file_base_name file_ext df.

(** The [try] block of [upload_file]. *)
Definition upload_body (u : Upload) : M Response :=
  logging INFO
    ("接收到檔案上傳請求：" ++ filename u ++ " (MIME: "
     ++ content_type u ++ ")") ;;
  if (file_size u >? MAX_FILE_SIZE_MB * 1024 * 1024)%Z then
    logging WARNING
      ("檔案 " ++ filename u ++ " (大小: " ++ str_of_Z (file_size u)
       ++ " bytes) 超出大小限制。") ;;
    ret (bad_request
           ("上傳檔案大小超出限制。檔案大小不能超過 "
            ++ str_of_Z MAX_FILE_SIZE_MB ++ " MB。"))
  else
    set_temp_input_dir (mkdtemp u) ;;
    let input_path := path_join (mkdtemp u) (filename u) in
    fault (store_fault u) ;;
    logging INFO ("檔案已暫存到: " ++ input_path) ;;
    let '(file_base_name, ext) := splitext (filename u) in
    let file_ext := lower ext in
    if negb (mem String.eqb file_ext supported_extensions) then
      logging WARNING
        ("不支援的檔案格式: " ++ filename u ++ " (" ++ file_ext ++ ")") ;;
      ret (bad_request
             ("不支援的檔案格式。僅支援 "
              ++ join ", " supported_extensions ++ " 檔案。"))
    else
      process u file_base_name file_ext.

(** The two handlers of [upload_file]: [except ValueError as ve] and
    [except Exception as e]. *)
Definition handle_exception (u : Upload) (e : exn) : M Response :=
  match e with
  | ValueError ve =>
      logging ERROR ("處理錯誤 (ValueError): " ++ ve) ;;
      ret (bad_request ve)
  | OtherException t =>
      logging CRITICAL
        ("處理檔案 " ++ filename u ++ " 時發生未預期錯誤: " ++ t) ;;
      ret (mkResponse 500 false (msg_internal ++ t) None)
  end.

(** The [try] block with its handlers. *)
Definition upload_handler (u : Upload) : M Response :=
  try_except (upload_body u) (handle_exception u).

(** The [finally] block: the temporary input directory, when one was made
    and still exists, is removed; the removal or its failure is logged. *)
Definition cleanup (u : Upload) : M unit :=
  dir <- get_temp_input_dir ;;
  match dir with
  | Some d =>
      if negb (String.eqb d EmptyString) && input_dir_exists u then
        try_except
          (fault (option_map OtherException (rmtree_fault u)) ;;
           logging INFO ("已清理臨時輸入目錄: " ++ d))
          (fun e =>
             logging ERROR
               ("清理臨時輸入目錄失敗 " ++ d ++ ": " ++ str_exn e))
      else ret tt
  | None => ret tt
  end.

(** [upload_file(request, file)]: both locals start as [None]. *)
Definition upload_file (u : Upload) : outcome Response * State :=
  try_finally (upload_handler u) (cleanup u) (mkState [] None None).
End Composer.

(** ** The download route *)

(** [s.split(c)]. *)
Fixpoint split_on (c : ascii) (s : string) : list string :=
  match s with
  | EmptyString => [EmptyString]
  | String d t =>
      if Ascii.eqb d c then EmptyString :: split_on c t
      else match split_on c t with
           | h :: r => String d h :: r
           | [] => [String d EmptyString]
           end
  end.

(** [s.endswith(c)]. *)
Fixpoint ends_with (c : ascii) (s : string) : bool :=
  match s with
  | EmptyString => false
  | String d EmptyString => Ascii.eqb d c
  | String _ t => ends_with c t
  end.

(** [os.path.join(a, b)] (POSIX). *)
Definition os_path_join (a b : string) : string :=
  if String.prefix "/" b then b
  else match a with
       | EmptyString => b
       | _ => if ends_with slash a then a ++ b else a ++ "/" ++ b
       end.

(** The number of leading slashes [normpath] keeps: one, or two when the
    path starts with exactly two. *)
Definition initial_slashes (path : string) : nat :=
  if String.prefix "/" path then
    if String.prefix "//" path && negb (String.prefix "///" path) then 2 else 1
  else 0.

(** One iteration of the component loop of [normpath]. *)
Definition norm_step (initial : nat) (new_comps : list string)
    (comp : string) : list string :=
  if String.eqb comp EmptyString || String.eqb comp "." then new_comps
  else if negb (String.eqb comp "..")
          || ((initial =? 0)%nat && (length new_comps =? 0)%nat)
          || String.eqb (last new_comps EmptyString) ".."
       then new_comps ++ [comp]
       else removelast new_comps.

Fixpoint slashes (n : nat) : string :=
  match n with 0 => EmptyString | S n' => String slash (slashes n') end.

(** [os.path.normpath(path)] (POSIX). *)
Definition normpath (path : string) : string :=
  match path with
  | EmptyString => "."
  | _ =>
      let initial := initial_slashes path in
      let comps := fold_left (norm_step initial) (split_on slash path) [] in
      match slashes initial ++ join "/" comps with
      | EmptyString => "."
      | p => p
      end
  end.

(** The part of the file system the download route consults. *)
Record FileSystem := mkFileSystem
  { (** [os.getcwd()] *)
    getcwd : string;
    (** [os.path.exists] *)
    path_exists : string -> bool;
    (** [os.path.isfile] *)
    path_isfile : string -> bool }.

(** [os.path.abspath(path)]. *)
Definition abspath (fs : FileSystem) (path : string) : string :=
  normpath (if String.prefix "/" path then path
            else os_path_join (getcwd fs) path).

(** What the route answers: a 404 [HTTPException], or the file. *)
Inductive Download :=
| HTTPException (status : Z) (detail : string)
| FileResponse (path filename media_type : string).

Definition xlsx_media_type : string :=
  "application/vnd.openxmlformats-officedocument.spreadsheetml.sheet".

(** [download_file(filename)], with the log entry it writes. *)
Definition download_file (fs : FileSystem) (filename : string)
  : Download * (level * string) :=
  let file_path := os_path_join TEMP_OUTPUT_DIR filename in
  if negb (path_exists fs file_path)
     || negb (path_isfile fs file_path)
     || negb (String.prefix (abspath fs TEMP_OUTPUT_DIR)
                (abspath fs file_path))
  then (HTTPException 404 "檔案未找到或已過期。",
        (WARNING, "請求下載的檔案不存在或無效: " ++ filename
                  ++ " (路徑: " ++ file_path ++ ")"))
  else (FileResponse file_path filename xlsx_media_type,
        (INFO, "提供檔案下載: " ++ filename)).

(** ** Specification vocabulary *)

(** [d] is a most frequent value of [xs]. *)
Definition is_mode (d : string) (xs : list string) : Prop :=
  In d xs /\ forall v, count String.eqb v xs <= count String.eqb d xs.

(** The (Name, Data Type) key of a summary row. *)
Definition summary_key (t : string * string * nat) : string * string :=
  (fst (fst t), snd (fst t)).

Definition summary_count (t : string * string * nat) : nat := snd t.

(** The sum of the counts of the summary rows of Name [n]. *)
Definition count_sum (n : string) (rows_ : list (string * string * nat))
  : nat :=
  fold_right Nat.add 0
    (map summary_count
       (filter (fun t => String.eqb n (fst (summary_key t))) rows_)).

(** Number of analysed Records with Name [n] and Data Type [d]. *)
Definition occurrences (n d : string) (recs : list Record_) : nat :=
  length (filter (fun r => String.eqb n (Name r) && String.eqb d (DataType r))
                 recs).

(** Number of analysed Records with Name [n]. *)
Definition records_named (n : string) (recs : list Record_) : nat :=
  length (filter (fun r => String.eqb n (Name r)) recs).

(** [a] is the most frequent value of [xs] that occurs first in [xs]. *)
Definition first_seen_mode (a : string) (xs : list string) : Prop :=
  is_mode a xs
  /\ exists pre post, xs = (pre ++ a :: post)%list
                      /\ forall v, is_mode v xs -> ~ In v pre.

(** The tie-break by first appearance: the dominant value of every Name is
    the first-seen mode of its group. *)
Definition first_seen_tie_break (recs : list Record_) : Prop :=
  forall n a,
    first_seen_mode a (group recs n) ->
    dict_get (common_types recs) n = Some a.

(** The base name and the lower-cased extension [upload_file] works with. *)
Definition file_base_name_of (u : Upload) : string :=
  fst (splitext (filename u)).

Definition file_ext_of (u : Upload) : string :=
  lower (snd (splitext (filename u))).

(** The upload passes the size check, is stored, and has a supported
    extension. *)
Definition accepted (u : Upload) : Prop :=
  (file_size u <= MAX_FILE_SIZE_MB * 1024 * 1024)%Z
  /\ store_fault u = None
  /\ In (file_ext_of u) supported_extensions.

(** The loader obtains frame [df]: directly, or by the single-sheet retry. *)
Definition loads (u : Upload) (df : DataFrame) : Prop :=
  read_excel_first u = Return df
  \/ exists e only,
       read_excel_first u = Raise e
       /\ ExcelFile_sheet_names u = Return [only]
       /\ read_excel_sheet u only = Return df.

(** [text] occurs in [msg]. *)
Definition contains (text msg : string) : Prop :=
  exists pre post, msg = pre ++ text ++ post.

(** A cell that holds [v] and carries neither the fill nor the link
    font. *)
Definition unstyled (v : value) : Cell := mkCell (Some v) false false.

(** The cells of a summary sheet without links: the header, then for every
    summary row its Name, its Data Type and its Count, all unstyled. *)
Definition plain_summary_grid (rows_ : list (string * string * nat))
  : list (list Cell) :=
  [unstyled (VStr "Name"); unstyled (VStr "Data Type");
   unstyled (VStr "Count")]
    :: map (fun t => [unstyled (VStr (fst (summary_key t)));
                      unstyled (VStr (snd (summary_key t)));
                      unstyled (VInt (Z.of_nat (summary_count t)))])
         rows_.

(** What the [finally] block adds to the log of a request that made its
    temporary directory: nothing when the directory is gone (or has the
    empty name), an INFO entry once it is removed, an ERROR entry with the
    text of the [OSError] when the removal fails. *)
Definition cleanup_entries (u : Upload) : list (level * string) :=
  if String.eqb (mkdtemp u) EmptyString then []
  else if input_dir_exists u then
    match rmtree_fault u with
    | None => [(INFO, "已清理臨時輸入目錄: " ++ mkdtemp u)]
    | Some e => [(ERROR, "清理臨時輸入目錄失敗 " ++ mkdtemp u ++ ": " ++ e)]
    end
  else [].

(** The outcome [p] of the [try] block and its handlers once the
    [finally] block has run, in a request that made its temporary
    directory. *)
Definition after_cleanup (u : Upload) (p : outcome Response * State)
  : outcome Response * State :=
  (fst p,
   mkState (log (snd p) ++ cleanup_entries u) (saved (snd p))
     (temp_input_dir (snd p))).

(** [c] leaves the local [temp_input_dir] as it finds it. *)
Definition keeps_dir {A : Type} (c : M A) : Prop :=
  forall st, temp_input_dir (snd (c st)) = temp_input_dir st.

(** Log entries no worse than a warning. *)
Definition at_most_warnings (entries : list (level * string)) : Prop :=
  forall l m, In (l, m) entries -> l = INFO \/ l = WARNING.

(** The sheets of a book once an old summary sheet is removed. *)
Definition without_summary (l : list Worksheet) : list Worksheet :=
  if mem String.eqb summary_title (map title l)
  then remove_titled summary_title l
  else l.

(** [st'] extends the log of [st] by entries no worse than a warning and
    saves nothing new. *)
Definition quiet_step (st st' : State) : Prop :=
  saved st' = saved st
  /\ exists extra, log st' = (log st ++ extra)%list
                   /\ at_most_warnings extra.

(** Closes [quiet_step st st'] when [st'] is [st] with explicit entries
    appended to its log. *)
Ltac solve_quiet :=
  split; [reflexivity|];
  cbn [log saved]; rewrite <- ?app_assoc;
  eexists; split; [reflexivity|];
  let Hin := fresh "Hin" in
  intros ? ? Hin; cbn [app In] in Hin;
  repeat (destruct Hin as [Hin|Hin]; [inversion Hin; auto|]);
  destruct Hin.

(** The warning logged when the primary sheet has no "Name" header. *)
Definition no_name_warning (ws : Worksheet) : level * string :=
  (WARNING, "在工作表 '" ++ title ws ++ "' 中未找到 'Name' 欄位！無法生成超連結。").

(** No character of [s] is an ASCII lower-case letter. *)
Fixpoint no_lowercase_letter (s : string) : bool :=
  match s with
  | EmptyString => true
  | String c t => negb (ascii_in_range 97 122 c) && no_lowercase_letter t
  end.

(** A response that repeats the text of the exception it reports. *)
Definition leaks_exception_text (e : exn) (r : Response) : Prop :=
  contains (str_exn e) (message r).

(** The claim that internal failures are reported without their text: when
    the body of [upload_file] raises a non-[ValueError] exception with a
    non-empty text, the response does not contain that text. *)
Definition internal_failures_hidden {xl : Libraries} (u : Upload) : Prop :=
  forall t st resp st',
    upload_body u (mkState [] None None) = (Raise (OtherException t), st) ->
    t <> EmptyString ->
    upload_file u = (Return resp, st') ->
    ~ leaks_exception_text (OtherException t) resp.

(** ** Sample documents for the concrete runs *)

Fixpoint column_letters (fuel n : nat) : string :=
  match fuel with
  | 0 => EmptyString
  | S fuel' =>
      if (n =? 0)%nat then EmptyString
      else column_letters fuel' ((n - 1) / 26)
           ++ String (ascii_of_nat (65 + (n - 1) mod 26)) EmptyString
  end.

(** [strip] and [lower] as they act on ASCII text. *)
Definition is_space (c : ascii) : bool :=
  ascii_in_range 9 13 c || ascii_in_range 28 32 c.

Fixpoint lstrip (s : string) : string :=
  match s with
  | EmptyString => EmptyString
  | String c t => if is_space c then lstrip t else s
  end.

Fixpoint rstrip (s : string) : string :=
  match s with
  | EmptyString => EmptyString
  | String c t =>
      match rstrip t with
      | EmptyString => if is_space c then EmptyString
                       else String c EmptyString
      | t' => String c t'
      end
  end.

(** Libraries for documents whose text is ASCII. *)
Definition sample_libraries : Libraries :=
  mkLibraries
    (fun s => "'" ++ replace_char (ascii_of_nat 39) "''" s ++ "'")
    (fun n => column_letters n n)
    (fun _ _ => 0)
    (fun s => rstrip (lstrip s))
    lower.

Definition sample_sheet : Worksheet :=
  mkWorksheet "Data"
    (map (map (fun s => plain (VStr s)))
       [["Name"; "Data Type"]; ["x"; "int"]; ["x"; "int"]; ["x"; "str"]]).

(** The same rows under a header that has no "Name" cell. *)
Definition sample_sheet_no_name : Worksheet :=
  mkWorksheet "Data"
    (map (map (fun s => plain (VStr s)))
       [["Field"; "Data Type"]; ["x"; "int"]; ["x"; "int"]; ["x"; "str"]]).

Definition sample_book : Workbook :=
  mkWorkbook [sample_sheet] (Some "vbaProject.bin").

Definition sample_upload (name : string) (wb : outcome Workbook) : Upload :=
  mkUpload name "application/octet-stream" 2048 "/tmp/tmpk3v9"
    None (Return scenario_A) (Return ["Data"]) (fun _ => Return scenario_A)
    true None wb None true None.

(** A workbook pandas cannot read without a sheet choice, with two sheets. *)
Definition upload_two_sheets : Upload :=
  mkUpload "book.xlsx" "application/octet-stream" 2048 "/tmp/tmpk3v9"
    None (Raise (OtherException "sheet selection failed"))
    (Return ["Data"; "Notes"]) (fun _ => Return scenario_A)
    true None (Return sample_book) None true None.

(** The same, with a single sheet. *)
Definition upload_one_sheet : Upload :=
  mkUpload "book.xlsx" "application/octet-stream" 2048 "/tmp/tmpk3v9"
    None (Raise (OtherException "sheet selection failed"))
    (Return ["Data"]) (fun _ => Return scenario_A)
    true None (Return sample_book) None true None.

(** A table with a Name column and no Data Type column. *)
Definition upload_without_data_type : Upload :=
  mkUpload "book.xlsx" "application/octet-stream" 2048 "/tmp/tmpk3v9"
    None (Return (mkDataFrame ["Name"; "Kind"]
                    [mkRow 0 [Some "x"; Some "int"]]))
    (Return ["Data"]) (fun _ => Return scenario_A)
    true None (Return sample_book) None true None.

(** A book that already holds a summary sheet from an earlier run. *)
Definition processed_book : Workbook :=
  mkWorkbook
    [sample_sheet;
     mkWorksheet summary_title (plain_summary_grid [("x", "int", 3)])]
    None.

(** The sample document uploaded under three names. *)
Definition upload_legacy : Upload := sample_upload "types.XLS" (Return sample_book).
Definition upload_macro : Upload := sample_upload "types.xlsm" (Return sample_book).
Definition upload_no_name_header : Upload :=
  sample_upload "types.xlsx" (Return (mkWorkbook [sample_sheet_no_name] None)).

(** A file pandas reads and openpyxl rejects. *)
Definition upload_rejected_by_openpyxl : Upload :=
  sample_upload "book.xlsx" (Raise (OtherException "File is not a zip file")).

(** A file neither pandas reader can open. *)
Definition upload_unreadable : Upload :=
  mkUpload "book.xls" "application/octet-stream" 2048 "/tmp/tmpk3v9"
    None (Raise (OtherException "Missing optional dependency 'xlrd'"))
    (Raise (OtherException "Missing optional dependency 'xlrd'"))
    (fun _ => Return scenario_A)
    true None (Return sample_book) None true None.

(** ** Vocabulary of the further properties *)

(** The cell [x] with the yellow fill. *)
Definition set_fill (x : Cell) : Cell := mkCell (cvalue x) true (blue_font x).

(** One iteration of the highlight loop. *)
Definition highlight_step (flags : list Record_) (w : Worksheet)
    (r : Record_) : Worksheet :=
  if Highlight flags r then
    let excel_row := rec_label r + 2 in
    if (excel_row <=? max_row w)%nat then fill_row excel_row w else w
  else w.

(** Every cell of the row carries the yellow fill. *)
Definition filled (row : list Cell) : Prop :=
  Forall (fun x => yellow_fill x = true) row.

(** One iteration of the data loop of the [.xls] branch. *)
Definition rebuild_step (df : DataFrame) (flags : list Record_)
    (w : Worksheet) (r : Record_) : Worksheet :=
  write_row (rec_label r + 2) 1
    (map (record_value df flags r) (annotated_columns df)) w.

(** The test of the hyperlink search on sheet row [j]: the cell in the
    Name column is not empty and equals the summary name once both are
    trimmed and lower-cased (by Python's [strip] and [lower]). *)
Definition name_matches {xl : Libraries} (ws : Worksheet)
    (name_col_idx : nat) (field_name : value) (j : nat) : bool :=
  match cell_value ws j name_col_idx with
  | Some original =>
      String.eqb (str_lower (str_strip (str_of_value original)))
                 (str_lower (str_strip (str_of_value field_name)))
  | None => false
  end.

(** [j] is the first sheet row in [2 .. max_row] that matches. *)
Definition first_match {xl : Libraries} (ws : Worksheet)
    (name_col_idx : nat) (field_name : value) (j : nat) : Prop :=
  2 <= j <= max_row ws
  /\ name_matches ws name_col_idx field_name j = true
  /\ forall i, 2 <= i < j -> name_matches ws name_col_idx field_name i = false.

(** [s] with every double quote doubled. *)
Fixpoint double_quotes (s : string) : string :=
  match s with
  | EmptyString => EmptyString
  | String c t =>
      if Ascii.eqb c (ascii_of_nat 34)
      then String c (String c (double_quotes t))
      else String c (double_quotes t)
  end.

(** The formula that shows [field_name] and jumps to the cell in column
    [name_col_idx] and row [found_row] of sheet [ws]. *)
Definition link_text {xl : Libraries} (ws : Worksheet) (name_col_idx : nat)
    (found_row : nat) (field_name : value) : string :=
  "=HYPERLINK(" ++ dquote ++ "#" ++ quote_sheetname (title ws) ++ "!"
    ++ get_column_letter name_col_idx ++ str_of_nat found_row ++ dquote
    ++ ", " ++ dquote ++ double_quotes (str_of_value field_name) ++ dquote
    ++ ")".

(** The Name cell of a summary row once linked to sheet row [found_row]:
    the formula as its value, the link font, its fill as before. *)
Definition linked_cell {xl : Libraries} (ws : Worksheet) (name_col_idx : nat)
    (found_row : nat) (name_cell : Cell) (field_name : value) : Cell :=
  mkCell (Some (VStr (link_text ws name_col_idx found_row field_name)))
         (yellow_fill name_cell) true.

(** [ws.cell(row=r, column=c)], the empty cell where the sheet has none. *)
Definition cell_at (ws : Worksheet) (r c : nat) : Cell :=
  nth (c - 1) (nth (r - 1) (grid ws) []) empty_cell.

(** The value written for a frame cell: its text, or NaN when missing. *)
Definition text_or_nan (c : cell) : value :=
  match c with Some s => VStr s | None => VNaN end.

(** The row survives [dropna]: it has a Name and a Data Type. *)
Definition analysed (df : DataFrame) (row : Row) (n d : string) : Prop :=
  In row (rows df)
  /\ at_col (columns df) "Name" row = Some n
  /\ at_col (columns df) "Data Type" row = Some d.

(** [c] occurs in [s]. *)
Fixpoint occurs (c : ascii) (s : string) : bool :=
  match s with
  | EmptyString => false
  | String d t => Ascii.eqb d c || occurs c t
  end.

(** A path component that the loop of [normpath] simply appends. *)
Definition plain_name (s : string) : Prop :=
  occurs slash s = false /\ s <> EmptyString /\ s <> "." /\ s <> "..".

(** The output directory, after a request, holds the file the request
    saved. *)
Definition holds_saved (fs : FileSystem) (st : State) : Prop :=
  forall p wb, saved st = Some (p, wb) ->
               path_exists fs p = true /\ path_isfile fs p = true.

(** A file system in which exactly the given path is a file. *)
Definition fs_with (cwd file : string) : FileSystem :=
  mkFileSystem cwd (String.eqb file) (String.eqb file).

(** * Properties *)

(** ** Lists: membership, duplicates and order of [unique] and [sort] *)

Section UniqueFacts.
Context {A : Type}.
Variable eqb : A -> A -> bool.
Hypothesis eqb_spec : forall x y, reflect (x = y) (eqb x y).

Lemma eqb_true_iff x y : eqb x y = true <-> x = y.
Proof. destruct (eqb_spec x y); split; congruence. Qed.

Lemma eqb_same x : eqb x x = true.
Proof. now apply eqb_true_iff. Qed.

Lemma mem_In v xs : mem eqb v xs = true <-> In v xs.
Proof.
  unfold mem. rewrite existsb_exists. split.
  - intros [x [Hx He]]. apply eqb_true_iff in He. now subst.
  - intros H. exists v. split; [assumption | apply eqb_same].
Qed.

Lemma count_pos_In v xs : 0 < count eqb v xs <-> In v xs.
Proof.
  unfold count. induction xs as [|x t IH]; simpl.
  - split; [lia | tauto].
  - destruct (eqb_spec v x) as [->|Hne]; simpl.
    + split; [auto | lia].
    + rewrite IH. split; [auto | intros [H|H]; congruence].
Qed.

Lemma count_zero_notin v xs : ~ In v xs -> count eqb v xs = 0.
Proof.
  intros H. destruct (count eqb v xs) eqn:E; [reflexivity|].
  exfalso. apply H, count_pos_In. lia.
Qed.

Lemma In_unique x xs : In x (unique eqb xs) <-> In x xs.
Proof.
  induction xs as [|y t IH]; simpl; [tauto|].
  rewrite filter_In, IH.
  destruct (eqb_spec y x) as [->|Hne]; simpl.
  - split; auto.
  - split.
    + intros [H|[H _]]; auto.
    + intros [H|H]; [congruence | right; auto].
Qed.

Lemma NoDup_unique xs : NoDup (unique eqb xs).
Proof.
  induction xs as [|y t IH]; simpl; constructor.
  - rewrite filter_In. intros [_ H]. now rewrite eqb_same in H.
  - now apply NoDup_filter.
Qed.

End UniqueFacts.

Section SortFacts.
Context {A : Type}.
Variable leb : A -> A -> bool.

Lemma insert_sorted_perm x l : Permutation (x :: l) (insert_sorted leb x l).
Proof.
  induction l as [|y t IH]; simpl; [reflexivity|].
  destruct (leb x y); [reflexivity|].
  rewrite perm_swap. now constructor.
Qed.

Lemma sort_perm l : Permutation l (sort leb l).
Proof.
  induction l as [|x t IH]; simpl; [constructor|].
  rewrite <- insert_sorted_perm. now constructor.
Qed.

Lemma In_sort x l : In x (sort leb l) <-> In x l.
Proof.
  split; apply Permutation_in;
    [symmetry | idtac]; apply sort_perm.
Qed.

Lemma NoDup_sort l : NoDup l -> NoDup (sort leb l).
Proof. apply Permutation_NoDup, sort_perm. Qed.

(** With a total, transitive order the head of the sorted list is a
    least element. *)
Hypothesis leb_total : forall x y, leb x y = true \/ leb y x = true.
Hypothesis leb_trans :
  forall x y z, leb x y = true -> leb y z = true -> leb x z = true.

Lemma insert_sorted_head x l h t :
  (forall y, In y l -> exists h0 t0, l = h0 :: t0 /\ leb h0 y = true) ->
  insert_sorted leb x l = h :: t ->
  forall y, In y (x :: l) -> leb h y = true.
Proof.
  intros Hl Hins y Hy. destruct l as [|z l']; simpl in Hins.
  - injection Hins as <- <-. destruct Hy as [<-|[]].
    destruct (leb_total x x); assumption.
  - assert (Hz : forall y0, In y0 (z :: l') -> leb z y0 = true).
    { intros y0 H0. destruct (Hl y0 H0) as [h0 [t0 [E L]]].
      injection E as <- <-. assumption. }
    destruct (leb x z) eqn:Hxz.
    + injection Hins as <- <-. destruct Hy as [<-|Hy].
      * destruct (leb_total x x); assumption.
      * apply leb_trans with z; auto.
    + injection Hins as <- <-. destruct Hy as [<-|Hy]; auto.
      destruct (leb_total x z); congruence.
Qed.

Lemma sort_head_least l :
  forall y, In y (sort leb l) ->
  exists h t, sort leb l = h :: t /\ leb h y = true.
Proof.
  induction l as [|x l IH]; simpl; [tauto|].
  intros y Hy.
  destruct (insert_sorted leb x (sort leb l)) as [|h t] eqn:E.
  - destruct Hy.
  - exists h, t. split; [reflexivity|].
    apply (insert_sorted_head x (sort leb l) h t IH E).
    apply Permutation_in with (l := h :: t); [|assumption].
    rewrite <- E. symmetry. apply insert_sorted_perm.
Qed.
End SortFacts.

(** ** The order on strings *)

Lemma string_leb_trans a b c :
  String.leb a b = true -> String.leb b c = true -> String.leb a c = true.
Proof.
  unfold String.leb. revert b c.
  induction a as [|x a IH]; intros [|y b] [|z c]; simpl; try easy.
  unfold Ascii.compare.
  destruct (N.compare_spec (N_of_ascii x) (N_of_ascii y)) as [Exy|Exy|Exy];
    try easy;
    destruct (N.compare_spec (N_of_ascii y) (N_of_ascii z)) as [Eyz|Eyz|Eyz];
    try easy;
    destruct (N.compare_spec (N_of_ascii x) (N_of_ascii z)) as [Exz|Exz|Exz];
    try easy; try lia.
  apply IH.
Qed.

(** ** The mode and the dominant value *)

Lemma max_count_ge vc p : In p vc -> snd p <= max_count vc.
Proof.
  unfold max_count. induction vc as [|q t IH]; simpl; [tauto|].
  intros [->|H]; [lia | specialize (IH H); lia].
Qed.

Lemma max_count_attained vc :
  vc <> [] -> exists p, In p vc /\ snd p = max_count vc.
Proof.
  unfold max_count. induction vc as [|q t IH]; [congruence|].
  intros _. simpl. destruct t as [|q' t'].
  - exists q. simpl. split; [auto | lia].
  - destruct IH as [p [Hp Ep]]; [congruence|].
    destruct (Nat.max_spec (snd q)
                (fold_right Nat.max 0 (map snd (q' :: t')))) as [[_ E]|[_ E]];
      rewrite E.
    + exists p. split; [right; assumption | assumption].
    + exists q. split; [left; reflexivity | reflexivity].
Qed.

Lemma In_value_counts p xs :
  In p (value_counts xs) <->
  In (fst p) xs /\ snd p = count String.eqb (fst p) xs.
Proof.
  unfold value_counts. rewrite in_map_iff. split.
  - intros [v [<- Hv]]. simpl.
    apply (proj1 (In_unique String.eqb String.eqb_spec v xs)) in Hv. auto.
  - intros [Hin E]. exists (fst p). split.
    + destruct p; simpl in *; congruence.
    + now apply (proj2 (In_unique String.eqb String.eqb_spec (fst p) xs)).
Qed.

Lemma In_mode d xs :
  In d (mode xs) <->
  In d xs /\ count String.eqb d xs = max_count (value_counts xs).
Proof.
  unfold mode. cbv zeta. rewrite In_sort, in_map_iff. split.
  - intros [p [<- Hp]]. apply filter_In in Hp. destruct Hp as [Hp E].
    apply Nat.eqb_eq in E. apply In_value_counts in Hp. destruct Hp as [H1 H2].
    split; [assumption | congruence].
  - intros [Hin E]. exists (d, count String.eqb d xs). split; [reflexivity|].
    apply filter_In. split.
    + apply In_value_counts. simpl. auto.
    + simpl. now apply Nat.eqb_eq.
Qed.

Lemma In_mode_is_mode d xs : In d (mode xs) <-> is_mode d xs.
Proof.
  rewrite In_mode. unfold is_mode. split.
  - intros [Hin E]. split; [assumption|]. intros v.
    destruct (in_dec string_dec v xs) as [Hv|Hv].
    + rewrite E.
      apply (max_count_ge (value_counts xs) (v, count String.eqb v xs)).
      apply In_value_counts. simpl. auto.
    + rewrite (count_zero_notin String.eqb String.eqb_spec v xs Hv). lia.
  - intros [Hin Hmax]. split; [assumption|].
    destruct (max_count_attained (value_counts xs)) as [p [Hp Ep]].
    + unfold value_counts. destruct xs; [destruct Hin | simpl; congruence].
    + pose proof (max_count_ge (value_counts xs)
                    (d, count String.eqb d xs)) as Hle.
      simpl in Hle. apply In_value_counts in Hp. destruct Hp as [Hp1 Hp2].
      specialize (Hmax (fst p)).
      assert (In (d, count String.eqb d xs) (value_counts xs))
        by (apply In_value_counts; simpl; auto).
      specialize (Hle H). lia.
Qed.

(** A non-empty group has a mode, so the aggregation returns a value. *)
Lemma agg_mode0_defined xs : xs <> [] -> exists d, agg_mode0 xs = Some d.
Proof.
  intros Hne. unfold agg_mode0.
  destruct (max_count_attained (value_counts xs)) as [p [Hp Ep]].
  - unfold value_counts. destruct xs; [congruence | simpl; congruence].
  - apply In_value_counts in Hp. destruct Hp as [Hp1 Hp2].
    assert (Hm : In (fst p) (mode xs))
      by (apply In_mode; split; [assumption | congruence]).
    destruct (mode xs) as [|d t]; [destruct Hm | exists d; reflexivity].
Qed.

(** The aggregated value is a mode, and the least one in string order. *)
Lemma agg_mode0_least d xs :
  agg_mode0 xs = Some d ->
  is_mode d xs /\ forall v, is_mode v xs -> String.leb d v = true.
Proof.
  unfold agg_mode0. intros H.
  destruct (mode xs) as [|h t] eqn:E; simpl in H; [discriminate|].
  injection H as ->. split.
  - apply In_mode_is_mode. rewrite E. now left.
  - intros v Hv. apply In_mode_is_mode in Hv.
    unfold mode in *. cbv zeta in *.
    destruct (sort_head_least String.leb String.leb_total string_leb_trans
                _ v Hv) as [h0 [t0 [E0 L]]].
    rewrite E in E0. injection E0 as <- <-. assumption.
Qed.

Lemma dict_get_map (f : string -> cell) ks k :
  dict_get (map (fun n => (n, f n)) ks) k =
  if mem String.eqb k ks then f k else None.
Proof.
  unfold mem. induction ks as [|a t IH]; simpl; [reflexivity|].
  rewrite (String.eqb_sym k a).
  destruct (String.eqb_spec a k) as [->|Hne]; simpl; [reflexivity | exact IH].
Qed.

(** [common_types] has, for each Name of the frame, the aggregated mode of
    its group; other keys are absent. *)
Lemma common_types_get recs n :
  dict_get (common_types recs) n =
  if mem String.eqb n (map Name recs) then agg_mode0 (group recs n) else None.
Proof.
  unfold common_types. rewrite dict_get_map.
  assert (E : mem String.eqb n
                (sort String.leb (unique String.eqb (map Name recs)))
              = mem String.eqb n (map Name recs)).
  { apply eq_true_iff_eq.
    rewrite !(mem_In String.eqb String.eqb_spec), In_sort.
    apply (In_unique String.eqb String.eqb_spec). }
  now rewrite E.
Qed.

Lemma In_group recs r : In r recs -> In (DataType r) (group recs (Name r)).
Proof.
  intros H. unfold group. apply in_map. apply filter_In.
  split; [assumption | apply String.eqb_refl].
Qed.

Lemma In_group_inv recs n d :
  In d (group recs n) -> exists r, In r recs /\ Name r = n /\ DataType r = d.
Proof.
  unfold group. rewrite in_map_iff. intros [r [E H]].
  apply filter_In in H. destruct H as [H1 H2].
  apply String.eqb_eq in H2. exists r. auto.
Qed.

(** Every analysed Record has a dominant value: the least mode of its group. *)
Lemma dominant_defined recs r :
  In r recs ->
  exists d, dict_get (common_types recs) (Name r) = Some d
            /\ agg_mode0 (group recs (Name r)) = Some d.
Proof.
  intros H. rewrite common_types_get.
  assert (Hm : mem String.eqb (Name r) (map Name recs) = true)
    by (apply (mem_In String.eqb String.eqb_spec); now apply in_map).
  rewrite Hm.
  destruct (agg_mode0_defined (group recs (Name r))) as [d Hd].
  - intros E. pose proof (In_group recs r H) as Hg. rewrite E in Hg.
    destruct Hg.
  - exists d. auto.
Qed.

Lemma Highlight_iff recs r d :
  dict_get (common_types recs) (Name r) = Some d ->
  (Highlight recs r = true <-> DataType r <> d).
Proof.
  intros E. unfold Highlight. rewrite E. simpl.
  destruct (String.eqb_spec (DataType r) d); simpl; split;
    congruence.
Qed.

(** The rows kept by [dropna] are the rows with both cells present. *)
Lemma dropna_spec df rec :
  In rec (dropna df) <->
  exists row, In row (rows df)
    /\ at_col (columns df) "Name" row = Some (Name rec)
    /\ at_col (columns df) "Data Type" row = Some (DataType rec)
    /\ rec = mkRecord (label row) (Name rec) (DataType rec) (cells row).
Proof.
  unfold dropna. generalize (columns df) as cols.
  induction (rows df) as [|r t IH]; intros cols; simpl.
  - split; [tauto | intros [row [[] _]]].
  - destruct (at_col cols "Name" r) as [n|] eqn:En;
      [destruct (at_col cols "Data Type" r) as [d|] eqn:Ed|];
      simpl; rewrite ?IH; split.
    + intros [<-|[row [H1 H2]]]; simpl.
      * exists r. auto.
      * exists row. auto.
    + intros [row [[<-|H1] [H2 [H3 H4]]]].
      * left. rewrite H4. congruence.
      * right. exists row. auto.
    + intros [row H]. exists row. tauto.
    + intros [row [[<-|H1] [H2 [H3 H4]]]]; [congruence|].
      exists row. auto.
    + intros [row H]. exists row. tauto.
    + intros [row [[<-|H1] [H2 [H3 H4]]]]; [congruence|].
      exists row. auto.
Qed.

(** C1: among the Records left by [dropna], a Record is flagged exactly
    when its Data Type differs from the dominant value of its Name group,
    that value being a most frequent Data Type of the group; and a Record
    whose Name group holds a single distinct Data Type is not flagged. *)
Theorem C1_flagged_iff_differs_from_mode :
  forall (df : DataFrame) (r : Record_),
    In r (dropna df) ->
    exists d,
      dict_get (common_types (dropna df)) (Name r) = Some d
      /\ is_mode d (group (dropna df) (Name r))
      /\ (Highlight (dropna df) r = true <-> DataType r <> d)
      /\ ((forall r', In r' (dropna df) -> Name r' = Name r ->
                      DataType r' = DataType r) ->
          Highlight (dropna df) r = false).
Proof.
  intros df r Hr. set (recs := dropna df) in *.
  destruct (dominant_defined recs r Hr) as [d [Hget Hagg]].
  destruct (agg_mode0_least d _ Hagg) as [Hmode _].
  exists d. split; [assumption|]. split; [assumption|]. split.
  - apply (Highlight_iff recs r d Hget).
  - intros Hsingle. destruct Hmode as [Hin _].
    apply In_group_inv in Hin. destruct Hin as [r' [H1 [H2 H3]]].
    specialize (Hsingle r' H1 H2).
    destruct (Highlight recs r) eqn:E; [|reflexivity].
    apply (Highlight_iff recs r d Hget) in E. congruence.
Qed.

(** ** The deviation summary *)

Lemma key_eqb_spec (a b : string * string) : reflect (a = b) (key_eqb a b).
Proof.
  unfold key_eqb. destruct a as [a1 a2], b as [b1 b2]; simpl.
  destruct (String.eqb_spec a1 b1), (String.eqb_spec a2 b2); simpl;
    constructor; congruence.
Qed.

Lemma count_key_occurrences n d recs :
  count key_eqb (n, d) (map key_of recs) = occurrences n d recs.
Proof.
  unfold count, occurrences.
  induction recs as [|r t IH]; simpl; [reflexivity|].
  unfold key_eqb at 1. simpl.
  destruct (String.eqb n (Name r) && String.eqb d (DataType r));
    simpl; now rewrite IH.
Qed.

Lemma In_groupby_size n d c rs :
  In (n, d, c) (groupby_size rs) <->
  In (n, d) (map key_of rs) /\ c = occurrences n d rs.
Proof.
  unfold groupby_size. rewrite in_map_iff. split.
  - intros [[n' d'] [E H]]. simpl in E. injection E as <- <- <-.
    rewrite In_sort, (In_unique key_eqb key_eqb_spec) in H.
    split; [assumption | apply count_key_occurrences].
  - intros [H ->]. exists (n, d). simpl. split.
    + now rewrite count_key_occurrences.
    + rewrite In_sort, (In_unique key_eqb key_eqb_spec). assumption.
Qed.

Lemma NoDup_groupby_size rs : NoDup (map summary_key (groupby_size rs)).
Proof.
  unfold groupby_size. rewrite map_map. unfold summary_key. simpl.
  rewrite (map_ext _ (fun k => k)) by (intros [a b]; reflexivity).
  rewrite map_id. apply NoDup_sort, (NoDup_unique key_eqb key_eqb_spec).
Qed.

Lemma In_inconsistent_names recs n :
  In n (inconsistent_names recs) <->
  exists r, In r recs /\ Name r = n /\ Highlight recs r = true.
Proof.
  unfold inconsistent_names.
  rewrite (In_unique String.eqb String.eqb_spec), in_map_iff. split.
  - intros [r [E H]]. apply filter_In in H. exists r. tauto.
  - intros [r [H1 [H2 H3]]]. exists r. rewrite filter_In. tauto.
Qed.

(** Selecting the Records of some Names keeps all Records of each selected
    Name. *)
Lemma occurrences_isin names n d recs :
  In n names ->
  occurrences n d
    (filter (fun r => mem String.eqb (Name r) names) recs)
  = occurrences n d recs.
Proof.
  intros Hn. unfold occurrences.
  induction recs as [|r t IH]; simpl; [reflexivity|].
  destruct (String.eqb_spec n (Name r)) as [E|Hne]; simpl.
  - assert (Hm : mem String.eqb (Name r) names = true)
      by (rewrite (mem_In String.eqb String.eqb_spec); congruence).
    rewrite Hm. simpl. destruct (String.eqb_spec n (Name r)); [|congruence].
    simpl. destruct (String.eqb d (DataType r)); simpl; now rewrite IH.
  - destruct (mem String.eqb (Name r) names); simpl; [|exact IH].
    destruct (String.eqb_spec n (Name r)); [congruence|]. simpl. exact IH.
Qed.

Lemma records_named_isin names n recs :
  In n names ->
  records_named n (filter (fun r => mem String.eqb (Name r) names) recs)
  = records_named n recs.
Proof.
  intros Hn. unfold records_named.
  induction recs as [|r t IH]; simpl; [reflexivity|].
  destruct (String.eqb_spec n (Name r)) as [E|Hne]; simpl.
  - assert (Hm : mem String.eqb (Name r) names = true)
      by (rewrite (mem_In String.eqb String.eqb_spec); congruence).
    rewrite Hm. simpl. destruct (String.eqb_spec n (Name r)); [|congruence].
    simpl. now rewrite IH.
  - destruct (mem String.eqb (Name r) names); simpl; [|exact IH].
    destruct (String.eqb_spec n (Name r)); [congruence|]. exact IH.
Qed.

(** Summing the group sizes over distinct keys counts every element whose
    key is listed, once. *)
Lemma count_sum_keys n (L KS : list (string * string)) :
  NoDup KS ->
  count_sum n (map (fun k => (fst k, snd k, count key_eqb k L)) KS)
  = length (filter (fun x => String.eqb n (fst x) && mem key_eqb x KS) L).
Proof.
  intros Hnd. induction KS as [|k KS IH].
  - simpl. unfold count_sum. simpl.
    induction L as [|x L IHL]; simpl; [reflexivity|].
    rewrite andb_false_r. exact IHL.
  - inversion Hnd as [|? ? Hnotin Hnd']; subst.
    specialize (IH Hnd').
    assert (Hstep :
      length (filter (fun x => String.eqb n (fst x)
                               && mem key_eqb x (k :: KS)) L)
      = (if String.eqb n (fst k) then count key_eqb k L else 0)
        + length (filter (fun x => String.eqb n (fst x)
                                   && mem key_eqb x KS) L)).
    { unfold count. clear IH.
      induction L as [|x L IHL].
      - simpl. now destruct (String.eqb n (fst k)).
      - cbn [filter].
        change (mem key_eqb x (k :: KS))
          with (key_eqb x k || mem key_eqb x KS).
        destruct (key_eqb_spec x k) as [->|Hne].
        + rewrite (eqb_same key_eqb key_eqb_spec k).
          assert (Hk : mem key_eqb k KS = false).
          { destruct (mem key_eqb k KS) eqn:E; [|reflexivity].
            rewrite (mem_In key_eqb key_eqb_spec) in E. contradiction. }
          rewrite Hk. cbn [orb]. rewrite andb_true_r, andb_false_r.
          destruct (String.eqb n (fst k)); cbn [length]; rewrite IHL; lia.
        + destruct (key_eqb_spec k x) as [->|_]; [congruence|].
          cbn [orb].
          destruct (String.eqb n (fst x) && mem key_eqb x KS);
            cbn [length]; rewrite IHL; lia. }
    rewrite Hstep, <- IH. unfold count_sum. simpl.
    destruct (String.eqb n (fst k)); reflexivity.
Qed.

Lemma count_sum_groupby_size n rs :
  count_sum n (groupby_size rs) = records_named n rs.
Proof.
  unfold groupby_size.
  rewrite count_sum_keys
    by (apply NoDup_sort, (NoDup_unique key_eqb key_eqb_spec)).
  rewrite (filter_ext_in _ (fun x => String.eqb n (fst x))).
  - unfold records_named.
    induction rs as [|r t IH]; simpl; [reflexivity|].
    destruct (String.eqb n (Name r)); simpl; now rewrite IH.
  - intros x Hx.
    assert (Hm : mem key_eqb x
                   (sort key_leb (unique key_eqb (map key_of rs))) = true).
    { rewrite (mem_In key_eqb key_eqb_spec), In_sort,
        (In_unique key_eqb key_eqb_spec). assumption. }
    rewrite Hm. apply andb_true_r.
Qed.

Lemma In_summary recs n d c :
  In (n, d, c) (summary recs) <->
  In n (inconsistent_names recs)
  /\ (exists r, In r recs /\ Name r = n /\ DataType r = d)
  /\ c = occurrences n d recs.
Proof.
  unfold summary. rewrite In_groupby_size, in_map_iff. split.
  - intros [[r [E Hr]] ->]. unfold key_of in E. injection E as <- <-.
    apply filter_In in Hr. destruct Hr as [Hr Hm].
    rewrite (mem_In String.eqb String.eqb_spec) in Hm.
    split; [assumption|]. split; [exists r; auto|].
    now apply occurrences_isin.
  - intros [Hn [[r [Hr [<- <-]]] ->]]. split.
    + exists r. split; [reflexivity|]. apply filter_In.
      split; [assumption|].
      now rewrite (mem_In String.eqb String.eqb_spec).
    + symmetry. now apply occurrences_isin.
Qed.

Lemma count_sum_summary recs n :
  In n (inconsistent_names recs) ->
  count_sum n (summary recs) = records_named n recs.
Proof.
  intros Hn. unfold summary. rewrite count_sum_groupby_size.
  now apply records_named_isin.
Qed.

(** C2: the summary has exactly one row for every (Name, Data Type)
    combination occurring among the analysed Records of a Name with a
    flagged Record, the dominant combination included, with the number of
    such Records as Count; hence the Counts of a Name in the summary add up
    to the number of analysed Records of that Name. *)
Theorem C2_summary_rows_and_counts :
  forall (df : DataFrame),
    let recs := dropna df in
    NoDup (map summary_key (summary recs))
    /\ (forall n d c,
          In (n, d, c) (summary recs) <->
          (exists r, In r recs /\ Name r = n /\ Highlight recs r = true)
          /\ (exists r, In r recs /\ Name r = n /\ DataType r = d)
          /\ c = occurrences n d recs)
    /\ (forall n,
          In n (map (fun t => fst (summary_key t)) (summary recs)) ->
          count_sum n (summary recs) = records_named n recs).
Proof.
  intros df recs. split; [apply NoDup_groupby_size|]. split.
  - intros n d c. rewrite In_summary, In_inconsistent_names. tauto.
  - intros n Hn. apply count_sum_summary.
    apply in_map_iff in Hn. destruct Hn as [[[n' d] c] [E H]].
    simpl in E. subst n'. apply In_summary in H. tauto.
Qed.

Lemma C1_flagged_witness :
  In record_3_of_A (dropna scenario_A)
  /\ exists d,
      dict_get (common_types (dropna scenario_A)) (Name record_3_of_A) = Some d
      /\ is_mode d (group (dropna scenario_A) (Name record_3_of_A))
      /\ (Highlight (dropna scenario_A) record_3_of_A = true
          <-> DataType record_3_of_A <> d)
      /\ ((forall r', In r' (dropna scenario_A) ->
                      Name r' = Name record_3_of_A ->
                      DataType r' = DataType record_3_of_A) ->
          Highlight (dropna scenario_A) record_3_of_A = false).
Proof.
  assert (H : In record_3_of_A (dropna scenario_A))
    by (vm_compute; tauto).
  split; [exact H|].
  exact (C1_flagged_iff_differs_from_mode scenario_A record_3_of_A H).
Defined.

Lemma C2_summary_witness :
  In "x" (map (fun t => fst (summary_key t)) (summary (dropna scenario_A)))
  /\ count_sum "x" (summary (dropna scenario_A))
     = records_named "x" (dropna scenario_A).
Proof.
  assert (H : In "x" (map (fun t => fst (summary_key t))
                        (summary (dropna scenario_A))))
    by (vm_compute; tauto).
  split; [exact H|].
  exact (proj2 (proj2 (C2_summary_rows_and_counts scenario_A)) "x" H).
Defined.

(** ** Scenario A and the rows of the summary *)

(** C3, as stated, fails: on the three rows of Scenario A the summary is
    not the single row ("x", "str", 1). *)
Lemma C3_scenario_A_not_single_row :
  summary (dropna scenario_A) <> [("x", "str", 1)].
Proof. vm_compute. discriminate. Qed.

(** C3, amended: on Scenario A the dominant value of "x" is "int", only
    row 3 is flagged, and the summary is the two rows ("x", "int", 2),
    ("x", "str", 1); in general the summary of a Name with a flagged Record
    holds the row of its dominant value too. *)
Theorem C3_scenario_A_summary_with_dominant :
  dict_get (common_types (dropna scenario_A)) "x" = Some "int"
  /\ map (Highlight (dropna scenario_A)) (dropna scenario_A)
     = [false; false; true]
  /\ summary (dropna scenario_A) = [("x", "int", 2); ("x", "str", 1)]
  /\ forall (df : DataFrame) (r : Record_) (d : string),
      In r (dropna df) ->
      Highlight (dropna df) r = true ->
      dict_get (common_types (dropna df)) (Name r) = Some d ->
      In (Name r, d, occurrences (Name r) d (dropna df)) (summary (dropna df))
      /\ In (Name r, DataType r,
             occurrences (Name r) (DataType r) (dropna df))
            (summary (dropna df)).
Proof.
  split; [reflexivity|]. split; [reflexivity|]. split; [reflexivity|].
  intros df r d Hr Hflag Hget. set (recs := dropna df) in *.
  assert (Hn : In (Name r) (inconsistent_names recs))
    by (apply In_inconsistent_names; exists r; auto).
  destruct (dominant_defined recs r Hr) as [d' [Hget' Hagg]].
  assert (d' = d) by congruence. subst d'.
  destruct (agg_mode0_least d _ Hagg) as [[Hin _] _].
  apply In_group_inv in Hin.
  split; apply In_summary; split; try assumption;
    (split; [|reflexivity]).
  - exact Hin.
  - exists r. auto.
Qed.

Lemma C3_summary_witness :
  In record_3_of_A (dropna scenario_A)
  /\ Highlight (dropna scenario_A) record_3_of_A = true
  /\ dict_get (common_types (dropna scenario_A)) (Name record_3_of_A)
     = Some "int"
  /\ In (Name record_3_of_A, "int",
         occurrences (Name record_3_of_A) "int" (dropna scenario_A))
        (summary (dropna scenario_A)).
Proof.
  assert (H1 : In record_3_of_A (dropna scenario_A)) by (vm_compute; tauto).
  assert (H2 : Highlight (dropna scenario_A) record_3_of_A = true)
    by reflexivity.
  assert (H3 : dict_get (common_types (dropna scenario_A))
                 (Name record_3_of_A) = Some "int") by reflexivity.
  split; [exact H1|]. split; [exact H2|]. split; [exact H3|].
  exact (proj1 (proj2 (proj2 (proj2 C3_scenario_A_summary_with_dominant))
                  scenario_A record_3_of_A "int" H1 H2 H3)).
Defined.

(** ** Ties *)

(** C4, as stated, fails: in the frame [("x","str"); ("x","int")] the two
    values are tied and "str" is seen first, yet the dominant value is
    "int". *)
Lemma C4_tie_not_first_seen : ~ first_seen_tie_break (dropna scenario_tie).
Proof.
  intros H. specialize (H "x" "str").
  assert (Hfs : first_seen_mode "str" (group (dropna scenario_tie) "x")).
  { change (group (dropna scenario_tie) "x") with ["str"; "int"].
    split.
    - split; [now left|]. intros v.
      change (count String.eqb "str" ["str"; "int"]) with 1.
      unfold count. cbn [filter].
      destruct (String.eqb_spec v "str") as [E1|_];
        destruct (String.eqb_spec v "int") as [E2|_];
        cbn [length]; try lia.
      rewrite E1 in E2. discriminate.
    - exists [], ["int"]. split; [reflexivity|]. intros v _ []. }
  specialize (H Hfs). vm_compute in H. discriminate.
Qed.

(** C4, amended: the dominant value of a Name is a most frequent Data Type
    of its group and, among tied most frequent values, the least one in
    string order; exactly the Records of the Name carrying another value
    are flagged. *)
Theorem C4_tie_break_least_value :
  forall (df : DataFrame) (n d : string),
    dict_get (common_types (dropna df)) n = Some d ->
    is_mode d (group (dropna df) n)
    /\ (forall v, is_mode v (group (dropna df) n) -> String.leb d v = true)
    /\ (forall r, In r (dropna df) -> Name r = n ->
                  (Highlight (dropna df) r = true <-> DataType r <> d)).
Proof.
  intros df n d Hget. set (recs := dropna df) in *.
  assert (Hagg : agg_mode0 (group recs n) = Some d).
  { rewrite common_types_get in Hget.
    destruct (mem String.eqb n (map Name recs)); [assumption | discriminate]. }
  destruct (agg_mode0_least d _ Hagg) as [Hmode Hleast].
  split; [assumption|]. split; [assumption|].
  intros r _ <-. now apply Highlight_iff.
Qed.

Lemma C4_tie_break_witness :
  dict_get (common_types (dropna scenario_tie)) "x" = Some "int"
  /\ is_mode "int" (group (dropna scenario_tie) "x")
  /\ (forall v, is_mode v (group (dropna scenario_tie) "x") ->
                String.leb "int" v = true)
  /\ (forall r, In r (dropna scenario_tie) -> Name r = "x" ->
                (Highlight (dropna scenario_tie) r = true
                 <-> DataType r <> "int")).
Proof.
  split; [reflexivity|].
  exact (C4_tie_break_least_value scenario_tie "x" "int" eq_refl).
Defined.

(** ** Running the effects *)

Lemma bind_Return {A B} (c : M A) (k : A -> M B) st a st1 :
  c st = (Return a, st1) -> bind c k st = k a st1.
Proof. intros H. unfold bind. now rewrite H. Qed.

Lemma bind_Raise {A B} (c : M A) (k : A -> M B) st e st1 :
  c st = (Raise e, st1) -> bind c k st = (Raise e, st1).
Proof. intros H. unfold bind. now rewrite H. Qed.

Lemma bind_Return_inv {A B} (c : M A) (k : A -> M B) st b st' :
  bind c k st = (Return b, st') ->
  exists a st1, c st = (Return a, st1) /\ k a st1 = (Return b, st').
Proof.
  unfold bind. destruct (c st) as [[a|e] st1]; intros H;
    [eauto | discriminate].
Qed.

Lemma logging_run l msg st :
  logging l msg st
  = (Return tt, mkState (log st ++ [(l, msg)]) (saved st) (temp_input_dir st)).
Proof. reflexivity. Qed.

Lemma fault_Return_inv f st st' :
  fault f st = (Return tt, st') -> f = None /\ st' = st.
Proof.
  destruct f; unfold fault, raise, ret; intros H; inversion H; auto.
Qed.

Lemma keeps_ret {A} (a : A) : keeps_dir (ret a).
Proof. intros st. reflexivity. Qed.

Lemma keeps_raise {A} e : keeps_dir (@raise A e).
Proof. intros st. reflexivity. Qed.

Lemma keeps_lift {A} (o : outcome A) : keeps_dir (lift o).
Proof. intros st. reflexivity. Qed.

Lemma keeps_fault f : keeps_dir (fault f).
Proof. intros st. now destruct f. Qed.

Lemma keeps_logging l msg : keeps_dir (logging l msg).
Proof. intros st. reflexivity. Qed.

Lemma keeps_save_to path wb : keeps_dir (save_to path wb).
Proof. intros st. reflexivity. Qed.

Lemma keeps_bind {A B} (c : M A) (k : A -> M B) :
  keeps_dir c -> (forall a, keeps_dir (k a)) -> keeps_dir (bind c k).
Proof.
  intros Hc Hk st. unfold bind. specialize (Hc st).
  destruct (c st) as [[a|e] st1]; cbn [snd] in *; [rewrite Hk|]; exact Hc.
Qed.

Lemma keeps_try_except {A} (c : M A) (h : exn -> M A) :
  keeps_dir c -> (forall e, keeps_dir (h e)) -> keeps_dir (try_except c h).
Proof.
  intros Hc Hh st. unfold try_except. specialize (Hc st).
  destruct (c st) as [[a|e] st1]; cbn [snd] in *; [|rewrite Hh]; exact Hc.
Qed.

(** Proves [keeps_dir c] for a computation built from the operations
    above. *)
Ltac keeps :=
  repeat first
    [ apply keeps_ret | apply keeps_raise | apply keeps_lift
    | apply keeps_fault | apply keeps_logging | apply keeps_save_to
    | apply keeps_bind; [|intros ?]
    | apply keeps_try_except; [|intros ?]
    | match goal with
      | |- keeps_dir (if ?b then _ else _) => destruct b
      | |- keeps_dir (match ?x with _ => _ end) => destruct x
      end ].

(** ** The loader *)

Section Loader.
Variable u : Upload.
Variable file_ext : string.

Lemma load_direct df st :
  read_excel_first u = Return df -> load u file_ext st = (Return df, st).
Proof. intros H. unfold load, try_except, lift. now rewrite H. Qed.

(** After a failed direct load of a one-sheet document the loader reads
    that sheet, and its outcome is the outcome of that read. *)
Lemma load_retry e only st :
  read_excel_first u = Raise e ->
  ExcelFile_sheet_names u = Return [only] ->
  (forall df, read_excel_sheet u only = Return df ->
              load u file_ext st = (Return df, st))
  /\ (forall e', read_excel_sheet u only = Raise e' ->
                 exists st',
                   load u file_ext st
                   = (Raise (ValueError (msg_unreadable ++ str_exn e')), st')
                   /\ saved st' = saved st).
Proof.
  intros H1 H2. unfold load, try_except, lift, bind. rewrite H1, H2.
  split; intros x Hx; rewrite Hx; [reflexivity|].
  eexists. split; reflexivity.
Qed.

(** With any other number of sheets the loader raises the multiple-sheets
    error, which its own handler wraps in the unreadable-file error. *)
Lemma load_not_one_sheet e names st :
  read_excel_first u = Raise e ->
  ExcelFile_sheet_names u = Return names ->
  length names <> 1 ->
  exists st',
    load u file_ext st
    = (Raise (ValueError (msg_unreadable ++ msg_multiple_sheets)), st')
    /\ saved st' = saved st.
Proof.
  intros H1 H2 Hlen. unfold load, try_except, lift, bind. rewrite H1, H2.
  destruct names as [|a [|b t]]; [|simpl in Hlen; congruence|];
    eexists; split; reflexivity.
Qed.

Lemma load_loads df st : loads u df -> load u file_ext st = (Return df, st).
Proof.
  intros [H|[e [only [H1 [H2 H3]]]]].
  - now apply load_direct.
  - now apply (proj1 (load_retry e only st H1 H2)).
Qed.

(** Every failure of the loader is a [ValueError], and nothing is saved. *)
Lemma load_Raise_inv e st st' :
  load u file_ext st = (Raise e, st') ->
  (exists t, e = ValueError (msg_unreadable ++ t)) /\ saved st' = saved st.
Proof.
  unfold load, try_except, lift, bind.
  destruct (read_excel_first u) as [df|e0]; [discriminate|].
  destruct (ExcelFile_sheet_names u) as [[|a [|b t]]|e1]; simpl;
    try (intros H; inversion H; subst; split; [eexists|]; reflexivity).
  destruct (read_excel_sheet u a) as [df|e2]; [discriminate|].
  intros H; inversion H; subst; split; [eexists|]; reflexivity.
Qed.

Lemma load_Return_inv df st st' :
  load u file_ext st = (Return df, st') -> loads u df /\ st' = st.
Proof.
  unfold load, try_except, lift, bind, loads.
  destruct (read_excel_first u) as [df0|e0] eqn:E0.
  - intros H; inversion H; subst. auto.
  - destruct (ExcelFile_sheet_names u) as [[|a [|b t]]|e1] eqn:E1; simpl;
      try discriminate.
    destruct (read_excel_sheet u a) as [df1|e2] eqn:E2; [|discriminate].
    intros H; inversion H; subst. split; [|reflexivity].
    right. exists e0, a. auto.
Qed.
End Loader.

(** ** From the request to the loader *)

Section Request.
Context {xl : Libraries}.
Variable u : Upload.

Lemma handle_exception_run e st :
  exists st',
    handle_exception u e st
    = (Return (match e with
               | ValueError ve => bad_request ve
               | OtherException t =>
                   mkResponse 500 false (msg_internal ++ t) None
               end), st')
    /\ saved st' = saved st.
Proof. destruct e; eexists; split; reflexivity. Qed.

Lemma handle_exception_keeps e : keeps_dir (handle_exception u e).
Proof. unfold handle_exception. keeps. Qed.

Lemma load_keeps file_ext : keeps_dir (load u file_ext).
Proof. unfold load. keeps. Qed.

Lemma append_summary_keeps wb ws rows_ :
  keeps_dir (append_summary wb ws rows_).
Proof. unfold append_summary. keeps. Qed.

Lemma open_book_keeps base file_ext df recs :
  keeps_dir (open_book u base file_ext df recs).
Proof.
  unfold open_book, open_xls, open_xlsx, load_workbook. keeps.
Qed.

Lemma process_keeps base file_ext : keeps_dir (process u base file_ext).
Proof.
  unfold process. apply keeps_bind; [apply load_keeps|]. intros df.
  destruct (negb (has_required u df)); [keeps|].
  unfold analyze_and_report. cbv zeta.
  apply keeps_bind; [keeps|]. intros _.
  apply keeps_bind; [keeps|]. intros _.
  apply keeps_bind; [apply open_book_keeps|]. intros [[wb ws] name].
  apply keeps_bind; [apply append_summary_keeps|]. intros wb'. keeps.
Qed.

(** The [finally] block always ends, and saves nothing. *)
Lemma cleanup_run st :
  exists extra,
    cleanup u st
    = (Return tt,
       mkState (log st ++ extra) (saved st) (temp_input_dir st)).
Proof.
  unfold cleanup, get_temp_input_dir, bind. destruct st as [l s [d|]].
  - cbn [temp_input_dir log saved].
    destruct (negb (String.eqb d EmptyString) && input_dir_exists u).
    + unfold try_except, bind, fault.
      destruct (rmtree_fault u); eexists; reflexivity.
    + exists []. unfold ret. now rewrite app_nil_r.
  - exists []. unfold ret. cbn [log]. now rewrite app_nil_r.
Qed.

(** In a request that made its temporary directory the block adds
    [cleanup_entries]. *)
Lemma cleanup_made st :
  temp_input_dir st = Some (mkdtemp u) ->
  cleanup u st
  = (Return tt,
     mkState (log st ++ cleanup_entries u) (saved st) (temp_input_dir st)).
Proof.
  intros Hd. destruct st as [l s d]. cbn [temp_input_dir] in Hd. subst d.
  unfold cleanup, get_temp_input_dir, bind, cleanup_entries.
  cbn [temp_input_dir log saved].
  destruct (String.eqb (mkdtemp u) EmptyString); cbn [negb andb].
  - unfold ret. now rewrite app_nil_r.
  - destruct (input_dir_exists u).
    + unfold try_except, bind, fault.
      destruct (rmtree_fault u); reflexivity.
    + unfold ret. now rewrite app_nil_r.
Qed.

(** Before the directory is made the block does nothing. *)
Lemma cleanup_none st :
  temp_input_dir st = None -> cleanup u st = (Return tt, st).
Proof.
  intros Hd. unfold cleanup, get_temp_input_dir, bind. now rewrite Hd.
Qed.

(** The [finally] block changes neither the outcome of the handlers nor
    what is saved. *)
Lemma upload_file_finally o st0 :
  upload_handler u (mkState [] None None) = (o, st0) ->
  exists st, upload_file u = (o, st) /\ saved st = saved st0.
Proof.
  intros H. unfold upload_file, try_finally. rewrite H.
  destruct (cleanup_run st0) as [extra ->]. eexists. split; reflexivity.
Qed.

Lemma upload_file_inv o st :
  upload_file u = (o, st) ->
  exists st0,
    upload_handler u (mkState [] None None) = (o, st0)
    /\ saved st = saved st0.
Proof.
  unfold upload_file, try_finally.
  destruct (upload_handler u (mkState [] None None)) as [o0 st0].
  destruct (cleanup_run st0) as [extra ->].
  intros H. injection H as <- <-. eauto.
Qed.

(** An accepted upload reaches [process]; so far nothing is saved, the
    log holds two INFO entries and the temporary directory is made. *)
Lemma upload_body_accepted st :
  accepted u ->
  exists st1,
    upload_body u st
    = process u (file_base_name_of u) (file_ext_of u) st1
    /\ saved st1 = saved st
    /\ temp_input_dir st1 = Some (mkdtemp u)
    /\ exists extra, log st1 = (log st ++ extra)%list
                     /\ at_most_warnings extra.
Proof.
  intros [Hsize [Hstore Hext]].
  unfold upload_body, file_base_name_of, file_ext_of in *.
  unfold bind at 1. rewrite logging_run.
  destruct (file_size u >? MAX_FILE_SIZE_MB * 1024 * 1024)%Z eqn:E;
    [apply Z.gtb_lt in E; lia|].
  unfold bind at 1. cbn [set_temp_input_dir]. cbv zeta.
  unfold bind at 1. rewrite Hstore. cbn [fault ret].
  unfold bind at 1. rewrite logging_run.
  destruct (splitext (filename u)) as [base ext]. cbn [fst snd] in *.
  assert (Hm : mem String.eqb (lower ext) supported_extensions = true)
    by (rewrite (mem_In String.eqb String.eqb_spec); assumption).
  rewrite Hm. cbn [negb].
  eexists. split; [reflexivity|]. split; [reflexivity|].
  split; [reflexivity|].
  cbn [log]. rewrite <- app_assoc. eexists. split; [reflexivity|].
  intros l m [H|[H|[]]]; inversion H; auto.
Qed.

(** The response of an accepted upload is decided by [process]; the
    [finally] block then adds its entries to the log. *)
Lemma upload_file_accepted :
  accepted u ->
  exists st1,
    saved st1 = None
    /\ at_most_warnings (log st1)
    /\ upload_file u
       = after_cleanup u
           match process u (file_base_name_of u) (file_ext_of u) st1 with
           | (Return r, st2) => (Return r, st2)
           | (Raise e, st2) => handle_exception u e st2
           end.
Proof.
  intros Hacc.
  destruct (upload_body_accepted (mkState [] None None) Hacc)
    as [st1 [E [Hs [Hd [extra [Hl Hq]]]]]].
  exists st1. split; [exact Hs|]. split.
  - rewrite Hl. exact Hq.
  - unfold upload_file, try_finally, upload_handler, try_except.
    rewrite E.
    pose proof (process_keeps (file_base_name_of u) (file_ext_of u) st1)
      as Kp.
    destruct (process u (file_base_name_of u) (file_ext_of u) st1)
      as [[r|e] st2]; cbn [snd] in Kp.
    + rewrite cleanup_made by congruence. reflexivity.
    + pose proof (handle_exception_keeps e st2) as Kh.
      destruct (handle_exception u e st2) as [o st3]. cbn [snd] in Kh.
      rewrite cleanup_made by congruence. reflexivity.
Qed.

(** [upload_file] always answers: both handlers return a response. *)
Lemma upload_file_total : exists resp st, upload_file u = (Return resp, st).
Proof.
  destruct (upload_handler u (mkState [] None None)) as [o st] eqn:E.
  assert (Ho : exists resp, o = Return resp).
  { unfold upload_handler, try_except in E.
    destruct (upload_body u (mkState [] None None)) as [[r|e] st0].
    - injection E as <- _. eauto.
    - destruct (handle_exception_run e st0) as [st' [E' _]].
      rewrite E' in E. injection E as <- _. eauto. }
  destruct Ho as [resp ->].
  destruct (upload_file_finally _ _ E) as [st' [E' _]]. eauto.
Qed.
End Request.

(** ** Required columns *)

Lemma In_missing_columns u df c :
  In c (missing_columns u df) <->
  (c = "Name" \/ c = "Data Type") /\ ~ In c (columns df).
Proof.
  unfold missing_columns, required_columns. rewrite filter_In.
  rewrite negb_true_iff, <- not_true_iff_false,
    (mem_In String.eqb String.eqb_spec).
  destruct (name_iterates_first u); simpl; intuition.
Qed.

Lemma NoDup_missing_columns u df : NoDup (missing_columns u df).
Proof.
  unfold missing_columns, required_columns. apply NoDup_filter.
  destruct (name_iterates_first u);
    repeat constructor; simpl; intuition discriminate.
Qed.

Lemma has_required_iff u df :
  has_required u df = true <->
  In "Name" (columns df) /\ In "Data Type" (columns df).
Proof.
  unfold has_required, required_columns.
  destruct (name_iterates_first u); simpl;
    rewrite !andb_true_r, andb_true_iff,
      !(mem_In String.eqb String.eqb_spec); tauto.
Qed.

Lemma missing_only_data_type u df :
  In "Name" (columns df) -> ~ In "Data Type" (columns df) ->
  missing_columns u df = ["Data Type"].
Proof.
  intros H1 H2. unfold missing_columns, required_columns.
  assert (E1 : mem String.eqb "Name" (columns df) = true)
    by (now rewrite (mem_In String.eqb String.eqb_spec)).
  assert (E2 : mem String.eqb "Data Type" (columns df) = false).
  { apply not_true_iff_false.
    now rewrite (mem_In String.eqb String.eqb_spec). }
  destruct (name_iterates_first u); cbn [filter]; rewrite E1, E2;
    reflexivity.
Qed.

Lemma contains_suffix pre text : contains text (pre ++ text).
Proof.
  exists pre, EmptyString. f_equal.
  induction text as [|c t IH]; simpl; [reflexivity | now rewrite <- IH].
Qed.

(** C5: when the direct load of the first sheet fails and the document has
    exactly one sheet, the loader reads that sheet and returns what that
    read returns; when the document has several sheets the request ends in
    a 400 response whose message carries the multiple-sheets text, and
    nothing is saved. *)
Theorem C5_single_sheet_retry_or_ambiguity_error :
  forall (xl : Libraries) (u : Upload) (e : exn),
    accepted u ->
    read_excel_first u = Raise e ->
    (forall only st,
        ExcelFile_sheet_names u = Return [only] ->
        (forall df, read_excel_sheet u only = Return df ->
                    load u (file_ext_of u) st = (Return df, st))
        /\ (forall e', read_excel_sheet u only = Raise e' ->
                       exists st',
                         load u (file_ext_of u) st
                         = (Raise (ValueError (msg_unreadable ++ str_exn e')),
                            st')))
    /\ (forall names,
           ExcelFile_sheet_names u = Return names ->
           2 <= length names ->
           exists st,
             upload_file u
             = (Return (bad_request (msg_unreadable ++ msg_multiple_sheets)),
                st)
             /\ saved st = None
             /\ contains msg_multiple_sheets
                  (message (bad_request
                              (msg_unreadable ++ msg_multiple_sheets)))).
Proof.
  intros xl u e Hacc Hfirst. split.
  - intros only st Hnames.
    destruct (load_retry u (file_ext_of u) e only st Hfirst Hnames)
      as [Hok Hbad].
    split; [exact Hok|]. intros e' He'.
    destruct (Hbad e' He') as [st' [E _]]. eauto.
  - intros names Hnames Hlen.
    destruct (upload_file_accepted u Hacc) as [st1 [Hs [_ E]]].
    destruct (load_not_one_sheet u (file_ext_of u) e names st1 Hfirst Hnames)
      as [st2 [El Hs2]]; [lia|].
    unfold process in E. rewrite (bind_Raise _ _ _ _ _ El) in E.
    destruct (handle_exception_run u
                (ValueError (msg_unreadable ++ msg_multiple_sheets)) st2)
      as [st3 [Eh Hs3]].
    rewrite Eh in E. eexists. split; [exact E|]. split.
    + cbn [saved snd]. congruence.
    + apply contains_suffix.
Qed.

Lemma C5_loader_witness :
  accepted upload_two_sheets
  /\ read_excel_first upload_two_sheets
     = Raise (OtherException "sheet selection failed")
  /\ ExcelFile_sheet_names upload_two_sheets = Return ["Data"; "Notes"]
  /\ 2 <= length ["Data"; "Notes"]
  /\ exists st,
      @upload_file sample_libraries upload_two_sheets
      = (Return (bad_request (msg_unreadable ++ msg_multiple_sheets)), st)
      /\ saved st = None
      /\ contains msg_multiple_sheets
           (message (bad_request (msg_unreadable ++ msg_multiple_sheets))).
Proof.
  assert (Hacc : accepted upload_two_sheets).
  { split; [vm_compute; congruence|]. split; [reflexivity|].
    vm_compute. tauto. }
  assert (Hlen : 2 <= length ["Data"; "Notes"]) by (simpl; lia).
  split; [exact Hacc|]. split; [reflexivity|]. split; [reflexivity|].
  split; [exact Hlen|].
  exact (proj2 (C5_single_sheet_retry_or_ambiguity_error sample_libraries
                  upload_two_sheets _ Hacc eq_refl)
           ["Data"; "Notes"] eq_refl Hlen).
Defined.

(** C6: a loaded table that lacks the Name column or the Data Type column
    ends the request in a 400 response whose message is the
    missing-columns text followed by the absent required columns, each
    once and no other; when only Data Type is absent the message names
    exactly Data Type. *)
Theorem C6_missing_required_columns :
  forall (xl : Libraries) (u : Upload) (df : DataFrame),
    accepted u ->
    loads u df ->
    ~ In "Name" (columns df) \/ ~ In "Data Type" (columns df) ->
    (exists st,
        upload_file u
        = (Return (bad_request
                     (msg_missing_columns
                        ++ join ", " (missing_columns u df))), st)
        /\ saved st = None)
    /\ NoDup (missing_columns u df)
    /\ (forall c, In c (missing_columns u df) <->
                  (c = "Name" \/ c = "Data Type") /\ ~ In c (columns df))
    /\ (In "Name" (columns df) ->
        msg_missing_columns ++ join ", " (missing_columns u df)
        = msg_missing_columns ++ "Data Type").
Proof.
  intros xl u df Hacc Hload Hmiss.
  split; [|split; [apply NoDup_missing_columns|
                   split; [intros c; apply In_missing_columns|]]].
  - destruct (upload_file_accepted u Hacc) as [st1 [Hs [_ E]]].
    assert (Hreq : has_required u df = false).
    { apply not_true_iff_false. rewrite has_required_iff. tauto. }
    unfold process in E.
    rewrite (bind_Return _ _ _ _ _
               (load_loads u (file_ext_of u) df st1 Hload)) in E.
    rewrite Hreq in E. cbn [negb] in E.
    unfold bind in E. rewrite logging_run in E. unfold ret in E.
    eexists. split; [exact E|]. exact Hs.
  - intros Hname. destruct Hmiss as [H|H]; [contradiction|].
    now rewrite (missing_only_data_type u df Hname H).
Qed.

Lemma C6_missing_columns_witness :
  accepted upload_without_data_type
  /\ loads upload_without_data_type
       (mkDataFrame ["Name"; "Kind"] [mkRow 0 [Some "x"; Some "int"]])
  /\ (~ In "Name" ["Name"; "Kind"] \/ ~ In "Data Type" ["Name"; "Kind"])
  /\ exists st,
      @upload_file sample_libraries upload_without_data_type
      = (Return (bad_request (msg_missing_columns ++ "Data Type")), st)
      /\ saved st = None.
Proof.
  assert (Hacc : accepted upload_without_data_type).
  { split; [vm_compute; congruence|]. split; [reflexivity|].
    vm_compute. tauto. }
  assert (Hload : loads upload_without_data_type
                    (mkDataFrame ["Name"; "Kind"]
                       [mkRow 0 [Some "x"; Some "int"]]))
    by (left; reflexivity).
  assert (Hmiss : ~ In "Name" ["Name"; "Kind"]
                  \/ ~ In "Data Type" ["Name"; "Kind"]).
  { right. simpl. intros [H|[H|[]]]; discriminate. }
  split; [exact Hacc|]. split; [exact Hload|]. split; [exact Hmiss|].
  exact (proj1 (C6_missing_required_columns sample_libraries
                  upload_without_data_type _ Hacc Hload Hmiss)).
Defined.

(** ** The summary sheet *)

Lemma quiet_step_refl st : quiet_step st st.
Proof.
  split; [reflexivity|]. exists []. split; [now rewrite app_nil_r|].
  intros l m [].
Qed.

Lemma quiet_step_trans st1 st2 st3 :
  quiet_step st1 st2 -> quiet_step st2 st3 -> quiet_step st1 st3.
Proof.
  intros [S1 [x1 [L1 Q1]]] [S2 [x2 [L2 Q2]]]. split; [congruence|].
  exists (x1 ++ x2)%list. split.
  - now rewrite L2, L1, app_assoc.
  - intros l m H. apply in_app_or in H. destruct H; eauto.
Qed.

Lemma quiet_step_logging l msg st :
  l = INFO \/ l = WARNING ->
  quiet_step st
    (mkState (log st ++ [(l, msg)]) (saved st) (temp_input_dir st)).
Proof.
  intros Hl. split; [reflexivity|]. eexists. split; [reflexivity|].
  intros l' m' [H|[]]. inversion H; subst. exact Hl.
Qed.

(** The appended rows, cell by cell. *)
Lemma summary_rows_plain rs :
  map (map plain) (map summary_values rs)
  = map (fun t => [unstyled (VStr (fst (summary_key t)));
                   unstyled (VStr (snd (summary_key t)));
                   unstyled (VInt (Z.of_nat (summary_count t)))]) rs.
Proof. rewrite map_map. apply map_ext. intros [[n d] c]. reflexivity. Qed.

Lemma fill_summary_shape rows_ ws0 :
  title (fill_summary rows_ ws0) = title ws0
  /\ grid (fill_summary rows_ ws0)
     = (grid ws0 ++ plain_summary_grid rows_)%list.
Proof.
  unfold fill_summary, plain_summary_grid.
  set (w0 := append_row _ ws0).
  assert (Hgen : forall rs w,
             title (fold_left
                      (fun w row => append_row (summary_values row) w) rs w)
             = title w
             /\ grid (fold_left
                        (fun w row => append_row (summary_values row) w) rs w)
                = (grid w ++ map (map plain) (map summary_values rs))%list).
  { induction rs as [|r t IH]; intros w; simpl.
    - now rewrite app_nil_r.
    - destruct (IH (append_row (summary_values r) w)) as [Ht Hg].
      rewrite Ht, Hg. simpl. now rewrite <- app_assoc. }
  destruct (Hgen rows_ w0) as [Ht Hg]. rewrite Ht, Hg. split.
  - reflexivity.
  - unfold w0. cbn [append_row grid]. rewrite <- app_assoc.
    rewrite summary_rows_plain. reflexivity.
Qed.

Section Summary.
Context {xl : Libraries}.

(** The steps from the removal of an old summary sheet to the hyperlinks
    never raise: the book gets one new last sheet, keeps its VBA archive,
    and, when the primary sheet has no "Name" header, the new sheet holds
    the plain summary and the log gains the warning. *)
Lemma append_summary_run wb ws rows_ st :
  exists sws st',
    append_summary wb ws rows_ st
    = (Return (mkWorkbook (without_summary (sheets wb) ++ [sws]) (vba_archive wb)),
       st')
    /\ quiet_step st st'
    /\ title sws
       = avoid_duplicate_name (map title (without_summary (sheets wb))) summary_title
    /\ (find_name_col (ws_row ws 1) 1 = None ->
        grid sws = plain_summary_grid rows_
        /\ In (no_name_warning ws) (log st')).
Proof.
  unfold append_summary, without_summary, sheetnames.
  destruct (mem String.eqb summary_title (map title (sheets wb))) eqn:Hm.
  - destruct (find_name_col (ws_row ws 1) 1) as [col|] eqn:Hc.
    + eexists. eexists. split; [reflexivity|]. split; [|split].
      * solve_quiet.
      * cbn [vba_archive sheets]. unfold add_hyperlinks.
        destruct (fill_summary_shape rows_
                    (create_sheet
                       (mkWorkbook (remove_titled summary_title (sheets wb))
                          (vba_archive wb)) summary_title)) as [Ht Hg].
        destruct (grid (fill_summary rows_ _)); cbn [title]; exact Ht.
      * discriminate.
    + eexists. eexists. split; [reflexivity|]. split; [|split].
      * solve_quiet.
      * apply fill_summary_shape.
      * intros _. split; [apply fill_summary_shape|].
        cbn [log]. apply in_or_app. right. now left.
  - destruct (find_name_col (ws_row ws 1) 1) as [col|] eqn:Hc.
    + eexists. eexists. split; [reflexivity|]. split; [|split].
      * solve_quiet.
      * unfold add_hyperlinks.
        destruct (fill_summary_shape rows_
                    (create_sheet wb summary_title)) as [Ht Hg].
        destruct (grid (fill_summary rows_ _)); cbn [title]; exact Ht.
      * discriminate.
    + eexists. eexists. split; [reflexivity|]. split; [|split].
      * solve_quiet.
      * apply fill_summary_shape.
      * intros _. split; [apply fill_summary_shape|].
        cbn [log]. apply in_or_app. right. now left.
Qed.
End Summary.

(** ** One summary sheet *)

Lemma lower_ascii_inv c d :
  ascii_in_range 97 122 d = false -> lower_ascii c = d -> c = d.
Proof.
  unfold lower_ascii. intros Hd.
  destruct (ascii_in_range 65 90 c) eqn:Hc; [|auto].
  intros <-. exfalso. unfold ascii_in_range in *.
  apply andb_true_iff in Hc. destruct Hc as [H1 H2].
  apply Nat.leb_le in H1, H2.
  rewrite nat_ascii_embedding in Hd by lia.
  apply andb_false_iff in Hd.
  destruct Hd as [Hd|Hd]; apply Nat.leb_gt in Hd; lia.
Qed.

Lemma lower_inv s n : no_lowercase_letter s = true -> lower n = s -> n = s.
Proof.
  revert s. induction n as [|c n IH]; intros [|d s]; simpl;
    try discriminate; [reflexivity|].
  intros H E. apply andb_true_iff in H. destruct H as [Hd Hs].
  injection E as E1 E2. apply negb_true_iff in Hd.
  f_equal; [now apply lower_ascii_inv | now apply IH].
Qed.

Section OneSummary.
Context {xl : Libraries}.

(** The reserved title is given as asked when no sheet bears it. *)
Lemma avoid_duplicate_name_fresh names :
  ~ In summary_title names ->
  avoid_duplicate_name names summary_title = summary_title.
Proof.
  intros Hnotin. unfold avoid_duplicate_name.
  destruct (existsb _ names) eqn:E; [|reflexivity].
  exfalso. apply existsb_exists in E. destruct E as [n [Hn E]].
  apply String.eqb_eq in E.
  change (lower summary_title) with summary_title in E.
  apply lower_inv in E; [|reflexivity]. congruence.
Qed.

Lemma remove_titled_incl t l x :
  In x (map title (remove_titled t l)) -> In x (map title l).
Proof.
  induction l as [|s r IH]; simpl; [tauto|].
  destruct (String.eqb (title s) t); simpl; tauto.
Qed.

Lemma remove_titled_names t l :
  NoDup (map title l) ->
  NoDup (map title (remove_titled t l))
  /\ ~ In t (map title (remove_titled t l)).
Proof.
  induction l as [|s r IH]; simpl; intros Hnd.
  - split; [constructor | tauto].
  - inversion Hnd as [|? ? Hnotin Hnd']; subst.
    destruct (String.eqb_spec (title s) t) as [<-|Hne].
    + split; assumption.
    + destruct (IH Hnd') as [H1 H2]. simpl. split.
      * constructor; [|assumption].
        intros H. apply Hnotin. now apply remove_titled_incl in H.
      * intros [H|H]; [congruence | contradiction].
Qed.

Lemma without_summary_names wb :
  NoDup (sheetnames wb) ->
  NoDup (map title (without_summary (sheets wb)))
  /\ ~ In summary_title (map title (without_summary (sheets wb))).
Proof.
  intros Hnd. unfold without_summary, sheetnames in *.
  destruct (mem String.eqb summary_title (map title (sheets wb))) eqn:E.
  - now apply remove_titled_names.
  - split; [exact Hnd|]. intros H.
    rewrite <- (mem_In String.eqb String.eqb_spec) in H. congruence.
Qed.

(** After the summary step a book with distinct titles has distinct titles
    again and exactly one sheet with the reserved title, the new last one. *)
Lemma append_summary_one wb ws rows_ st :
  NoDup (sheetnames wb) ->
  exists sws st',
    append_summary wb ws rows_ st
    = (Return (mkWorkbook (without_summary (sheets wb) ++ [sws]) (vba_archive wb)),
       st')
    /\ title sws = summary_title
    /\ ~ In summary_title (map title (without_summary (sheets wb)))
    /\ NoDup (map title (without_summary (sheets wb) ++ [sws]))
    /\ count String.eqb summary_title
         (map title (without_summary (sheets wb) ++ [sws])) = 1.
Proof.
  intros Hnd.
  destruct (append_summary_run wb ws rows_ st) as [sws [st' [E [_ [Ht _]]]]].
  destruct (without_summary_names wb Hnd) as [Hnd' Hnotin].
  rewrite (avoid_duplicate_name_fresh _ Hnotin) in Ht.
  exists sws, st'. split; [exact E|]. split; [exact Ht|].
  split; [exact Hnotin|]. rewrite map_app. simpl. rewrite Ht. split.
  - apply NoDup_app; [assumption | repeat constructor; simpl; tauto |].
    intros x Hx [<-|[]]. contradiction.
  - unfold count. rewrite filter_app, length_app.
    fold (count String.eqb summary_title (map title (without_summary (sheets wb)))).
    rewrite (count_zero_notin String.eqb String.eqb_spec _ _ Hnotin).
    reflexivity.
Qed.
End OneSummary.

(** ** Opening the workbook *)

Section Report.
Context {xl : Libraries}.
Variable u : Upload.

Lemma set_title_grid names v ws ws' :
  set_title names v ws = Return ws' -> grid ws' = grid ws.
Proof.
  unfold set_title. destruct v as [|c v]; [discriminate|].
  destruct (first_invalid_char (String c v)); [discriminate|].
  intros H. injection H as <-. reflexivity.
Qed.

(** The [.xls] branch never raises: it returns a one-sheet book without
    VBA archive whose sheet is rebuilt from the frame on an empty sheet. *)
Lemma open_xls_run df recs st :
  exists ws0 st',
    open_xls u df recs st
    = (Return (mkWorkbook
                 [highlight_rows recs (rebuild_sheet df recs ws0)] None,
               highlight_rows recs (rebuild_sheet df recs ws0)), st')
    /\ grid ws0 = []
    /\ quiet_step st st'.
Proof.
  unfold open_xls, try_except, bind, lift, ret, logging.
  destruct (ExcelFile_sheet_names u) as [[|first t]|e].
  - eexists. eexists. split; [reflexivity|]. split; [reflexivity|].
    solve_quiet.
  - destruct (set_title ["Sheet"] first (mkWorksheet "Sheet" [])) as [ws1|e1]
      eqn:Et.
    + exists ws1. eexists. split; [reflexivity|]. split.
      * now rewrite (set_title_grid _ _ _ _ Et).
      * solve_quiet.
    + eexists. eexists. split; [reflexivity|]. split; [reflexivity|].
      solve_quiet.
  - eexists. eexists. split; [reflexivity|]. split; [reflexivity|].
    solve_quiet.
Qed.

Lemma open_xlsx_run file_ext recs doc first others st :
  load_workbook_doc u = Return doc ->
  sheets doc = first :: others ->
  exists st',
    open_xlsx u file_ext recs st
    = (Return (mkWorkbook (highlight_rows recs first :: others)
                 (if String.eqb file_ext ".xlsm" then vba_archive doc
                  else None),
               highlight_rows recs first), st')
    /\ quiet_step st st'.
Proof.
  intros Hdoc Hsheets. unfold open_xlsx, load_workbook.
  destruct (String.eqb file_ext ".xlsm");
    unfold bind, lift; rewrite logging_run, Hdoc; cbn [ret sheets];
    rewrite Hsheets; eexists; (split; [reflexivity | solve_quiet]).
Qed.

Lemma open_xlsx_inv file_ext recs st wb ws st' :
  open_xlsx u file_ext recs st = (Return (wb, ws), st') ->
  exists doc first others,
    load_workbook_doc u = Return doc
    /\ sheets doc = first :: others
    /\ ws = highlight_rows recs first
    /\ wb = mkWorkbook (ws :: others)
              (if String.eqb file_ext ".xlsm" then vba_archive doc else None)
    /\ quiet_step st st'.
Proof.
  intros H.
  destruct (load_workbook_doc u) as [doc|e] eqn:Hdoc.
  - destruct (sheets doc) as [|first others] eqn:Hsheets.
    + exfalso. revert H. unfold open_xlsx, load_workbook.
      destruct (String.eqb file_ext ".xlsm");
        unfold bind, lift; rewrite logging_run, Hdoc; cbn [ret sheets];
        rewrite Hsheets; discriminate.
    + destruct (open_xlsx_run file_ext recs doc first others st
                  Hdoc Hsheets) as [st1 [E Hq]].
      rewrite E in H. injection H as <- <- <-.
      exists doc, first, others. auto.
  - exfalso. revert H. unfold open_xlsx, load_workbook.
    destruct (String.eqb file_ext ".xlsm");
      unfold bind, lift; rewrite logging_run, Hdoc; discriminate.
Qed.

Lemma open_book_inv base file_ext df recs st wb ws name st' :
  open_book u base file_ext df recs st = (Return (wb, ws, name), st') ->
  (file_ext = ".xls"
   /\ open_xls u df recs st = (Return (wb, ws), st')
   /\ name = "result_" ++ base ++ ".xlsx")
  \/ (file_ext <> ".xls"
      /\ open_xlsx u file_ext recs st = (Return (wb, ws), st')
      /\ name = "result_" ++ filename u).
Proof.
  unfold open_book.
  destruct (String.eqb_spec file_ext ".xls") as [E|Hne].
  - intros H. apply bind_Return_inv in H.
    destruct H as [[wb0 ws0] [st1 [H1 H2]]].
    unfold ret in H2. injection H2 as <- <- <- <-. left. auto.
  - destruct (mem String.eqb file_ext [".xlsx"; ".xlsm"]); [|discriminate].
    intros H. apply bind_Return_inv in H.
    destruct H as [[wb0 ws0] [st1 [H1 H2]]].
    unfold ret in H2. injection H2 as <- <- <- <-. right. auto.
Qed.

(** What a completed report consists of. *)
Lemma analyze_and_report_inv base file_ext df st resp st' :
  analyze_and_report u base file_ext df st = (Return resp, st') ->
  (dropna df = [] -> empty_frame_fault u = None)
  /\ save_fault u = None
  /\ exists st1 wb ws name st2 wb' st3,
      open_book u base file_ext df (dropna df) st1
      = (Return (wb, ws, name), st2)
      /\ append_summary wb ws (summary (dropna df)) st2 = (Return wb', st3)
      /\ saved st' = Some (path_join TEMP_OUTPUT_DIR name, wb')
      /\ resp = mkResponse 200 true "檔案處理完成！" (Some name).
Proof.
  unfold analyze_and_report. cbv zeta. intros H.
  apply bind_Return_inv in H. destruct H as [[] [s1 [H1 H]]].
  apply bind_Return_inv in H. destruct H as [[] [s2 [H2 H]]].
  apply bind_Return_inv in H. destruct H as [[[wb ws] name] [s3 [H3 H]]].
  apply bind_Return_inv in H. destruct H as [wb' [s4 [H4 H]]].
  apply bind_Return_inv in H. destruct H as [[] [s5 [H5 H]]].
  apply bind_Return_inv in H. destruct H as [[] [s6 [H6 H]]].
  apply bind_Return_inv in H. destruct H as [[] [s7 [H7 H]]].
  apply fault_Return_inv in H5. destruct H5 as [Hsave ->].
  unfold save_to in H6. injection H6 as <-.
  rewrite logging_run in H7. injection H7 as <-.
  unfold ret in H. injection H as <- <-.
  split; [|split; [exact Hsave|]].
  - intros E. rewrite E in H1. now apply fault_Return_inv in H1.
  - exists s2, wb, ws, name, s3, wb', s4. auto.
Qed.

Lemma process_inv base file_ext st resp st' :
  process u base file_ext st = (Return resp, st') ->
  status_code resp = 200%Z ->
  exists df,
    loads u df /\ has_required u df = true
    /\ analyze_and_report u base file_ext df st = (Return resp, st').
Proof.
  unfold process. intros H Hok.
  apply bind_Return_inv in H. destruct H as [df [s1 [H1 H]]].
  apply load_Return_inv in H1. destruct H1 as [Hl ->].
  exists df. split; [exact Hl|].
  destruct (has_required u df); cbn [negb] in H; [auto|].
  unfold bind in H. rewrite logging_run in H. unfold ret in H.
  injection H as <- <-. discriminate.
Qed.

(** Only an accepted upload is answered with status 200, and then by
    [process]. *)
Lemma upload_success_inv resp st :
  upload_file u = (Return resp, st) ->
  status_code resp = 200%Z ->
  accepted u
  /\ exists st1 st2,
      process u (file_base_name_of u) (file_ext_of u) st1
      = (Return resp, st2)
      /\ saved st = saved st2.
Proof.
  intros H Hok. apply upload_file_inv in H. destruct H as [st2 [H Hsv]].
  unfold upload_handler, try_except in H.
  destruct (upload_body u (mkState [] None None)) as [[r|e] st0] eqn:Eb.
  - injection H as -> ->. revert Eb.
    unfold upload_body, accepted, file_base_name_of, file_ext_of.
    unfold bind at 1. rewrite logging_run.
    destruct (file_size u >? MAX_FILE_SIZE_MB * 1024 * 1024)%Z eqn:Es.
    { unfold bind. rewrite logging_run. unfold ret. intros E.
      injection E as <- <-. discriminate. }
    unfold bind at 1. cbn [set_temp_input_dir]. cbv zeta.
    unfold bind at 1.
    destruct (store_fault u) as [e|]; cbn [fault raise ret];
      [discriminate|].
    unfold bind at 1. rewrite logging_run.
    destruct (splitext (filename u)) as [base ext]. cbn [fst snd].
    destruct (mem String.eqb (lower ext) supported_extensions) eqn:Em;
      cbn [negb].
    + intros E. split.
      * split; [|split; [reflexivity|]].
        -- destruct (Z.gtb_spec (file_size u)
                       (MAX_FILE_SIZE_MB * 1024 * 1024)); [discriminate|].
           assumption.
        -- now rewrite <- (mem_In String.eqb String.eqb_spec).
      * eexists. eexists. split; [exact E | exact Hsv].
    + unfold bind. rewrite logging_run. unfold ret. intros E.
      injection E as <- <-. discriminate.
  - destruct (handle_exception_run u e st0) as [st' [E _]].
    rewrite E in H. injection H as <- <-. destruct e; discriminate.
Qed.
End Report.

(** ** The output file *)

Lemma append_empty_r s : s ++ EmptyString = s.
Proof. induction s as [|c s IH]; simpl; [reflexivity | now rewrite IH]. Qed.

Lemma substring_whole s : substring 0 (String.length s) s = s.
Proof. induction s as [|c s IH]; simpl; [reflexivity | now rewrite IH]. Qed.

Lemma substring_split n s :
  substring 0 n s ++ substring n (String.length s - n) s = s.
Proof.
  revert n. induction s as [|c s IH]; intros [|n]; simpl; try reflexivity.
  - now rewrite substring_whole.
  - now rewrite IH.
Qed.

(** [splitext] cuts the name in two: base name, then extension. *)
Lemma splitext_append p : fst (splitext p) ++ snd (splitext p) = p.
Proof.
  unfold splitext. destruct (rfind dot p) as [d|]; simpl;
    [|apply append_empty_r].
  destruct ((_ <=? d)%nat && _); simpl;
    [apply substring_split | apply append_empty_r].
Qed.

(** C7: whenever a request succeeds, the saved file is named after the
    input: for the extension [.xls], "result_" + base name + ".xlsx", the
    book being a new one without VBA archive whose primary sheet is
    rebuilt from the frame on an empty sheet; for the other extensions,
    "result_" + the unchanged file name, the book being the loaded one,
    with the VBA archive of the document kept for [.xlsm]. *)
Theorem C7_output_name_and_format :
  forall (xl : Libraries) (u : Upload) (resp : Response) (st : State),
    upload_file u = (Return resp, st) ->
    status_code resp = 200%Z ->
    file_base_name_of u ++ snd (splitext (filename u)) = filename u
    /\ exists name wb' df sws,
        download_filename resp = Some name
        /\ saved st = Some (path_join TEMP_OUTPUT_DIR name, wb')
        /\ loads u df
        /\ (file_ext_of u = ".xls" ->
            name = "result_" ++ file_base_name_of u ++ ".xlsx"
            /\ vba_archive wb' = None
            /\ exists ws0,
                grid ws0 = []
                /\ sheets wb'
                   = (without_summary
                        [highlight_rows (dropna df)
                           (rebuild_sheet df (dropna df) ws0)]
                        ++ [sws])%list)
        /\ (file_ext_of u <> ".xls" ->
            name = "result_" ++ filename u
            /\ exists doc first others,
                load_workbook_doc u = Return doc
                /\ sheets doc = first :: others
                /\ sheets wb'
                   = (without_summary
                        (highlight_rows (dropna df) first :: others)
                        ++ [sws])%list
                /\ vba_archive wb'
                   = (if String.eqb (file_ext_of u) ".xlsm"
                      then vba_archive doc else None)).
Proof.
  intros xl u resp st H Hok.
  split; [apply splitext_append|].
  destruct (upload_success_inv u resp st H Hok) as [_ [st1 [st2 [Hp Hsv]]]].
  destruct (process_inv u _ _ _ _ _ Hp Hok) as [df [Hl [_ Ha]]].
  destruct (analyze_and_report_inv u _ _ _ _ _ _ Ha)
    as [_ [_ [s1 [wb [ws [name [s2 [wb' [s3 [Ho [Hs [Hsaved ->]]]]]]]]]]]].
  destruct (append_summary_run wb ws (summary (dropna df)) s2)
    as [sws [s3' [Es _]]].
  rewrite Es in Hs. injection Hs as <- <-.
  exists name, (mkWorkbook (without_summary (sheets wb) ++ [sws])
                  (vba_archive wb)), df, sws.
  split; [reflexivity|]. split; [now rewrite Hsv|]. split; [exact Hl|].
  apply open_book_inv in Ho.
  destruct Ho as [[Hext [Hx ->]]|[Hext [Hx ->]]].
  - split; [|intros Hne; contradiction]. intros _.
    destruct (open_xls_run u df (dropna df) s1) as [ws0 [s2' [Ex [Hg _]]]].
    rewrite Ex in Hx. injection Hx as <- <- <-.
    split; [reflexivity|]. split; [reflexivity|].
    exists ws0. split; [exact Hg | reflexivity].
  - split; [intros He; contradiction|]. intros _.
    apply open_xlsx_inv in Hx.
    destruct Hx as [doc [first [others [Hdoc [Hsh [-> [-> _]]]]]]].
    split; [reflexivity|]. exists doc, first, others. auto.
Qed.

Lemma C7_output_witness :
  (exists st,
      @upload_file sample_libraries upload_legacy
      = (Return (mkResponse 200 true "檔案處理完成！"
                   (Some "result_types.xlsx")), st))
  /\ file_ext_of upload_legacy = ".xls"
  /\ exists name wb' df sws,
      Some "result_types.xlsx" = Some name
      /\ saved (snd (@upload_file sample_libraries upload_legacy))
         = Some (path_join TEMP_OUTPUT_DIR name, wb')
      /\ loads upload_legacy df
      /\ (file_ext_of upload_legacy = ".xls" ->
          name = "result_" ++ file_base_name_of upload_legacy ++ ".xlsx"
          /\ vba_archive wb' = None
          /\ exists ws0,
              grid ws0 = []
              /\ sheets wb'
                 = (without_summary
                      [highlight_rows (dropna df)
                         (rebuild_sheet df (dropna df) ws0)]
                      ++ [sws])%list)
      /\ (file_ext_of upload_legacy <> ".xls" ->
          name = "result_" ++ filename upload_legacy
          /\ exists doc first others,
              load_workbook_doc upload_legacy = Return doc
              /\ sheets doc = first :: others
              /\ sheets wb'
                 = (without_summary
                      (highlight_rows (dropna df) first :: others)
                      ++ [sws])%list
              /\ vba_archive wb'
                 = (if String.eqb (file_ext_of upload_legacy) ".xlsm"
                    then vba_archive doc else None)).
Proof.
  split; [eexists; vm_compute; reflexivity|].
  split; [reflexivity|].
  exact (proj2 (C7_output_name_and_format sample_libraries upload_legacy
                  (mkResponse 200 true "檔案處理完成！"
                     (Some "result_types.xlsx"))
                  (snd (@upload_file sample_libraries upload_legacy))
                  eq_refl eq_refl)).
Defined.

(** ** Highlighting leaves the header row alone *)

Lemma pad_row_length n row :
  length (pad_row n row) = Nat.max n (length row).
Proof. unfold pad_row. rewrite length_app, repeat_length. lia. Qed.

Lemma row_length_le_max (l : list (list Cell)) row :
  In row l -> length row <= fold_right Nat.max 0 (map (@length Cell) l).
Proof.
  induction l as [|x t IH]; simpl; [tauto|].
  intros [->|H]; [lia | specialize (IH H); lia].
Qed.

Lemma max_lengths_bound (l : list (list Cell)) M :
  (forall row, In row l -> length row <= M) ->
  fold_right Nat.max 0 (map (@length Cell) l) <= M.
Proof.
  induction l as [|x t IH]; simpl; intros H; [lia|].
  assert (length x <= M) by (apply H; now left).
  assert (fold_right Nat.max 0 (map (@length Cell) t) <= M)
    by (apply IH; intros row Hr; apply H; now right).
  lia.
Qed.

Lemma max_lengths_update i (new : list Cell) (l : list (list Cell)) :
  i < length l ->
  (forall row, In row l -> length row <= length new) ->
  fold_right Nat.max 0
    (map (@length Cell) (update_nth i (fun _ => new) [] l))
  = length new.
Proof.
  revert i. induction l as [|x t IH]; intros i Hi Hall; simpl in Hi; [lia|].
  destruct i as [|i]; simpl.
  - assert (fold_right Nat.max 0 (map (@length Cell) t) <= length new)
      by (apply max_lengths_bound; intros row Hr; apply Hall; now right).
    lia.
  - rewrite IH; [|lia|intros row Hr; apply Hall; now right].
    assert (length x <= length new) by (apply Hall; now left). lia.
Qed.

Lemma first_row_update i (f : list Cell -> list Cell) (l : list (list Cell)) :
  nth 0 (update_nth (S i) f [] l) [] = nth 0 l [].
Proof. destruct l; reflexivity. Qed.

Lemma fill_row_header r ws :
  2 <= r -> r <= max_row ws ->
  ws_row (fill_row r ws) 1 = ws_row ws 1
  /\ title (fill_row r ws) = title ws.
Proof.
  intros H2 Hr. split; [|reflexivity].
  unfold max_row in Hr.
  assert (Hlen : length (ws_row ws r) = max_column ws).
  { unfold ws_row. rewrite pad_row_length. unfold max_column.
    destruct (nth_in_or_default (r - 1) (grid ws) []) as [Hin|E].
    - pose proof (row_length_le_max _ _ Hin). lia.
    - rewrite E. simpl. lia. }
  assert (Hcol : max_column (fill_row r ws) = max_column ws).
  { unfold max_column at 1. unfold fill_row. cbn [grid].
    rewrite max_lengths_update.
    - rewrite length_map, Hlen. unfold max_column. lia.
    - lia.
    - intros row Hin. rewrite length_map, Hlen. unfold max_column.
      pose proof (row_length_le_max _ _ Hin). lia. }
  unfold ws_row at 1. rewrite Hcol. unfold ws_row, fill_row. cbn [grid].
  replace (r - 1) with (S (r - 2)) by lia. cbn [Nat.sub].
  now rewrite first_row_update.
Qed.

Lemma highlight_fold_header flags l ws :
  let w' :=
    fold_left
      (fun w r =>
         if Highlight flags r then
           let excel_row := rec_label r + 2 in
           if (excel_row <=? max_row w)%nat then fill_row excel_row w else w
         else w)
      l ws in
  ws_row w' 1 = ws_row ws 1 /\ title w' = title ws.
Proof.
  cbv zeta. revert ws.
  induction l as [|r t IH]; intros ws; simpl; [auto|].
  destruct (Highlight flags r); [|apply IH].
  destruct (rec_label r + 2 <=? max_row ws)%nat eqn:E; [|apply IH].
  apply Nat.leb_le in E.
  destruct (fill_row_header (rec_label r + 2) ws) as [H1 H2]; [lia|lia|].
  destruct (IH (fill_row (rec_label r + 2) ws)) as [H3 H4].
  split; congruence.
Qed.

Lemma highlight_rows_header recs ws :
  ws_row (highlight_rows recs ws) 1 = ws_row ws 1
  /\ title (highlight_rows recs ws) = title ws.
Proof. exact (highlight_fold_header recs recs ws). Qed.

(** ** A primary sheet without "Name" header *)

Section NoNameHeader.
Context {xl : Libraries}.
Variable u : Upload.

(** The report on a loaded workbook, when the workbook loads, has a sheet,
    and the output can be saved. *)
Lemma analyze_and_report_xlsx_run base file_ext df doc first others st :
  (dropna df = [] -> empty_frame_fault u = None) ->
  file_ext <> ".xls" ->
  mem String.eqb file_ext [".xlsx"; ".xlsm"] = true ->
  load_workbook_doc u = Return doc ->
  sheets doc = first :: others ->
  save_fault u = None ->
  exists sws st' vba,
    analyze_and_report u base file_ext df st
    = (Return (mkResponse 200 true "檔案處理完成！"
                 (Some ("result_" ++ filename u))), st')
    /\ saved st'
       = Some (path_join TEMP_OUTPUT_DIR ("result_" ++ filename u),
               mkWorkbook
                 (without_summary
                    (highlight_rows (dropna df) first :: others) ++ [sws])
                 vba)
    /\ (exists extra, log st' = (log st ++ extra)%list
                      /\ at_most_warnings extra)
    /\ (find_name_col (ws_row first 1) 1 = None ->
        grid sws = plain_summary_grid (summary (dropna df))
        /\ In (no_name_warning first) (log st')).
Proof.
  intros Hempty Hne Hmem Hdoc Hsheets Hsave.
  unfold analyze_and_report. cbv zeta.
  assert (E1 : (match dropna df with
                | [] => fault (empty_frame_fault u)
                | _ :: _ => ret tt
                end) st = (Return tt, st)).
  { destruct (dropna df); [rewrite Hempty|]; reflexivity. }
  rewrite (bind_Return _ _ _ _ _ E1).
  rewrite (bind_Return _ _ _ _ _ (logging_run _ _ _)).
  set (s2 := mkState _ (saved st) _).
  destruct (open_xlsx_run u file_ext (dropna df) doc first others s2
              Hdoc Hsheets) as [s3 [Ex Hq3]].
  set (ws := highlight_rows (dropna df) first) in *.
  set (wb := mkWorkbook (ws :: others) _) in *.
  assert (E3 : open_book u base file_ext df (dropna df) s2
               = (Return (wb, ws, "result_" ++ filename u), s3)).
  { unfold open_book.
    destruct (String.eqb_spec file_ext ".xls") as [E|_]; [contradiction|].
    rewrite Hmem. now rewrite (bind_Return _ _ _ _ _ Ex). }
  rewrite (bind_Return _ _ _ _ _ E3). cbv beta iota.
  destruct (append_summary_run wb ws (summary (dropna df)) s3)
    as [sws [s4 [E4 [Hq4 [_ Hplain]]]]].
  rewrite (bind_Return _ _ _ _ _ E4).
  unfold bind, fault. rewrite Hsave. cbn [ret save_to logging].
  exists sws. eexists. exists (vba_archive wb).
  split; [reflexivity|]. split; [reflexivity|].
  assert (Hq2 : quiet_step st s2) by (unfold s2; solve_quiet).
  destruct (quiet_step_trans _ _ _ Hq2 (quiet_step_trans _ _ _ Hq3 Hq4))
    as [_ [extra [Hl Hq]]].
  split.
  - exists (extra ++ [(INFO, ("處理後檔案已保存到: "
                         ++ path_join TEMP_OUTPUT_DIR
                              ("result_" ++ filename u))%string)])%list.
    cbn [log]. rewrite Hl, <- app_assoc. split; [reflexivity|].
    intros l m Hin. apply in_app_or in Hin. destruct Hin as [Hin|Hin].
    + eauto.
    + destruct Hin as [Hin|[]]. inversion Hin. auto.
  - intros Hnone.
    destruct (highlight_rows_header (dropna df) first) as [Hrow Htitle].
    fold ws in Hrow, Htitle.
    rewrite <- Hrow in Hnone. destruct (Hplain Hnone) as [Hg Hw].
    split; [exact Hg|]. cbn [log]. apply in_or_app. left.
    unfold no_name_warning in *. now rewrite <- Htitle.
Qed.
End NoNameHeader.

Lemma at_most_warnings_app l1 l2 :
  at_most_warnings l1 -> at_most_warnings l2 ->
  at_most_warnings (l1 ++ l2)%list.
Proof.
  intros H1 H2 l m Hin. apply in_app_or in Hin. destruct Hin; eauto.
Qed.

(** Unless the removal fails, the [finally] block logs at INFO level. *)
Lemma cleanup_entries_quiet u :
  rmtree_fault u = None -> at_most_warnings (cleanup_entries u).
Proof.
  intros Hr. unfold cleanup_entries. rewrite Hr.
  destruct (String.eqb (mkdtemp u) EmptyString); [intros l m []|].
  destruct (input_dir_exists u); [|intros l m []].
  intros l m [H|[]]. inversion H. auto.
Qed.

(** The rows of a plain summary grid, one by one. *)
Lemma plain_summary_grid_row rows_ i n d c :
  nth_error rows_ i = Some (n, d, c) ->
  nth_error (plain_summary_grid rows_) (S i)
  = Some [mkCell (Some (VStr n)) false false;
          mkCell (Some (VStr d)) false false;
          mkCell (Some (VInt (Z.of_nat c))) false false].
Proof.
  intros H. unfold plain_summary_grid. cbn [nth_error].
  rewrite nth_error_map, H. reflexivity.
Qed.

(** C9: when the header row of the primary sheet of a loaded workbook has
    no "Name" cell, the request still ends with status 200 and a saved
    file.  The last sheet of the saved book is the summary sheet: its
    first row is Name, Data Type, Count, and row [i + 2] holds the Name,
    the Data Type and the Count of summary row [i], for every row of the
    deviation summary and in its order; every cell is a plain value (no
    formula, no fill, no link font).  The [try] block logs the warning and
    nothing worse than a warning; the log of the request is these entries
    followed by what the [finally] block writes, so nothing worse than a
    warning is logged unless the removal of the temporary directory
    fails. *)
Theorem C9_no_name_header_still_succeeds :
  forall (xl : Libraries) (u : Upload) (df : DataFrame) (doc : Workbook)
         (first : Worksheet) (others : list Worksheet),
    accepted u ->
    loads u df ->
    has_required u df = true ->
    (dropna df = [] -> empty_frame_fault u = None) ->
    file_ext_of u <> ".xls" ->
    load_workbook_doc u = Return doc ->
    sheets doc = first :: others ->
    save_fault u = None ->
    find_name_col (ws_row first 1) 1 = None ->
    exists st wb' front sws body_log,
      upload_file u
      = (Return (mkResponse 200 true "檔案處理完成！"
                   (Some ("result_" ++ filename u))), st)
      /\ saved st
         = Some (path_join TEMP_OUTPUT_DIR ("result_" ++ filename u), wb')
      /\ sheets wb' = (front ++ [sws])%list
      /\ grid sws = plain_summary_grid (summary (dropna df))
      /\ length (grid sws) = S (length (summary (dropna df)))
      /\ nth_error (grid sws) 0
         = Some [mkCell (Some (VStr "Name")) false false;
                 mkCell (Some (VStr "Data Type")) false false;
                 mkCell (Some (VStr "Count")) false false]
      /\ (forall i n d c,
             nth_error (summary (dropna df)) i = Some (n, d, c) ->
             nth_error (grid sws) (S i)
             = Some [mkCell (Some (VStr n)) false false;
                     mkCell (Some (VStr d)) false false;
                     mkCell (Some (VInt (Z.of_nat c))) false false])
      /\ log st = (body_log ++ cleanup_entries u)%list
      /\ In (no_name_warning first) body_log
      /\ at_most_warnings body_log
      /\ (rmtree_fault u = None -> at_most_warnings (log st)).
Proof.
  intros xl u df doc first others Hacc Hload Hreq Hempty Hne Hdoc Hsheets
         Hsave Hnone.
  destruct (upload_file_accepted u Hacc) as [st1 [Hs1 [Hq1 E]]].
  assert (Hmem : mem String.eqb (file_ext_of u) [".xlsx"; ".xlsm"] = true).
  { destruct Hacc as [_ [_ Hin]].
    rewrite (mem_In String.eqb String.eqb_spec).
    simpl in Hin. simpl. intuition congruence. }
  destruct (analyze_and_report_xlsx_run u (file_base_name_of u)
              (file_ext_of u) df doc first others st1
              Hempty Hne Hmem Hdoc Hsheets Hsave)
    as [sws [st' [vba [Ea [Hsaved [[extra [Hl Hq]] Hplain]]]]]].
  destruct (Hplain Hnone) as [Hg Hw].
  unfold process in E.
  rewrite (bind_Return _ _ _ _ _
             (load_loads u (file_ext_of u) df st1 Hload)) in E.
  rewrite Hreq in E. cbn [negb] in E. rewrite Ea in E.
  assert (Hbody : at_most_warnings (log st')).
  { rewrite Hl. now apply at_most_warnings_app. }
  eexists. eexists. eexists. exists sws, (log st').
  split; [exact E|]. split; [exact Hsaved|]. split; [reflexivity|].
  split; [exact Hg|].
  split; [rewrite Hg; unfold plain_summary_grid; simpl;
          now rewrite length_map|].
  split; [now rewrite Hg|].
  split; [intros i n d c Hi; rewrite Hg;
          now apply plain_summary_grid_row|].
  split; [reflexivity|]. split; [exact Hw|]. split; [exact Hbody|].
  intros Hr. cbn [log snd]. apply at_most_warnings_app; [exact Hbody|].
  now apply cleanup_entries_quiet.
Qed.

Lemma C9_no_name_header_witness :
  accepted upload_no_name_header
  /\ loads upload_no_name_header scenario_A
  /\ has_required upload_no_name_header scenario_A = true
  /\ file_ext_of upload_no_name_header <> ".xls"
  /\ find_name_col (ws_row sample_sheet_no_name 1) 1 = None
  /\ exists st wb' front sws body_log,
      @upload_file sample_libraries upload_no_name_header
      = (Return (mkResponse 200 true "檔案處理完成！"
                   (Some ("result_" ++ filename upload_no_name_header))), st)
      /\ saved st
         = Some (path_join TEMP_OUTPUT_DIR
                   ("result_" ++ filename upload_no_name_header), wb')
      /\ sheets wb' = (front ++ [sws])%list
      /\ grid sws = plain_summary_grid (summary (dropna scenario_A))
      /\ length (grid sws) = S (length (summary (dropna scenario_A)))
      /\ nth_error (grid sws) 0
         = Some [mkCell (Some (VStr "Name")) false false;
                 mkCell (Some (VStr "Data Type")) false false;
                 mkCell (Some (VStr "Count")) false false]
      /\ (forall i n d c,
             nth_error (summary (dropna scenario_A)) i = Some (n, d, c) ->
             nth_error (grid sws) (S i)
             = Some [mkCell (Some (VStr n)) false false;
                     mkCell (Some (VStr d)) false false;
                     mkCell (Some (VInt (Z.of_nat c))) false false])
      /\ log st = (body_log ++ cleanup_entries upload_no_name_header)%list
      /\ In (no_name_warning sample_sheet_no_name) body_log
      /\ at_most_warnings body_log
      /\ (rmtree_fault upload_no_name_header = None ->
          at_most_warnings (log st)).
Proof.
  assert (Hacc : accepted upload_no_name_header).
  { split; [vm_compute; congruence|]. split; [reflexivity|].
    vm_compute. tauto. }
  assert (Hload : loads upload_no_name_header scenario_A)
    by (left; reflexivity).
  assert (Hne : file_ext_of upload_no_name_header <> ".xls")
    by (vm_compute; discriminate).
  assert (Hempty : dropna scenario_A = [] ->
                   empty_frame_fault upload_no_name_header = None)
    by (intros _; reflexivity).
  split; [exact Hacc|]. split; [exact Hload|]. split; [reflexivity|].
  split; [exact Hne|]. split; [reflexivity|].
  exact (C9_no_name_header_still_succeeds sample_libraries
           upload_no_name_header scenario_A
           (mkWorkbook [sample_sheet_no_name] None) sample_sheet_no_name []
           Hacc Hload eq_refl Hempty Hne eq_refl eq_refl eq_refl eq_refl).
Defined.

(** ** Unclassified failures *)

(** C10, as stated, fails: when openpyxl rejects the file with "File is not
    a zip file", the response repeats that text. *)
Lemma C10_internal_failure_text_is_shown :
  ~ @internal_failures_hidden sample_libraries upload_rejected_by_openpyxl.
Proof.
  intros H.
  refine (H "File is not a zip file" _ _ _ eq_refl _ eq_refl _).
  - discriminate.
  - unfold leaks_exception_text. cbn [str_exn message].
    apply contains_suffix.
Qed.

(** C10, amended: every exception that leaves the body of [upload_file]
    is caught: a [ValueError] becomes a 400 response carrying its text, any
    other exception a 500 response whose message is the fixed
    internal-error text followed by the text of the exception; the request
    always ends with a response. *)
Theorem C10_unclassified_failure_response :
  forall (xl : Libraries) (u : Upload),
    (exists resp st, upload_file u = (Return resp, st))
    /\ (forall t st,
           upload_body u (mkState [] None None)
           = (Raise (OtherException t), st) ->
           exists st',
             upload_file u
             = (Return (mkResponse 500 false (msg_internal ++ t) None), st')
             /\ saved st' = saved st
             /\ leaks_exception_text (OtherException t)
                  (mkResponse 500 false (msg_internal ++ t) None))
    /\ (forall t st,
           upload_body u (mkState [] None None)
           = (Raise (ValueError t), st) ->
           exists st',
             upload_file u = (Return (bad_request t), st')
             /\ saved st' = saved st).
Proof.
  intros xl u. split; [apply upload_file_total|].
  split; intros t st Hb.
  - destruct (handle_exception_run u (OtherException t) st) as [st0 [E Hs]].
    destruct (upload_file_finally u
                (Return (mkResponse 500 false (msg_internal ++ t) None)) st0)
      as [st' [Ef Hs']].
    { unfold upload_handler, try_except. now rewrite Hb. }
    exists st'. split; [exact Ef|]. split; [congruence|].
    unfold leaks_exception_text. cbn [str_exn message].
    apply contains_suffix.
  - destruct (handle_exception_run u (ValueError t) st) as [st0 [E Hs]].
    destruct (upload_file_finally u (Return (bad_request t)) st0)
      as [st' [Ef Hs']].
    { unfold upload_handler, try_except. now rewrite Hb. }
    exists st'. split; [exact Ef | congruence].
Qed.

Lemma C10_failure_witness :
  (exists st,
      @upload_body sample_libraries upload_rejected_by_openpyxl
        (mkState [] None None)
      = (Raise (OtherException "File is not a zip file"), st))
  /\ exists st',
      @upload_file sample_libraries upload_rejected_by_openpyxl
      = (Return (mkResponse 500 false
                   (msg_internal ++ "File is not a zip file") None), st').
Proof.
  split; [eexists; vm_compute; reflexivity|].
  destruct (proj1 (proj2 (C10_unclassified_failure_response sample_libraries
                            upload_rejected_by_openpyxl))
              "File is not a zip file" _ eq_refl) as [st' [E _]].
  exists st'. exact E.
Defined.

(** ** One summary sheet in every saved book *)

(** The book saved by a successful request has distinct titles and exactly
    one summary sheet, provided the loaded document had distinct titles. *)
Lemma saved_book_one_summary {xl : Libraries} (u : Upload) resp st :
  upload_file u = (Return resp, st) ->
  status_code resp = 200%Z ->
  (forall doc, load_workbook_doc u = Return doc -> NoDup (sheetnames doc)) ->
  exists name wb',
    saved st = Some (path_join TEMP_OUTPUT_DIR name, wb')
    /\ NoDup (sheetnames wb')
    /\ count String.eqb summary_title (sheetnames wb') = 1.
Proof.
  intros H Hok Hdoc.
  destruct (upload_success_inv u resp st H Hok) as [_ [st1 [st2 [Hp Hsv]]]].
  destruct (process_inv u _ _ _ _ _ Hp Hok) as [df [_ [_ Ha]]].
  destruct (analyze_and_report_inv u _ _ _ _ _ _ Ha)
    as [_ [_ [s1 [wb [ws [name [s2 [wb' [s3 [Ho [Hs [Hsaved _]]]]]]]]]]]].
  assert (Hnd : NoDup (sheetnames wb)).
  { apply open_book_inv in Ho.
    destruct Ho as [[_ [Hx _]]|[_ [Hx _]]].
    - destruct (open_xls_run u df (dropna df) s1) as [ws0 [s2' [Ex _]]].
      rewrite Ex in Hx. injection Hx as <- _ _.
      repeat constructor. simpl. tauto.
    - apply open_xlsx_inv in Hx.
      destruct Hx as [doc [first [others [Hd [Hsh [-> [-> _]]]]]]].
      specialize (Hdoc doc Hd). unfold sheetnames in *.
      rewrite Hsh in Hdoc. cbn [sheets map] in *.
      now rewrite (proj2 (highlight_rows_header (dropna df) first)). }
  destruct (append_summary_one wb ws (summary (dropna df)) s2 Hnd)
    as [sws [s3' [E [_ [_ [Hnd' Hc]]]]]].
  rewrite E in Hs. injection Hs as <- <-.
  exists name. eexists. split; [rewrite Hsv; exact Hsaved|].
  split; assumption.
Qed.

(** C8: the summary step removes a sheet already bearing the reserved
    title before it appends the new one, so a book whose titles are
    distinct ends with exactly one sheet of that title, and so does the
    result of running the step again on it; accordingly, when the output
    of a successful request is uploaded again, the second output holds
    exactly one summary sheet. *)
Theorem C8_exactly_one_summary_sheet :
  forall (xl : Libraries),
    (forall (wb : Workbook) (ws : Worksheet)
            (rows_ : list (string * string * nat)) (st : State),
        NoDup (sheetnames wb) ->
        exists wb1 st1 sws,
          append_summary wb ws rows_ st = (Return wb1, st1)
          /\ sheets wb1 = (without_summary (sheets wb) ++ [sws])%list
          /\ title sws = summary_title
          /\ ~ In summary_title (map title (without_summary (sheets wb)))
          /\ count String.eqb summary_title (sheetnames wb1) = 1
          /\ forall ws' rows' st',
              exists wb2 st2,
                append_summary wb1 ws' rows' st' = (Return wb2, st2)
                /\ count String.eqb summary_title (sheetnames wb2) = 1)
    /\ (forall (u1 u2 : Upload) resp1 st1 resp2 st2 path1 wb1,
          upload_file u1 = (Return resp1, st1) ->
          status_code resp1 = 200%Z ->
          (forall doc, load_workbook_doc u1 = Return doc ->
                       NoDup (sheetnames doc)) ->
          saved st1 = Some (path1, wb1) ->
          load_workbook_doc u2 = Return wb1 ->
          upload_file u2 = (Return resp2, st2) ->
          status_code resp2 = 200%Z ->
          count String.eqb summary_title (sheetnames wb1) = 1
          /\ exists path2 wb2,
              saved st2 = Some (path2, wb2)
              /\ count String.eqb summary_title (sheetnames wb2) = 1).
Proof.
  intros xl. split.
  - intros wb ws rows_ st Hnd.
    destruct (append_summary_one wb ws rows_ st Hnd)
      as [sws [st1 [E [Ht [Hnotin [Hnd1 Hc]]]]]].
    eexists. exists st1, sws. split; [exact E|].
    split; [reflexivity|]. split; [exact Ht|]. split; [exact Hnotin|].
    split; [exact Hc|].
    intros ws' rows' st'.
    destruct (append_summary_one
                (mkWorkbook (without_summary (sheets wb) ++ [sws])
                   (vba_archive wb))
                ws' rows' st' Hnd1)
      as [sws2 [st2 [E2 [_ [_ [_ Hc2]]]]]].
    eexists. exists st2. split; [exact E2 | exact Hc2].
  - intros u1 u2 resp1 st1 resp2 st2 path1 wb1 H1 Hok1 Hdoc1 Hsaved1 Hload2
           H2 Hok2.
    destruct (saved_book_one_summary u1 resp1 st1 H1 Hok1 Hdoc1)
      as [name1 [wb1' [E1 [Hnd1 Hc1]]]].
    rewrite E1 in Hsaved1. injection Hsaved1 as _ ->.
    split; [exact Hc1|].
    destruct (saved_book_one_summary u2 resp2 st2 H2 Hok2)
      as [name2 [wb2 [E2 [_ Hc2]]]].
    + intros doc Hd. rewrite Hload2 in Hd. injection Hd as <-. exact Hnd1.
    + eauto.
Qed.

Lemma C8_one_summary_witness :
  NoDup (sheetnames processed_book)
  /\ exists wb1 st1 sws,
      @append_summary sample_libraries processed_book sample_sheet
        (summary (dropna scenario_A)) (mkState [] None None)
      = (Return wb1, st1)
      /\ sheets wb1 = (without_summary (sheets processed_book) ++ [sws])%list
      /\ title sws = summary_title
      /\ ~ In summary_title
            (map title (without_summary (sheets processed_book)))
      /\ count String.eqb summary_title (sheetnames wb1) = 1
      /\ forall ws' rows' st',
          exists wb2 st2,
            @append_summary sample_libraries wb1 ws' rows' st'
            = (Return wb2, st2)
            /\ count String.eqb summary_title (sheetnames wb2) = 1.
Proof.
  assert (Hnd : NoDup (sheetnames processed_book)).
  { repeat constructor; simpl; intuition discriminate. }
  split; [exact Hnd|].
  exact (proj1 (C8_exactly_one_summary_sheet sample_libraries) processed_book
           sample_sheet (summary (dropna scenario_A))
           (mkState [] None None) Hnd).
Defined.

(** ** Concrete runs *)

Example splitext_examples :
  splitext "types.XLS" = ("types", ".XLS")
  /\ splitext "archive.tar.gz" = ("archive.tar", ".gz")
  /\ splitext ".hidden" = (".hidden", EmptyString)
  /\ splitext "dir.v1/report" = ("dir.v1/report", EmptyString).
Proof. repeat split; reflexivity. Qed.

(** Scenario B: one Name, one Data Type: no flag, empty summary. *)
Example scenario_B_no_flags :
  let recs := dropna (frame_of [("x", "int"); ("x", "int")]) in
  map (Highlight recs) recs = [false; false] /\ summary recs = [].
Proof. split; reflexivity. Qed.

(** Rows without Name or Data Type take no part in the analysis. *)
Example dropna_example :
  map rec_label
    (dropna (mkDataFrame ["Name"; "Data Type"]
               [mkRow 0 [Some "x"; Some "int"];
                mkRow 1 [None; Some "int"];
                mkRow 2 [Some "x"; None];
                mkRow 3 [Some "y"; Some "str"]]))
  = [0; 3].
Proof. reflexivity. Qed.

(** A one-sheet document that needs the retry is processed. *)
Example one_sheet_retry_run :
  fst (@upload_file sample_libraries upload_one_sheet)
  = Return (mkResponse 200 true "檔案處理完成！" (Some "result_book.xlsx")).
Proof. vm_compute. reflexivity. Qed.

(** A macro-enabled upload keeps its name and its VBA archive; the flagged
    row 3 (sheet row 4) is filled, and the summary names link to the first
    row of "x". *)
Example macro_upload_run :
  exists st primary links,
    @upload_file sample_libraries upload_macro
    = (Return (mkResponse 200 true "檔案處理完成！"
                 (Some "result_types.xlsm")), st)
    /\ saved st
       = Some ("temp_output/result_types.xlsm",
               mkWorkbook [primary; links] (Some "vbaProject.bin"))
    /\ map (map yellow_fill) (grid primary)
       = [[false; false]; [false; false]; [false; false]; [true; true]]
    /\ title links = summary_title
    /\ map (map cvalue) (grid links)
       = [[Some (VStr "Name"); Some (VStr "Data Type"); Some (VStr "Count")];
          [Some (VStr ("=HYPERLINK(" ++ dquote ++ "#'Data'!A2" ++ dquote
                       ++ ", " ++ dquote ++ "x" ++ dquote ++ ")"));
           Some (VStr "int"); Some (VInt 2)];
          [Some (VStr ("=HYPERLINK(" ++ dquote ++ "#'Data'!A2" ++ dquote
                       ++ ", " ++ dquote ++ "x" ++ dquote ++ ")"));
           Some (VStr "str"); Some (VInt 1)]].
Proof.
  eexists. eexists. eexists. split; [vm_compute; reflexivity|].
  repeat split; reflexivity.
Qed.

(** * Further properties of the pipeline *)

(** ** The analysis *)

(** X1: the dominant value of a Name is carried by one of its Records, so
    every Name group keeps an unflagged Record: the analysis never flags a
    whole group. *)
Theorem every_group_keeps_an_unflagged_record :
  forall (df : DataFrame) (r : Record_),
    In r (dropna df) ->
    exists r',
      In r' (dropna df) /\ Name r' = Name r
      /\ Highlight (dropna df) r' = false
      /\ dict_get (common_types (dropna df)) (Name r) = Some (DataType r').
Proof.
  intros df r Hr. set (recs := dropna df) in *.
  destruct (dominant_defined recs r Hr) as [d [Hget Hagg]].
  destruct (agg_mode0_least d _ Hagg) as [[Hin _] _].
  apply In_group_inv in Hin. destruct Hin as [r' [H1 [H2 H3]]].
  exists r'. split; [exact H1|]. split; [exact H2|]. split.
  - destruct (Highlight recs r') eqn:E; [|reflexivity].
    rewrite <- H2 in Hget. apply (Highlight_iff recs r' d Hget) in E.
    congruence.
  - congruence.
Qed.

Lemma every_group_keeps_an_unflagged_record_witness :
  In record_3_of_A (dropna scenario_A)
  /\ exists r',
      In r' (dropna scenario_A) /\ Name r' = Name record_3_of_A
      /\ Highlight (dropna scenario_A) r' = false
      /\ dict_get (common_types (dropna scenario_A)) (Name record_3_of_A)
         = Some (DataType r').
Proof.
  assert (H : In record_3_of_A (dropna scenario_A)) by (vm_compute; tauto).
  split; [exact H|].
  exact (every_group_keeps_an_unflagged_record scenario_A record_3_of_A H).
Defined.

(** X2: the summary is empty exactly when no analysed Record is flagged. *)
Theorem summary_empty_iff_no_flag :
  forall (df : DataFrame),
    summary (dropna df) = []
    <-> forall r, In r (dropna df) -> Highlight (dropna df) r = false.
Proof.
  intros df. set (recs := dropna df). split.
  - intros Hs r Hr. destruct (Highlight recs r) eqn:E; [|reflexivity].
    exfalso.
    assert (Hin : In (Name r, DataType r,
                      occurrences (Name r) (DataType r) recs)
                     (summary recs)).
    { apply In_summary. split; [|split; [exists r; auto | reflexivity]].
      apply In_inconsistent_names. exists r. auto. }
    rewrite Hs in Hin. destruct Hin.
  - intros Hnone.
    destruct (summary recs) as [|[[n d] c] t] eqn:E; [reflexivity|].
    exfalso.
    assert (Hin : In (n, d, c) (summary recs)) by (rewrite E; now left).
    apply In_summary in Hin. destruct Hin as [Hn _].
    apply In_inconsistent_names in Hn. destruct Hn as [r [Hr [_ Hf]]].
    rewrite (Hnone r Hr) in Hf. discriminate.
Qed.

(** The order of the summary rows. *)

Section SortedFacts.
Context {A : Type}.
Variable leb : A -> A -> bool.
Hypothesis leb_total : forall x y, leb x y = true \/ leb y x = true.
Hypothesis leb_trans :
  forall x y z, leb x y = true -> leb y z = true -> leb x z = true.

Lemma insert_sorted_sorted x l :
  StronglySorted (fun a b => leb a b = true) l ->
  StronglySorted (fun a b => leb a b = true) (insert_sorted leb x l).
Proof.
  induction 1 as [|y t Hs IH Hall]; simpl.
  - repeat constructor.
  - destruct (leb x y) eqn:E.
    + constructor; [now constructor|]. constructor; [assumption|].
      rewrite Forall_forall in *. intros z Hz.
      apply leb_trans with y; auto.
    + constructor; [assumption|].
      rewrite Forall_forall in *. intros z Hz.
      apply (Permutation_in z (Permutation_sym (insert_sorted_perm leb x t)))
        in Hz.
      destruct Hz as [<-|Hz]; [|auto].
      destruct (leb_total x y); congruence.
Qed.

Lemma sort_sorted l : StronglySorted (fun a b => leb a b = true) (sort leb l).
Proof.
  induction l as [|x t IH]; simpl; [constructor|].
  now apply insert_sorted_sorted.
Qed.
End SortedFacts.

Lemma key_leb_total a b : key_leb a b = true \/ key_leb b a = true.
Proof.
  unfold key_leb. rewrite (String.eqb_sym (fst b) (fst a)).
  destruct (String.eqb (fst a) (fst b)); apply String.leb_total.
Qed.

Lemma key_leb_trans a b c :
  key_leb a b = true -> key_leb b c = true -> key_leb a c = true.
Proof.
  unfold key_leb.
  destruct (String.eqb_spec (fst a) (fst b)) as [Eab|Nab];
    destruct (String.eqb_spec (fst b) (fst c)) as [Ebc|Nbc];
    destruct (String.eqb_spec (fst a) (fst c)) as [Eac|Nac];
    intros H1 H2; try congruence.
  - now apply string_leb_trans with (snd b).
  - exfalso. rewrite <- Eac in H2. apply Nab.
    now apply String.leb_antisym.
  - now apply string_leb_trans with (fst b).
Qed.

(** X3: the summary rows come in ascending order of (Name, Data Type),
    whatever the order of the input rows, and no key comes twice. *)
Theorem summary_sorted_by_key :
  forall (df : DataFrame),
    StronglySorted (fun a b => key_leb a b = true)
      (map summary_key (summary (dropna df)))
    /\ NoDup (map summary_key (summary (dropna df))).
Proof.
  intros df. split; [|apply NoDup_groupby_size].
  unfold summary, groupby_size. rewrite map_map. unfold summary_key. simpl.
  rewrite (map_ext _ (fun k => k)) by (intros [a b]; reflexivity).
  rewrite map_id. apply sort_sorted; [apply key_leb_total|apply key_leb_trans].
Qed.

(** ** What a request leaves behind *)

Lemma bind_outcome {A B} (c : M A) (k : A -> M B) st o st' :
  bind c k st = (o, st') ->
  (exists a st1, c st = (Return a, st1) /\ k a st1 = (o, st'))
  \/ (exists e, c st = (Raise e, st') /\ o = Raise e).
Proof.
  unfold bind. destruct (c st) as [[a|e] st1]; intros H.
  - left. eauto.
  - right. injection H as <- <-. eauto.
Qed.

Lemma fault_state f st (o : outcome unit) st' :
  fault f st = (o, st') -> st' = st.
Proof.
  destruct f; unfold fault, raise, ret; intros H; now injection H.
Qed.

Section Outcomes.
Context {xl : Libraries}.
Variable u : Upload.

Lemma open_xlsx_saved file_ext recs st o st' :
  open_xlsx u file_ext recs st = (o, st') -> saved st' = saved st.
Proof.
  unfold open_xlsx, load_workbook.
  destruct (String.eqb file_ext ".xlsm");
    unfold bind, lift; rewrite logging_run;
    (destruct (load_workbook_doc u) as [doc|e];
     [cbn [ret sheets]; destruct (sheets doc) | ];
     intros H; injection H as _ <-; reflexivity).
Qed.

Lemma open_book_saved base file_ext df recs st o st' :
  open_book u base file_ext df recs st = (o, st') -> saved st' = saved st.
Proof.
  unfold open_book. destruct (String.eqb file_ext ".xls").
  - destruct (open_xls_run u df recs st) as [ws0 [s1 [E [_ [Hs _]]]]].
    rewrite (bind_Return _ _ _ _ _ E). unfold ret.
    intros H. injection H as _ <-. exact Hs.
  - destruct (mem String.eqb file_ext [".xlsx"; ".xlsm"]).
    + intros H. apply bind_outcome in H.
      destruct H as [[p [s1 [H1 H2]]]|[e [H1 _]]].
      * unfold ret in H2. injection H2 as _ <-.
        now apply open_xlsx_saved in H1.
      * now apply open_xlsx_saved in H1.
    + unfold raise. intros H. now injection H as _ <-.
Qed.

(** The report either completes, with status 200 and the saved book, or
    raises and saves nothing. *)
Lemma analyze_and_report_outcome base file_ext df st o st' :
  analyze_and_report u base file_ext df st = (o, st') ->
  (exists name wb,
      o = Return (mkResponse 200 true "檔案處理完成！" (Some name))
      /\ saved st' = Some (path_join TEMP_OUTPUT_DIR name, wb))
  \/ (saved st' = saved st /\ exists e, o = Raise e).
Proof.
  unfold analyze_and_report. cbv zeta. intros H.
  apply bind_outcome in H. destruct H as [[[] [s1 [H1 H]]]|[e [H1 ->]]].
  2:{ right. split; [|eauto].
      destruct (dropna df); [|discriminate].
      apply fault_state in H1. now subst. }
  assert (E1 : s1 = st).
  { destruct (dropna df); [now apply fault_state in H1|].
    unfold ret in H1. now injection H1. }
  subst s1. clear H1.
  apply bind_outcome in H. destruct H as [[[] [s2 [H2 H]]]|[e [H2 _]]];
    [|discriminate].
  rewrite logging_run in H2. injection H2 as <-.
  apply bind_outcome in H.
  destruct H as [[[[wb ws] name] [s3 [H3 H]]]|[e [H3 ->]]].
  2:{ right. split; [|eauto]. now apply open_book_saved in H3. }
  apply open_book_saved in H3. cbn [saved] in H3.
  destruct (append_summary_run wb ws (summary (dropna df)) s3)
    as [sws [s4 [E4 [[Hs4 _] _]]]].
  rewrite (bind_Return _ _ _ _ _ E4) in H.
  apply bind_outcome in H. destruct H as [[[] [s5 [H5 H]]]|[e [H5 ->]]].
  2:{ right. split; [|eauto]. apply fault_state in H5. congruence. }
  apply fault_state in H5. subst s5.
  unfold bind, save_to, logging, ret in H. injection H as <- <-.
  left. eexists. eexists. split; reflexivity.
Qed.

(** [process] either completes the report, or answers 400 for missing
    columns, or raises; in the last two cases nothing is saved. *)
Lemma process_outcome base file_ext st o st' :
  process u base file_ext st = (o, st') ->
  (exists name wb,
      o = Return (mkResponse 200 true "檔案處理完成！" (Some name))
      /\ saved st' = Some (path_join TEMP_OUTPUT_DIR name, wb))
  \/ (saved st' = saved st
      /\ ((exists m, o = Return (bad_request m)) \/ exists e, o = Raise e)).
Proof.
  unfold process. intros H. apply bind_outcome in H.
  destruct H as [[df [s1 [H1 H]]]|[e [H1 ->]]].
  - apply load_Return_inv in H1. destruct H1 as [_ ->].
    destruct (has_required u df); cbn [negb] in H.
    + apply analyze_and_report_outcome in H.
      destruct H as [H|[Hs He]]; [now left | right; auto].
    + unfold bind, logging, ret in H. injection H as <- <-.
      right. split; [reflexivity | left; eauto].
  - apply load_Raise_inv in H1. destruct H1 as [_ Hs].
    right. split; [exact Hs | right; eauto].
Qed.

Lemma upload_body_outcome st o st' :
  upload_body u st = (o, st') ->
  (exists name wb,
      o = Return (mkResponse 200 true "檔案處理完成！" (Some name))
      /\ saved st' = Some (path_join TEMP_OUTPUT_DIR name, wb))
  \/ (saved st' = saved st
      /\ ((exists m, o = Return (bad_request m)) \/ exists e, o = Raise e)).
Proof.
  unfold upload_body. unfold bind at 1. rewrite logging_run.
  destruct (file_size u >? MAX_FILE_SIZE_MB * 1024 * 1024)%Z.
  { unfold bind, logging, ret. intros H. injection H as <- <-.
    right. split; [reflexivity | left; eauto]. }
  unfold bind at 1. cbn [set_temp_input_dir]. cbv zeta.
  unfold bind at 1.
  destruct (store_fault u) as [e|]; cbn [fault raise ret].
  { intros H. injection H as <- <-.
    right. split; [reflexivity | right; eauto]. }
  unfold bind at 1. rewrite logging_run.
  destruct (splitext (filename u)) as [base ext].
  destruct (mem String.eqb (lower ext) supported_extensions); cbn [negb].
  - intros H. apply process_outcome in H. exact H.
  - unfold bind, logging, ret. intros H. injection H as <- <-.
    right. split; [reflexivity | left; eauto].
Qed.
End Outcomes.

(** X4: every request is answered, with status 200, 400 or 500.  A file is
    saved exactly for status 200, under the returned download name; every
    other response has [success = false], no download name, and leaves
    nothing saved. *)
Theorem output_saved_exactly_on_success :
  forall (xl : Libraries) (u : Upload),
    exists resp st,
      upload_file u = (Return resp, st)
      /\ ((status_code resp = 200%Z /\ success resp = true
           /\ exists name wb,
               download_filename resp = Some name
               /\ saved st = Some (path_join TEMP_OUTPUT_DIR name, wb))
          \/ ((status_code resp = 400%Z \/ status_code resp = 500%Z)
              /\ success resp = false
              /\ download_filename resp = None
              /\ saved st = None)).
Proof.
  intros xl u.
  destruct (upload_handler u (mkState [] None None)) as [o1 st1] eqn:Eh.
  destruct (upload_file_finally u _ _ Eh) as [st [Ef Hsv]].
  unfold upload_handler, try_except in Eh.
  destruct (upload_body u (mkState [] None None)) as [o st0] eqn:Eb.
  apply upload_body_outcome in Eb.
  destruct Eb as [[name [wb [-> Hs]]]|[Hs [[m ->]|[e ->]]]].
  - injection Eh as <- <-. eexists. exists st. split; [exact Ef|]. left.
    split; [reflexivity|]. split; [reflexivity|].
    exists name, wb. split; [reflexivity | congruence].
  - injection Eh as <- <-. eexists. exists st. split; [exact Ef|]. right.
    cbn [bad_request status_code success download_filename].
    split; [now left|]. split; [reflexivity|]. split; [reflexivity|].
    rewrite Hsv. exact Hs.
  - destruct (handle_exception_run u e st0) as [st' [E Hs']].
    rewrite E in Eh. injection Eh as <- <-.
    eexists. exists st. split; [exact Ef|]. right.
    assert (Hnone : saved st = None) by (rewrite Hsv, Hs'; exact Hs).
    destruct e; cbn [bad_request status_code success download_filename].
    + split; [now left|]. split; [reflexivity|]. split; [reflexivity|].
      exact Hnone.
    + split; [now right|]. split; [reflexivity|]. split; [reflexivity|].
      exact Hnone.
Qed.

(** ** Unreadable documents *)

Lemma load_unopened u file_ext e e' st :
  read_excel_first u = Raise e ->
  ExcelFile_sheet_names u = Raise e' ->
  exists st',
    load u file_ext st
    = (Raise (ValueError (msg_unreadable ++ str_exn e')), st')
    /\ saved st' = saved st.
Proof.
  intros H1 H2. unfold load, try_except, lift, bind. rewrite H1, H2.
  eexists. split; reflexivity.
Qed.

(** A [ValueError] of the loader becomes the 400 response that carries
    its text. *)
Lemma loader_failure_response {xl : Libraries} u m :
  accepted u ->
  (forall st, exists st',
      load u (file_ext_of u) st = (Raise (ValueError m), st')
      /\ saved st' = saved st) ->
  exists st,
    upload_file u = (Return (mkResponse 400 false m None), st)
    /\ saved st = None.
Proof.
  intros Hacc Hload.
  destruct (upload_file_accepted u Hacc) as [st1 [Hs [_ E]]].
  destruct (Hload st1) as [s2 [El Hs2]].
  unfold process in E. rewrite (bind_Raise _ _ _ _ _ El) in E.
  destruct (handle_exception_run u (ValueError m) s2) as [st3 [Eh Hs3]].
  rewrite Eh in E. eexists. split; [exact E|].
  cbn [saved snd]. congruence.
Qed.

(** X5: when the direct read fails and the fallback yields no table
    either, an accepted upload is answered with status 400 (never 500),
    [success = false], no download name and nothing saved; the message is
    the unreadable-file text followed by the text of the exception that
    ended the fallback: the exception of [pd.ExcelFile] when the document
    cannot be opened, the exception of the second read when its only
    sheet cannot be read, and the multiple-sheets text when it has no
    sheet or several. *)
Theorem unreadable_document_is_bad_request :
  forall (xl : Libraries) (u : Upload) (e : exn),
    accepted u ->
    read_excel_first u = Raise e ->
    (forall e',
        ExcelFile_sheet_names u = Raise e' ->
        exists st,
          upload_file u
          = (Return (mkResponse 400 false (msg_unreadable ++ str_exn e')
                       None), st)
          /\ saved st = None)
    /\ (forall only e',
           ExcelFile_sheet_names u = Return [only] ->
           read_excel_sheet u only = Raise e' ->
           exists st,
             upload_file u
             = (Return (mkResponse 400 false (msg_unreadable ++ str_exn e')
                          None), st)
             /\ saved st = None)
    /\ (forall names,
           ExcelFile_sheet_names u = Return names ->
           length names <> 1 ->
           exists st,
             upload_file u
             = (Return (mkResponse 400 false
                          (msg_unreadable ++ msg_multiple_sheets) None), st)
             /\ saved st = None).
Proof.
  intros xl u e Hacc Hfirst. split; [|split].
  - intros e' Hx. apply loader_failure_response; [exact Hacc|].
    intros st. now apply (load_unopened u (file_ext_of u) e e' st).
  - intros only e' Hx Hsheet.
    apply loader_failure_response; [exact Hacc|]. intros st.
    exact (proj2 (load_retry u (file_ext_of u) e only st Hfirst Hx)
             e' Hsheet).
  - intros names Hx Hlen.
    apply loader_failure_response; [exact Hacc|]. intros st.
    now apply (load_not_one_sheet u (file_ext_of u) e names st).
Qed.

Lemma unreadable_document_witness :
  accepted upload_unreadable
  /\ read_excel_first upload_unreadable
     = Raise (OtherException "Missing optional dependency 'xlrd'")
  /\ ExcelFile_sheet_names upload_unreadable
     = Raise (OtherException "Missing optional dependency 'xlrd'")
  /\ exists st,
      @upload_file sample_libraries upload_unreadable
      = (Return (mkResponse 400 false
                   (msg_unreadable ++ "Missing optional dependency 'xlrd'")
                   None), st)
      /\ saved st = None.
Proof.
  assert (Hacc : accepted upload_unreadable).
  { split; [vm_compute; congruence|]. split; [reflexivity|].
    vm_compute. tauto. }
  split; [exact Hacc|]. split; [reflexivity|]. split; [reflexivity|].
  exact (proj1 (unreadable_document_is_bad_request sample_libraries
                  upload_unreadable _ Hacc eq_refl)
           (OtherException "Missing optional dependency 'xlrd'") eq_refl).
Defined.

(** ** The highlight loop *)

Lemma nth_update_nth {A : Type} i j (f : A -> A) d (l : list A) :
  nth j (update_nth i f d l) d
  = if (j =? i)%nat then f (nth i l d) else nth j l d.
Proof.
  revert j l. induction i as [|i IH]; intros j l.
  - destruct l as [|x t], j as [|j]; simpl; try reflexivity.
    now destruct j.
  - destruct l as [|x t], j as [|j]; simpl; try reflexivity.
    + rewrite IH. destruct (j =? i)%nat; destruct i, j; reflexivity.
    + apply IH.
Qed.

Lemma length_update_nth {A : Type} i (f : A -> A) d (l : list A) :
  length (update_nth i f d l) = Nat.max (length l) (S i).
Proof.
  revert l. induction i as [|i IH]; intros [|x t]; simpl;
    rewrite ?IH; simpl; lia.
Qed.

Lemma nth_pad_row n row j :
  nth j (pad_row n row) empty_cell = nth j row empty_cell.
Proof.
  unfold pad_row. destruct (Nat.lt_ge_cases j (length row)) as [H|H].
  - now apply app_nth1.
  - rewrite app_nth2 by assumption. rewrite (nth_overflow row) by assumption.
    apply nth_repeat.
Qed.

(** The cells of [ws[r]], by position. *)
Lemma nth_ws_row ws r j :
  nth j (ws_row ws r) empty_cell
  = nth j (nth (r - 1) (grid ws) []) empty_cell.
Proof. apply nth_pad_row. Qed.

Lemma length_ws_row ws r : length (ws_row ws r) = max_column ws.
Proof.
  unfold ws_row. rewrite pad_row_length. unfold max_column.
  destruct (nth_in_or_default (r - 1) (grid ws) []) as [Hin|E].
  - pose proof (row_length_le_max _ _ Hin). lia.
  - rewrite E. simpl. lia.
Qed.

Lemma grid_fill_row r ws :
  grid (fill_row r ws)
  = update_nth (r - 1) (fun _ => map set_fill (ws_row ws r)) [] (grid ws).
Proof. reflexivity. Qed.

Lemma max_column_fill_row r ws :
  r <= max_row ws -> 2 <= r -> max_column (fill_row r ws) = max_column ws.
Proof.
  intros Hr H2. unfold max_row in Hr.
  unfold max_column at 1. rewrite grid_fill_row.
  rewrite max_lengths_update.
  - rewrite length_map, length_ws_row. unfold max_column. lia.
  - lia.
  - intros row Hin. rewrite length_map, length_ws_row. unfold max_column.
    pose proof (row_length_le_max _ _ Hin). lia.
Qed.

Lemma max_row_fill_row r ws :
  r <= max_row ws -> 2 <= r -> max_row (fill_row r ws) = max_row ws.
Proof.
  intros Hr H2. unfold max_row in *. rewrite grid_fill_row.
  rewrite length_update_nth. lia.
Qed.

Lemma cvalue_nth_set_fill j (l : list Cell) :
  cvalue (nth j (map set_fill l) empty_cell) = cvalue (nth j l empty_cell).
Proof.
  destruct (Nat.lt_ge_cases j (length l)) as [H|H].
  - rewrite (nth_indep _ empty_cell (set_fill empty_cell))
      by (now rewrite length_map).
    now rewrite map_nth.
  - rewrite !nth_overflow; [reflexivity | assumption |
                            now rewrite length_map].
Qed.

Lemma cell_value_fill_row k ws r c :
  cell_value (fill_row k ws) r c = cell_value ws r c.
Proof.
  unfold cell_value. rewrite grid_fill_row, nth_update_nth.
  destruct (Nat.eqb_spec (r - 1) (k - 1)) as [E|_]; [|reflexivity].
  rewrite cvalue_nth_set_fill.
  replace (ws_row ws k) with (ws_row ws r)
    by (unfold ws_row; now rewrite E).
  rewrite nth_ws_row. now rewrite E.
Qed.

(** Rows other than the filled one keep their cells. *)
Lemma row_fill_row_other k ws j :
  j <> k - 1 -> nth j (grid (fill_row k ws)) [] = nth j (grid ws) [].
Proof.
  intros H. rewrite grid_fill_row, nth_update_nth.
  destruct (Nat.eqb_spec j (k - 1)); [contradiction | reflexivity].
Qed.

Lemma ws_row_fill_row_same k ws :
  k <= max_row ws -> 2 <= k ->
  ws_row (fill_row k ws) k = map set_fill (ws_row ws k).
Proof.
  intros Hk H2. unfold ws_row at 1.
  rewrite (max_column_fill_row k ws Hk H2), grid_fill_row, nth_update_nth,
    Nat.eqb_refl.
  unfold pad_row. rewrite length_map, length_ws_row, Nat.sub_diag.
  apply app_nil_r.
Qed.

Lemma ws_row_fill_row_other k ws r :
  k <= max_row ws -> 2 <= k -> r - 1 <> k - 1 ->
  ws_row (fill_row k ws) r = ws_row ws r.
Proof.
  intros Hk H2 Hne. unfold ws_row.
  now rewrite (max_column_fill_row k ws Hk H2), row_fill_row_other.
Qed.

Lemma highlight_rows_fold recs ws :
  highlight_rows recs ws = fold_left (highlight_step recs) recs ws.
Proof. reflexivity. Qed.

Lemma highlight_step_keeps flags w r :
  title (highlight_step flags w r) = title w
  /\ max_row (highlight_step flags w r) = max_row w
  /\ max_column (highlight_step flags w r) = max_column w
  /\ forall i c, cell_value (highlight_step flags w r) i c
                 = cell_value w i c.
Proof.
  unfold highlight_step. destruct (Highlight flags r); [|auto].
  cbv zeta. destruct (rec_label r + 2 <=? max_row w)%nat eqn:E; [|auto].
  apply Nat.leb_le in E. split; [reflexivity|].
  split; [apply max_row_fill_row; lia|].
  split; [apply max_column_fill_row; lia|].
  intros i c. apply cell_value_fill_row.
Qed.

Lemma highlight_fold_keeps flags l w :
  title (fold_left (highlight_step flags) l w) = title w
  /\ max_row (fold_left (highlight_step flags) l w) = max_row w
  /\ max_column (fold_left (highlight_step flags) l w) = max_column w
  /\ forall i c, cell_value (fold_left (highlight_step flags) l w) i c
                 = cell_value w i c.
Proof.
  revert w. induction l as [|r t IH]; intros w; simpl; [auto|].
  destruct (IH (highlight_step flags w r)) as [H1 [H2 [H3 H4]]].
  destruct (highlight_step_keeps flags w r) as [K1 [K2 [K3 K4]]].
  split; [congruence|]. split; [congruence|]. split; [congruence|].
  intros i c. now rewrite H4.
Qed.

Lemma highlight_keeps_every_value_aux recs ws :
  title (highlight_rows recs ws) = title ws
  /\ max_row (highlight_rows recs ws) = max_row ws
  /\ max_column (highlight_rows recs ws) = max_column ws
  /\ forall r c, cell_value (highlight_rows recs ws) r c
                 = cell_value ws r c.
Proof. rewrite highlight_rows_fold. apply highlight_fold_keeps. Qed.

(** A cell after [fill_row]: the cell as it was, or that cell with the
    fill. *)
Lemma cell_at_fill_row k ws r c :
  cell_at (fill_row k ws) r c = cell_at ws r c
  \/ cell_at (fill_row k ws) r c = set_fill (cell_at ws r c).
Proof.
  unfold cell_at. rewrite grid_fill_row, nth_update_nth.
  destruct (Nat.eqb_spec (r - 1) (k - 1)) as [E|_]; [|now left].
  replace (ws_row ws k) with (ws_row ws r)
    by (unfold ws_row; now rewrite E).
  rewrite <- (nth_ws_row ws r (c - 1)).
  destruct (Nat.lt_ge_cases (c - 1) (length (ws_row ws r))) as [H|H].
  - right.
    rewrite (nth_indep _ empty_cell (set_fill empty_cell))
      by (now rewrite length_map).
    now rewrite map_nth.
  - left. rewrite !nth_overflow; [reflexivity | assumption |
                                  now rewrite length_map].
Qed.

(** Cell [y] is cell [x] up to a fill that was added. *)
Lemma highlight_step_cell flags w r i c :
  let x := cell_at w i c in
  let y := cell_at (highlight_step flags w r) i c in
  cvalue y = cvalue x
  /\ blue_font y = blue_font x
  /\ (yellow_fill x = true -> yellow_fill y = true).
Proof.
  cbv zeta. unfold highlight_step. destruct (Highlight flags r); [|auto].
  cbv zeta. destruct (rec_label r + 2 <=? max_row w)%nat; [|auto].
  destruct (cell_at_fill_row (rec_label r + 2) w i c) as [-> | ->];
    [auto|]. unfold set_fill. cbn [cvalue blue_font yellow_fill]. auto.
Qed.

Lemma highlight_fold_cell flags l w i c :
  let x := cell_at w i c in
  let y := cell_at (fold_left (highlight_step flags) l w) i c in
  cvalue y = cvalue x
  /\ blue_font y = blue_font x
  /\ (yellow_fill x = true -> yellow_fill y = true).
Proof.
  cbv zeta. revert w. induction l as [|r t IH]; intros w; simpl; [auto|].
  destruct (IH (highlight_step flags w r)) as [H1 [H2 H3]].
  destruct (highlight_step_cell flags w r i c) as [K1 [K2 K3]].
  split; [congruence|]. split; [congruence|]. auto.
Qed.

(** X6: highlighting changes fills only, and only by adding them: the
    sheet keeps its title and its dimensions, and every cell keeps its
    value and its font (link font or not) and, when it had the fill,
    still has it. *)
Theorem highlight_keeps_every_value :
  forall (recs : list Record_) (ws : Worksheet),
    title (highlight_rows recs ws) = title ws
    /\ max_row (highlight_rows recs ws) = max_row ws
    /\ max_column (highlight_rows recs ws) = max_column ws
    /\ forall r c,
        cell_value (highlight_rows recs ws) r c = cell_value ws r c
        /\ blue_font (cell_at (highlight_rows recs ws) r c)
           = blue_font (cell_at ws r c)
        /\ (yellow_fill (cell_at ws r c) = true ->
            yellow_fill (cell_at (highlight_rows recs ws) r c) = true).
Proof.
  intros recs ws. rewrite highlight_rows_fold.
  destruct (highlight_fold_keeps recs recs ws) as [H1 [H2 [H3 _]]].
  split; [exact H1|]. split; [exact H2|]. split; [exact H3|].
  intros r c. exact (highlight_fold_cell recs recs ws r c).
Qed.

Lemma filled_set_fill l : filled (map set_fill l).
Proof.
  unfold filled. rewrite Forall_forall. intros x Hx.
  apply in_map_iff in Hx. destruct Hx as [y [<- _]]. reflexivity.
Qed.

Lemma highlight_step_filled flags w r k :
  2 <= k -> filled (ws_row w k) ->
  filled (ws_row (highlight_step flags w r) k).
Proof.
  intros H2 Hf. unfold highlight_step. destruct (Highlight flags r); [|auto].
  cbv zeta. destruct (rec_label r + 2 <=? max_row w)%nat eqn:E; [|auto].
  apply Nat.leb_le in E.
  destruct (Nat.eq_dec k (rec_label r + 2)) as [->|Hne].
  - rewrite ws_row_fill_row_same by lia. apply filled_set_fill.
  - rewrite ws_row_fill_row_other by lia. exact Hf.
Qed.

Lemma highlight_fold_filled flags l w k :
  2 <= k -> filled (ws_row w k) ->
  filled (ws_row (fold_left (highlight_step flags) l w) k).
Proof.
  revert w. induction l as [|r t IH]; intros w H2 Hf; simpl; [exact Hf|].
  apply IH; [exact H2|]. now apply highlight_step_filled.
Qed.

Lemma highlight_fold_fills flags l w r :
  In r l -> Highlight flags r = true -> rec_label r + 2 <= max_row w ->
  filled (ws_row (fold_left (highlight_step flags) l w) (rec_label r + 2)).
Proof.
  revert w. induction l as [|x t IH]; intros w Hin Hf Hk; [destruct Hin|].
  simpl. destruct Hin as [->|Hin].
  - apply highlight_fold_filled; [lia|].
    unfold highlight_step. rewrite Hf. cbv zeta.
    destruct (Nat.leb_spec (rec_label r + 2) (max_row w)); [|lia].
    rewrite ws_row_fill_row_same by lia. apply filled_set_fill.
  - apply IH; try assumption.
    now rewrite (proj1 (proj2 (highlight_step_keeps flags w x))).
Qed.

Lemma highlight_fold_untouched flags l w k :
  (forall r, In r l -> Highlight flags r = true ->
             rec_label r + 2 = k -> max_row w < k) ->
  nth (k - 1) (grid (fold_left (highlight_step flags) l w)) []
  = nth (k - 1) (grid w) [].
Proof.
  revert w. induction l as [|x t IH]; intros w H; simpl; [reflexivity|].
  rewrite IH.
  - unfold highlight_step. destruct (Highlight flags x) eqn:Hf; [|reflexivity].
    cbv zeta.
    destruct (Nat.leb_spec (rec_label x + 2) (max_row w)) as [Hle|_];
      [|reflexivity].
    apply row_fill_row_other. intros E.
    assert (Hk : rec_label x + 2 = k) by lia.
    specialize (H x (or_introl eq_refl) Hf Hk). lia.
  - intros r Hr Hf Hk.
    rewrite (proj1 (proj2 (highlight_step_keeps flags w x))).
    apply (H r); [now right | assumption | assumption].
Qed.

(** X7: the sheet row of every flagged Record (its index label plus 2,
    the header being row 1) is filled across all columns when it lies
    within the sheet; a row that no flagged Record points to, or that lies
    beyond the last row, keeps its cells as they were. *)
Theorem highlight_fills_exactly_the_flagged_rows :
  forall (recs : list Record_) (ws : Worksheet) (k : nat),
    (forall r, In r recs -> Highlight recs r = true ->
               rec_label r + 2 = k -> k <= max_row ws ->
               filled (ws_row (highlight_rows recs ws) k)
               /\ length (ws_row (highlight_rows recs ws) k)
                  = max_column ws)
    /\ ((forall r, In r recs -> Highlight recs r = true ->
                   rec_label r + 2 = k -> max_row ws < k) ->
        nth (k - 1) (grid (highlight_rows recs ws)) []
        = nth (k - 1) (grid ws) []).
Proof.
  intros recs ws k. rewrite highlight_rows_fold. split.
  - intros r Hin Hf <- Hk. split.
    + now apply highlight_fold_fills.
    + rewrite length_ws_row.
      apply (proj1 (proj2 (proj2 (highlight_fold_keeps recs recs ws)))).
  - apply highlight_fold_untouched.
Qed.

Lemma highlight_fills_witness :
  In record_3_of_A (dropna scenario_A)
  /\ Highlight (dropna scenario_A) record_3_of_A = true
  /\ rec_label record_3_of_A + 2 <= max_row sample_sheet
  /\ filled (ws_row (highlight_rows (dropna scenario_A) sample_sheet) 4)
  /\ length (ws_row (highlight_rows (dropna scenario_A) sample_sheet) 4)
     = max_column sample_sheet.
Proof.
  assert (H1 : In record_3_of_A (dropna scenario_A)) by (vm_compute; tauto).
  assert (H2 : Highlight (dropna scenario_A) record_3_of_A = true)
    by reflexivity.
  assert (H3 : rec_label record_3_of_A + 2 <= max_row sample_sheet)
    by (vm_compute; lia).
  split; [exact H1|]. split; [exact H2|]. split; [exact H3|].
  exact (proj1 (highlight_fills_exactly_the_flagged_rows
                  (dropna scenario_A) sample_sheet 4)
           record_3_of_A H1 H2 eq_refl H3).
Defined.

(** ** The rebuilt sheet of the [.xls] branch *)

Lemma cell_value_set_value r c v ws i j :
  cell_value (set_value r c v ws) i j
  = if ((i - 1 =? r - 1) && (j - 1 =? c - 1))%nat then Some v
    else cell_value ws i j.
Proof.
  unfold cell_value, set_value. cbn [grid]. rewrite nth_update_nth.
  destruct (Nat.eqb_spec (i - 1) (r - 1)) as [E|_]; [|reflexivity].
  rewrite nth_update_nth.
  destruct (Nat.eqb_spec (j - 1) (c - 1)) as [_|_]; cbn [andb cvalue];
    [reflexivity | now rewrite E].
Qed.

Lemma cell_value_write_row_other r c vs ws i j :
  i - 1 <> r - 1 ->
  cell_value (write_row r c vs ws) i j = cell_value ws i j.
Proof.
  intros Hne. revert c ws. induction vs as [|v t IH]; intros c ws; simpl;
    [reflexivity|].
  rewrite IH, cell_value_set_value.
  destruct (Nat.eqb_spec (i - 1) (r - 1)); [contradiction | reflexivity].
Qed.

Lemma cell_value_write_row_before r c vs ws i j :
  1 <= j -> j < c ->
  cell_value (write_row r c vs ws) i j = cell_value ws i j.
Proof.
  intros H1. revert c ws. induction vs as [|v t IH]; intros c ws Hj; simpl;
    [reflexivity|].
  rewrite IH by lia. rewrite cell_value_set_value.
  destruct (Nat.eqb_spec (j - 1) (c - 1)); [lia|].
  now rewrite andb_false_r.
Qed.

Lemma cell_value_write_row_hit r c vs ws n v :
  1 <= c -> nth_error vs n = Some v ->
  cell_value (write_row r c vs ws) r (c + n) = Some v.
Proof.
  revert c ws n. induction vs as [|x t IH]; intros c ws n Hc Hn.
  - destruct n; discriminate.
  - simpl. destruct n as [|n]; simpl in Hn.
    + injection Hn as ->. rewrite Nat.add_0_r.
      rewrite cell_value_write_row_before by lia.
      rewrite cell_value_set_value, !Nat.eqb_refl. reflexivity.
    + replace (c + S n) with (S c + n) by lia. apply IH; [lia | exact Hn].
Qed.

Section Rebuild.
Variable df : DataFrame.
Variable flags : list Record_.

Lemma rebuild_fold_other l w k j :
  (forall r, In r l -> rec_label r + 2 <> k) -> 1 <= k ->
  cell_value (fold_left (rebuild_step df flags) l w) k j = cell_value w k j.
Proof.
  revert w. induction l as [|x t IH]; intros w H Hk; simpl; [reflexivity|].
  rewrite IH; [|intros r Hr; apply H; now right|exact Hk].
  unfold rebuild_step. apply cell_value_write_row_other.
  specialize (H x (or_introl eq_refl)). lia.
Qed.

Lemma rebuild_fold_hit l w r n col :
  NoDup (map rec_label l) -> In r l ->
  nth_error (annotated_columns df) n = Some col ->
  cell_value (fold_left (rebuild_step df flags) l w) (rec_label r + 2) (n + 1)
  = Some (record_value df flags r col).
Proof.
  revert w. induction l as [|x t IH]; intros w Hnd Hin Hn; [destruct Hin|].
  simpl in Hnd. inversion Hnd as [|? ? Hnotin Hnd']; subst. simpl.
  destruct Hin as [->|Hin]; [|now apply IH].
  rewrite rebuild_fold_other.
  - unfold rebuild_step. rewrite (Nat.add_comm n 1).
    apply cell_value_write_row_hit; [lia|].
    now rewrite nth_error_map, Hn.
  - intros r' Hr' E. apply Hnotin.
    replace (rec_label r) with (rec_label r') by lia. now apply in_map.
  - lia.
Qed.
End Rebuild.

Lemma rebuild_sheet_fold df recs ws0 :
  rebuild_sheet df recs ws0
  = fold_left (rebuild_step df recs) recs
      (write_row 1 1 (map VStr (annotated_columns df)) ws0).
Proof. reflexivity. Qed.

Lemma rebuilt_sheet_cells df recs ws0 :
  let ws := highlight_rows recs (rebuild_sheet df recs ws0) in
  (forall n col,
      nth_error (annotated_columns df) n = Some col ->
      cell_value ws 1 (n + 1) = Some (VStr col))
  /\ (NoDup (map rec_label recs) ->
      forall r n col,
        In r recs ->
        nth_error (annotated_columns df) n = Some col ->
        cell_value ws (rec_label r + 2) (n + 1)
        = Some (record_value df recs r col)).
Proof.
  intros ws. unfold ws.
  destruct (highlight_keeps_every_value_aux recs (rebuild_sheet df recs ws0))
    as [_ [_ [_ Hv]]].
  rewrite rebuild_sheet_fold in *. split.
  - intros n col Hn. rewrite Hv, rebuild_fold_other by (intros; lia).
    rewrite (Nat.add_comm n 1). apply cell_value_write_row_hit; [lia|].
    now rewrite nth_error_map, Hn.
  - intros Hnd r n col Hin Hn. rewrite Hv. now apply rebuild_fold_hit.
Qed.

Lemma index_of_NoDup cols n col :
  NoDup cols -> nth_error cols n = Some col -> index_of col cols = Some n.
Proof.
  revert n. induction cols as [|h t IH]; intros n Hnd Hn;
    [destruct n; discriminate|].
  inversion Hnd as [|? ? Hnotin Hnd']; subst.
  destruct n as [|n]; simpl in *.
  - injection Hn as ->. now rewrite String.eqb_refl.
  - destruct (String.eqb_spec h col) as [->|_].
    + exfalso. apply Hnotin. eapply nth_error_In. eassumption.
    + now rewrite (IH n Hnd' Hn).
Qed.

Lemma nth_error_annotated df n col :
  nth_error (columns df) n = Some col ->
  nth_error (annotated_columns df) n = Some col.
Proof.
  intros H. unfold annotated_columns.
  destruct (mem String.eqb "Highlight" (columns df)); [exact H|].
  rewrite nth_error_app1; [exact H|].
  apply nth_error_Some. congruence.
Qed.

Lemma nth_error_annotated_last df :
  ~ In "Highlight" (columns df) ->
  nth_error (annotated_columns df) (length (columns df)) = Some "Highlight".
Proof.
  intros H. unfold annotated_columns.
  destruct (mem String.eqb "Highlight" (columns df)) eqn:E.
  - rewrite (mem_In String.eqb String.eqb_spec) in E. contradiction.
  - rewrite nth_error_app2 by lia. now rewrite Nat.sub_diag.
Qed.

(** [dropna] keeps index labels: distinct labels stay distinct. *)
Lemma dropna_rows_labels cols rs :
  (forall l, In l (map rec_label (dropna_rows cols rs)) ->
             In l (map label rs))
  /\ (NoDup (map label rs) -> NoDup (map rec_label (dropna_rows cols rs))).
Proof.
  induction rs as [|r t [IH1 IH2]]; simpl; [split; [tauto | auto]|].
  destruct (at_col cols "Name" r) as [n|];
    [destruct (at_col cols "Data Type" r) as [d|]|]; simpl; split;
    try (intros l Hl; right; now apply IH1);
    try (intros Hnd; inversion Hnd; subst; now apply IH2).
  - intros l [<-|Hl]; [now left | right; now apply IH1].
  - intros Hnd. inversion Hnd as [|? ? Hnotin Hnd']; subst.
    constructor; [|now apply IH2]. intros Hin. apply Hnotin.
    now apply IH1.
Qed.

(** The value the data loop writes for a column of the frame and for the
    flag column. *)
Lemma record_value_column df recs r n col :
  NoDup (columns df) ->
  nth_error (columns df) n = Some col ->
  col <> "Highlight" ->
  record_value df recs r col = text_or_nan (nth n (rec_cells r) None).
Proof.
  intros Hnd Hn Hne. unfold record_value.
  destruct (String.eqb_spec col "Highlight") as [E|_]; [contradiction|].
  unfold at_col. now rewrite (index_of_NoDup _ _ _ Hnd Hn).
Qed.

(** X8: the primary sheet of the [.xls] branch holds the frame.  Row 1
    holds the column names, followed by "Highlight" when the frame has no
    such column.  For an input row that has a Name and a Data Type, with
    index label [l], sheet row [l + 2] holds in column [n + 1] the text of
    the row's cell in the frame's column [n] (NaN for a missing cell), and
    in the flag column whether the Record is flagged.  On a new sheet
    every other row from row 2 on (the rows of dropped input rows) stays
    blank.  Column names and index labels are distinct, as pandas delivers
    them. *)
Theorem rebuilt_sheet_holds_the_frame :
  forall (df : DataFrame) (ws0 : Worksheet),
    let recs := dropna df in
    let ws := highlight_rows recs (rebuild_sheet df recs ws0) in
    NoDup (columns df) ->
    NoDup (map label (rows df)) ->
    (forall n col,
        nth_error (columns df) n = Some col ->
        cell_value ws 1 (n + 1) = Some (VStr col))
    /\ (~ In "Highlight" (columns df) ->
        cell_value ws 1 (length (columns df) + 1) = Some (VStr "Highlight"))
    /\ (forall row name dt,
           analysed df row name dt ->
           let flag :=
             VBool (Highlight recs
                      (mkRecord (label row) name dt (cells row))) in
           (forall n col,
               nth_error (columns df) n = Some col ->
               col <> "Highlight" ->
               match nth n (cells row) None with
               | Some s =>
                   cell_value ws (label row + 2) (n + 1) = Some (VStr s)
               | None =>
                   cell_value ws (label row + 2) (n + 1) = Some VNaN
               end)
           /\ (forall n,
                  nth_error (columns df) n = Some "Highlight" ->
                  cell_value ws (label row + 2) (n + 1) = Some flag)
           /\ (~ In "Highlight" (columns df) ->
               cell_value ws (label row + 2) (length (columns df) + 1)
               = Some flag))
    /\ (grid ws0 = [] ->
        forall k j,
          2 <= k ->
          (forall row name dt,
              analysed df row name dt -> label row + 2 <> k) ->
          cell_value ws k j = None).
Proof.
  intros df ws0 recs ws Hcols Hlabels.
  destruct (rebuilt_sheet_cells df recs ws0) as [Hhead Hcells].
  fold ws in Hhead, Hcells.
  assert (Hnd : NoDup (map rec_label recs))
    by (apply dropna_rows_labels; exact Hlabels).
  specialize (Hcells Hnd).
  split; [|split; [|split]].
  - intros n col Hn. apply Hhead. now apply nth_error_annotated.
  - intros Hno. apply Hhead. now apply nth_error_annotated_last.
  - intros row name dt [Hin [Hname Hdt]] flag.
    set (r := mkRecord (label row) name dt (cells row)).
    assert (Hr : In r recs).
    { apply dropna_spec. exists row. unfold r. cbn [Name DataType]. auto. }
    change (label row) with (rec_label r).
    split; [|split].
    + intros n col Hn Hne.
      rewrite (Hcells r n col Hr (nth_error_annotated df n col Hn)).
      rewrite (record_value_column df recs r n col Hcols Hn Hne).
      unfold r. cbn [rec_cells].
      now destruct (nth n (cells row) None).
    + intros n Hn.
      now rewrite (Hcells r n "Highlight" Hr
                     (nth_error_annotated df n _ Hn)).
    + intros Hno.
      now rewrite (Hcells r (length (columns df)) "Highlight" Hr
                     (nth_error_annotated_last df Hno)).
  - intros Hg k j Hk Hnone. unfold ws.
    destruct (highlight_keeps_every_value_aux recs
                (rebuild_sheet df recs ws0)) as [_ [_ [_ Hv]]].
    rewrite Hv, rebuild_sheet_fold, rebuild_fold_other.
    + rewrite cell_value_write_row_other by lia.
      unfold cell_value. rewrite Hg. now destruct (k - 1), (j - 1).
    + intros r Hr. apply dropna_spec in Hr.
      destruct Hr as [row [Hin [Hn [Hd ->]]]]. cbn [rec_label].
      apply (Hnone row (Name r) (DataType r)). repeat split; assumption.
    + lia.
Qed.

Lemma rebuilt_sheet_witness :
  let row := mkRow 2 [Some "x"; Some "str"] in
  NoDup (columns scenario_A)
  /\ NoDup (map label (rows scenario_A))
  /\ analysed scenario_A row "x" "str"
  /\ nth_error (columns scenario_A) 1 = Some "Data Type"
  /\ cell_value
       (highlight_rows (dropna scenario_A)
          (rebuild_sheet scenario_A (dropna scenario_A)
             (mkWorksheet "Sheet" [])))
       4 2
     = Some (VStr "str").
Proof.
  intros row.
  assert (Hc : NoDup (columns scenario_A)).
  { vm_compute. repeat constructor; simpl; intuition discriminate. }
  assert (Hl : NoDup (map label (rows scenario_A))).
  { vm_compute. repeat constructor; simpl; intuition discriminate. }
  assert (Ha : analysed scenario_A row "x" "str").
  { split; [vm_compute; tauto|]. split; reflexivity. }
  split; [exact Hc|]. split; [exact Hl|]. split; [exact Ha|].
  split; [reflexivity|].
  assert (Hne : "Data Type" <> "Highlight") by discriminate.
  exact (proj1 (proj1 (proj2 (proj2
           (rebuilt_sheet_holds_the_frame scenario_A
              (mkWorksheet "Sheet" []) Hc Hl)))
           row "x" "str" Ha) 1 "Data Type" eq_refl Hne).
Defined.

(** ** Hyperlinks *)

Lemma find_seq_first (p : nat -> bool) a n j :
  find p (seq a n) = Some j ->
  a <= j < a + n /\ p j = true /\ forall i, a <= i < j -> p i = false.
Proof.
  revert a. induction n as [|n IH]; intros a; simpl; [discriminate|].
  destruct (p a) eqn:E.
  - intros H. injection H as <-. split; [lia|]. split; [exact E|]. lia.
  - intros H. apply IH in H. destruct H as [H1 [H2 H3]].
    split; [lia|]. split; [exact H2|]. intros i Hi.
    destruct (Nat.eq_dec i a) as [->|Hne]; [exact E | apply H3; lia].
Qed.

Lemma find_seq_none (p : nat -> bool) a n :
  find p (seq a n) = None -> forall i, a <= i < a + n -> p i = false.
Proof.
  intros H i Hi. apply (find_none p (seq a n) H). apply in_seq. lia.
Qed.

Lemma string_app_assoc (a b c : string) : (a ++ b) ++ c = a ++ b ++ c.
Proof. induction a as [|x a IH]; simpl; [reflexivity | now rewrite IH]. Qed.

(** The replacement made for the display text doubles every double
    quote. *)
Lemma replace_char_double_quotes s :
  replace_char (ascii_of_nat 34) (dquote ++ dquote) s = double_quotes s.
Proof.
  induction s as [|c t IH]; [reflexivity|].
  cbn [replace_char double_quotes]. rewrite IH.
  rewrite (Ascii.eqb_sym (ascii_of_nat 34) c).
  destruct (Ascii.eqb_spec c (ascii_of_nat 34)) as [->|_]; reflexivity.
Qed.

Section Links.
Context {xl : Libraries}.

Lemma hyperlink_formula_text ws col j v :
  hyperlink_formula (quote_sheetname (title ws)) col j v
  = link_text ws col j v.
Proof.
  unfold hyperlink_formula, link_text. cbv zeta.
  rewrite replace_char_double_quotes.
  f_equal. f_equal. rewrite !string_app_assoc. reflexivity.
Qed.

Lemma find_row_first_match ws col v j :
  find_row ws col v = Some j <-> first_match ws col v j.
Proof.
  unfold first_match. change (find_row ws col v)
    with (find (name_matches ws col v) (seq 2 (max_row ws - 1))).
  assert (Hm : 1 <= max_row ws) by (unfold max_row; lia).
  split.
  - intros H. apply find_seq_first in H. destruct H as [H1 [H2 H3]].
    split; [lia|]. split; assumption.
  - intros [H1 [H2 H3]].
    destruct (find (name_matches ws col v) (seq 2 (max_row ws - 1)))
      as [j'|] eqn:E.
    + apply find_seq_first in E. destruct E as [E1 [E2 E3]].
      f_equal. destruct (Nat.lt_trichotomy j j') as [Hlt|[->|Hgt]];
        [|reflexivity|].
      * rewrite (E3 j) in H2 by lia. discriminate.
      * rewrite (H3 j') in E2 by lia. discriminate.
    + rewrite (find_seq_none _ _ _ E j) in H2 by lia. discriminate.
Qed.

Lemma find_row_none ws col v :
  find_row ws col v = None <->
  forall j, 2 <= j <= max_row ws -> name_matches ws col v j = false.
Proof.
  change (find_row ws col v)
    with (find (name_matches ws col v) (seq 2 (max_row ws - 1))).
  split.
  - intros H j Hj. apply (find_seq_none _ _ _ H). lia.
  - intros H.
    destruct (find (name_matches ws col v) (seq 2 (max_row ws - 1)))
      as [j|] eqn:E; [|reflexivity].
    apply find_seq_first in E. destruct E as [E1 [E2 _]].
    rewrite H in E2 by lia. discriminate.
Qed.

(** A row that holds the very value searched for stops the search: the
    first match is that row or an earlier one. *)
Lemma find_row_same_value ws col v k :
  2 <= k <= max_row ws ->
  cell_value ws k col = Some v ->
  exists j, find_row ws col v = Some j /\ j <= k.
Proof.
  intros Hk Hv.
  assert (Hm : name_matches ws col v k = true).
  { unfold name_matches. rewrite Hv. apply String.eqb_refl. }
  destruct (find_row ws col v) as [j|] eqn:E.
  - exists j. split; [reflexivity|].
    apply find_row_first_match in E. destruct E as [_ [_ E]].
    destruct (Nat.le_gt_cases j k) as [H|H]; [exact H|].
    rewrite (E k) in Hm by lia. discriminate.
  - rewrite (proj1 (find_row_none ws col v) E k Hk) in Hm. discriminate.
Qed.

(** One step of the hyperlink loop on a row whose Name cell has a value. *)
Lemma link_row_found ws col name_cell rest v j :
  cvalue name_cell = Some v ->
  find_row ws col v = Some j ->
  link_row ws (quote_sheetname (title ws)) col (name_cell :: rest)
  = linked_cell ws col j name_cell v :: rest.
Proof.
  intros Hv Hj. cbn [link_row]. rewrite Hv, Hj.
  unfold linked_cell. now rewrite hyperlink_formula_text.
Qed.
End Links.

(** X9: the hyperlink loop leaves the summary sheet's title, header row
    and number of rows alone.  In a data row whose Name cell holds a
    value, that cell becomes a link to the first sheet row (from row 2)
    whose Name-column cell matches the name once both are trimmed and
    lower-cased by Python's [strip] and [lower]: its value is the
    HYPERLINK formula to that row, showing the name with its double quotes
    doubled, and it gets the link font.  When a sheet row holds exactly
    the name, the cell is linked, to that row or an earlier one.  Without
    a matching row the row stays as it is.  The other cells of the row
    are never touched. *)
Theorem hyperlink_goes_to_first_matching_row :
  forall (xl : Libraries) (ws : Worksheet) (col : nat)
         (summary_ws : Worksheet),
    title (add_hyperlinks ws col summary_ws) = title summary_ws
    /\ length (grid (add_hyperlinks ws col summary_ws))
       = length (grid summary_ws)
    /\ nth_error (grid (add_hyperlinks ws col summary_ws)) 0
       = nth_error (grid summary_ws) 0
    /\ forall i name_cell rest v,
        nth_error (grid summary_ws) (S i) = Some (name_cell :: rest) ->
        cvalue name_cell = Some v ->
        (forall j, first_match ws col v j ->
                   nth_error (grid (add_hyperlinks ws col summary_ws)) (S i)
                   = Some (mkCell
                             (Some (VStr (link_text ws col j v)))
                             (yellow_fill name_cell) true :: rest))
        /\ (forall k, 2 <= k <= max_row ws ->
                      cell_value ws k col = Some v ->
                      exists j, j <= k /\ first_match ws col v j)
        /\ ((forall j, 2 <= j <= max_row ws ->
                       name_matches ws col v j = false) ->
            nth_error (grid (add_hyperlinks ws col summary_ws)) (S i)
            = Some (name_cell :: rest)).
Proof.
  intros xl ws col summary_ws. unfold add_hyperlinks.
  destruct (grid summary_ws) as [|header data] eqn:Eg.
  - rewrite Eg. split; [reflexivity|]. split; [reflexivity|].
    split; [reflexivity|]. intros i name_cell rest v H. discriminate.
  - cbn [title grid]. split; [reflexivity|].
    split; [simpl; now rewrite length_map|]. split; [reflexivity|].
    intros i name_cell rest v Hrow Hv. cbn [nth_error] in *.
    rewrite nth_error_map, Hrow. cbn [option_map].
    split; [|split].
    + intros j Hj. apply find_row_first_match in Hj.
      now rewrite (link_row_found ws col name_cell rest v j Hv Hj).
    + intros k Hk Hcell.
      destruct (find_row_same_value ws col v k Hk Hcell) as [j [Hj Hle]].
      exists j. split; [exact Hle|]. now apply find_row_first_match.
    + intros Hnone. apply find_row_none in Hnone.
      cbn [link_row]. now rewrite Hv, Hnone.
Qed.

Lemma hyperlink_first_match_witness :
  let summary_ws :=
    mkWorksheet summary_title (plain_summary_grid [("X ", "str", 1)]) in
  nth_error (grid summary_ws) 1
  = Some (plain (VStr "X ") :: [plain (VStr "str"); plain (VInt 1)])
  /\ cvalue (plain (VStr "X ")) = Some (VStr "X ")
  /\ @first_match sample_libraries sample_sheet 1 (VStr "X ") 2
  /\ nth_error (grid (@add_hyperlinks sample_libraries sample_sheet 1
                        summary_ws)) 1
     = Some (mkCell
               (Some (VStr ("=HYPERLINK(" ++ dquote ++ "#'Data'!A2" ++ dquote
                            ++ ", " ++ dquote ++ "X " ++ dquote ++ ")")))
               false true
               :: [plain (VStr "str"); plain (VInt 1)]).
Proof.
  intros summary_ws.
  assert (Hfirst : @first_match sample_libraries sample_sheet 1
                     (VStr "X ") 2).
  { split; [vm_compute; lia|]. split; [reflexivity|]. intros i Hi. lia. }
  split; [reflexivity|]. split; [reflexivity|]. split; [exact Hfirst|].
  exact (proj1 (proj2 (proj2 (proj2
           (hyperlink_goes_to_first_matching_row sample_libraries
              sample_sheet 1 summary_ws)))
           0 (plain (VStr "X ")) [plain (VStr "str"); plain (VInt 1)]
           (VStr "X ") eq_refl eq_refl) 2 Hfirst).
Defined.

(** ** Links in the [.xls] branch *)

Lemma index_of_spec c cols i :
  index_of c cols = Some i ->
  nth_error cols i = Some c
  /\ forall j, j < i -> nth_error cols j <> Some c.
Proof.
  revert i. induction cols as [|h t IH]; intros i; simpl; [discriminate|].
  destruct (String.eqb_spec h c) as [->|Hne].
  - intros H. injection H as <-. split; [reflexivity | intros j Hj; lia].
  - destruct (index_of c t) as [k|]; [|discriminate]. simpl.
    intros H. injection H as <-. destruct (IH k eq_refl) as [H1 H2].
    split; [exact H1|]. intros [|j] Hj; simpl; [congruence | apply H2; lia].
Qed.

Lemma index_of_app c l l' i :
  index_of c l = Some i -> index_of c (l ++ l') = Some i.
Proof.
  revert i. induction l as [|h t IH]; intros i; simpl; [discriminate|].
  destruct (String.eqb h c); [auto|].
  destruct (index_of c t) as [k|]; [|discriminate].
  now rewrite (IH k eq_refl).
Qed.

Lemma index_of_annotated df c i :
  index_of c (columns df) = Some i ->
  index_of c (annotated_columns df) = Some i.
Proof.
  unfold annotated_columns.
  destruct (mem String.eqb "Highlight" (columns df)); [auto|].
  apply index_of_app.
Qed.

Lemma value_eqb_Name v : value_eqb v (VStr "Name") = true <-> v = VStr "Name".
Proof.
  destruct v; simpl; try (split; [discriminate | discriminate]).
  split.
  - intros H. apply String.eqb_eq in H. now subst.
  - intros H. injection H as ->. reflexivity.
Qed.

Lemma find_name_col_first header k i :
  i < length header ->
  cvalue (nth i header empty_cell) = Some (VStr "Name") ->
  (forall j, j < i ->
             cvalue (nth j header empty_cell) <> Some (VStr "Name")) ->
  find_name_col header k = Some (k + i).
Proof.
  revert k i. induction header as [|c t IH]; intros k i Hi Hv Hbefore;
    simpl in Hi; [lia|].
  simpl. destruct i as [|i].
  - simpl in Hv. rewrite Hv. simpl. now rewrite Nat.add_0_r.
  - assert (H0 : cvalue c <> Some (VStr "Name"))
      by (apply (Hbefore 0); lia).
    destruct (cvalue c) as [v|] eqn:Ec.
    + destruct (value_eqb v (VStr "Name")) eqn:Ev.
      * apply value_eqb_Name in Ev. congruence.
      * rewrite (IH (S k) i); [f_equal; lia | lia | exact Hv |].
        intros j Hj. apply (Hbefore (S j)). lia.
    + rewrite (IH (S k) i); [f_equal; lia | lia | exact Hv |].
      intros j Hj. apply (Hbefore (S j)). lia.
Qed.

(** A cell with a value lies within the sheet. *)
Lemma cell_value_in_sheet ws r c v :
  cell_value ws r c = Some v ->
  r - 1 < length (grid ws) /\ c - 1 < max_column ws.
Proof.
  unfold cell_value. intros H.
  destruct (Nat.lt_ge_cases (r - 1) (length (grid ws))) as [Hr|Hr].
  - split; [exact Hr|].
    destruct (Nat.lt_ge_cases (c - 1) (length (nth (r - 1) (grid ws) [])))
      as [Hc|Hc].
    + pose proof (row_length_le_max (grid ws) _ (nth_In _ [] Hr)).
      unfold max_column. lia.
    + rewrite (nth_overflow _ _ Hc) in H. discriminate.
  - rewrite (nth_overflow _ _ Hr) in H. now destruct (c - 1).
Qed.

Section XlsLinks.
Context {xl : Libraries}.

(** The grid of the new summary sheet, with or without links. *)
Lemma append_summary_grid wb ws rows_ st :
  exists sws st',
    append_summary wb ws rows_ st
    = (Return (mkWorkbook (without_summary (sheets wb) ++ [sws])
                 (vba_archive wb)), st')
    /\ forall col, find_name_col (ws_row ws 1) 1 = Some col ->
         grid sws
         = map plain [VStr "Name"; VStr "Data Type"; VStr "Count"]
             :: map (link_row ws (quote_sheetname (title ws)) col)
                  (map (fun row => map plain (summary_values row)) rows_).
Proof.
  unfold append_summary, without_summary, sheetnames.
  destruct (mem String.eqb summary_title (map title (sheets wb)));
    destruct (find_name_col (ws_row ws 1) 1) as [c|];
    eexists; eexists; (split; [reflexivity|]); intros col Hc;
    try discriminate; injection Hc as <-;
    unfold add_hyperlinks;
    match goal with
    | |- context [fill_summary rows_ ?w] =>
        destruct (fill_summary_shape rows_ w) as [_ Hg];
        rewrite Hg; unfold plain_summary_grid;
        rewrite <- summary_rows_plain; cbn [create_sheet grid app];
        rewrite (map_map summary_values (map plain)); reflexivity
    end.
Qed.

Lemma dropna_record_name df r :
  In r (dropna df) ->
  exists i,
    index_of "Name" (columns df) = Some i
    /\ at_col (columns df) "Name" (mkRow (rec_label r) (rec_cells r))
       = Some (Name r).
Proof.
  intros Hr. apply dropna_spec in Hr.
  destruct Hr as [row [_ [Hn [_ ->]]]]. cbn [rec_label rec_cells Name].
  destruct row as [l cs]. cbn [label cells] in *.
  unfold at_col in *. destruct (index_of "Name" (columns df)) as [i|];
    [|discriminate].
  exists i. auto.
Qed.

(** X10: in the [.xls] branch, when the index labels of the input rows
    are distinct, the "Name" header is found in the rebuilt sheet, in the
    column of the frame's first "Name" column, and every summary row is
    written to the summary sheet as a link: its Name cell holds the
    HYPERLINK formula to the first sheet row whose name matches (a row
    no later than the row of any Record with that very name) and has the
    link font; the Data Type and the Count follow as plain values. *)
Theorem xls_summary_rows_are_all_linked :
  forall (df : DataFrame) (wb : Workbook) (ws0 : Worksheet) (st : State),
    let recs := dropna df in
    let ws := highlight_rows recs (rebuild_sheet df recs ws0) in
    NoDup (map label (rows df)) ->
    exists sws st',
      append_summary wb ws (summary recs) st
      = (Return (mkWorkbook (without_summary (sheets wb) ++ [sws])
                   (vba_archive wb)), st')
      /\ forall i n d c,
          nth_error (summary recs) i = Some (n, d, c) ->
          exists col j,
            find_name_col (ws_row ws 1) 1 = Some col
            /\ nth_error (columns df) (col - 1) = Some "Name"
            /\ first_match ws col (VStr n) j
            /\ (forall r, In r recs -> Name r = n -> j <= rec_label r + 2)
            /\ nth_error (grid sws) (S i)
               = Some [mkCell (Some (VStr (link_text ws col j (VStr n))))
                         false true;
                       mkCell (Some (VStr d)) false false;
                       mkCell (Some (VInt (Z.of_nat c))) false false].
Proof.
  intros df wb ws0 st recs ws Hlabels.
  assert (Hnd : NoDup (map rec_label recs))
    by (apply dropna_rows_labels; exact Hlabels).
  destruct (append_summary_grid wb ws (summary recs) st)
    as [sws [st' [E Hgrid]]].
  exists sws, st'. split; [exact E|].
  intros i n d c Hrow.
  assert (Hin : In (n, d, c) (summary recs))
    by (eapply nth_error_In; eassumption).
  apply In_summary in Hin. destruct Hin as [_ [[r [Hr [Hname _]]] _]].
  destruct (dropna_record_name df r Hr) as [i0 [Hidx0 _]].
  pose proof (index_of_annotated df _ _ Hidx0) as Hidx.
  destruct (index_of_spec _ _ _ Hidx) as [Hnth Hbefore].
  destruct (rebuilt_sheet_cells df recs ws0) as [Hhead Hcells].
  fold ws in Hhead, Hcells.
  (* the header has "Name" first at position i0 *)
  assert (Hcol : find_name_col (ws_row ws 1) 1 = Some (1 + i0)).
  { pose proof (Hhead i0 "Name" Hnth) as Hv.
    apply find_name_col_first.
    - rewrite length_ws_row.
      apply cell_value_in_sheet in Hv. lia.
    - rewrite nth_ws_row. unfold cell_value in Hv.
      now replace (i0 + 1 - 1) with i0 in Hv by lia.
    - intros j Hj Hc. rewrite nth_ws_row in Hc.
      assert (Hjl : j < length (annotated_columns df)).
      { apply Nat.lt_trans with i0; [exact Hj|].
        apply nth_error_Some. congruence. }
      destruct (nth_error (annotated_columns df) j) as [cj|] eqn:Ej;
        [|apply nth_error_None in Ej; lia].
      pose proof (Hhead j cj Ej) as Hvj. unfold cell_value in Hvj.
      replace (j + 1 - 1) with j in Hvj by lia. cbn [Nat.sub] in Hvj, Hc.
      rewrite Hvj in Hc. injection Hc as ->.
      exact (Hbefore j Hj Ej). }
  (* the row of every Record named [n] holds [n] in that column *)
  assert (Hcell : forall r', In r' recs -> Name r' = n ->
            cell_value ws (rec_label r' + 2) (1 + i0) = Some (VStr n)).
  { intros r' Hr' Hn'.
    destruct (dropna_record_name df r' Hr') as [i1 [Hidx1 Hat]].
    assert (i1 = i0) by congruence. subst i1.
    rewrite (Nat.add_comm 1 i0), (Hcells Hnd r' i0 "Name" Hr' Hnth).
    unfold record_value. cbn [String.eqb Ascii.eqb Bool.eqb].
    rewrite Hat, Hn'. reflexivity. }
  assert (Hrange : forall r', In r' recs -> Name r' = n ->
            2 <= rec_label r' + 2 <= max_row ws).
  { intros r' Hr' Hn'. specialize (Hcell r' Hr' Hn').
    apply cell_value_in_sheet in Hcell. unfold max_row. lia. }
  destruct (find_row_same_value ws (1 + i0) (VStr n) (rec_label r + 2)
              (Hrange r Hr Hname) (Hcell r Hr Hname)) as [j [Ef _]].
  exists (1 + i0), j. split; [exact Hcol|].
  split.
  { replace (1 + i0 - 1) with i0 by lia.
    exact (proj1 (index_of_spec _ _ _ Hidx0)). }
  split; [now apply find_row_first_match|].
  split.
  { intros r' Hr' Hn'.
    destruct (find_row_same_value ws (1 + i0) (VStr n) (rec_label r' + 2)
                (Hrange r' Hr' Hn') (Hcell r' Hr' Hn')) as [j' [Ef' Hle]].
    congruence. }
  rewrite (Hgrid _ Hcol). cbn [nth_error].
  rewrite !nth_error_map, Hrow. cbn [option_map summary_values map].
  rewrite (link_row_found ws (1 + i0) (plain (VStr n)) _ (VStr n) j
             eq_refl Ef).
  reflexivity.
Qed.
End XlsLinks.

(** Witness for the links of the [.xls] branch: Scenario A. *)
Lemma xls_links_witness :
  NoDup (map label (rows scenario_A))
  /\ exists sws st',
      @append_summary sample_libraries (mkWorkbook [] None)
        (highlight_rows (dropna scenario_A)
           (rebuild_sheet scenario_A (dropna scenario_A)
              (mkWorksheet "Data" [])))
        (summary (dropna scenario_A)) (mkState [] None None)
      = (Return (mkWorkbook (without_summary [] ++ [sws]) None), st')
      /\ forall i n d c,
          nth_error (summary (dropna scenario_A)) i = Some (n, d, c) ->
          exists col j,
            find_name_col
              (ws_row (highlight_rows (dropna scenario_A)
                         (rebuild_sheet scenario_A (dropna scenario_A)
                            (mkWorksheet "Data" []))) 1) 1 = Some col
            /\ nth_error (columns scenario_A) (col - 1) = Some "Name"
            /\ @first_match sample_libraries
                 (highlight_rows (dropna scenario_A)
                    (rebuild_sheet scenario_A (dropna scenario_A)
                       (mkWorksheet "Data" []))) col (VStr n) j
            /\ (forall r, In r (dropna scenario_A) -> Name r = n ->
                          j <= rec_label r + 2)
            /\ nth_error (grid sws) (S i)
               = Some [mkCell
                         (Some (VStr
                            (@link_text sample_libraries
                               (highlight_rows (dropna scenario_A)
                                  (rebuild_sheet scenario_A
                                     (dropna scenario_A)
                                     (mkWorksheet "Data" [])))
                               col j (VStr n))))
                         false true;
                       mkCell (Some (VStr d)) false false;
                       mkCell (Some (VInt (Z.of_nat c))) false false].
Proof.
  assert (Hnd : NoDup (map label (rows scenario_A))).
  { vm_compute. repeat constructor; simpl; intuition discriminate. }
  split; [exact Hnd|].
  exact (@xls_summary_rows_are_all_linked sample_libraries scenario_A
           (mkWorkbook [] None) (mkWorksheet "Data" [])
           (mkState [] None None) Hnd).
Defined.

(** ** Paths *)


Lemma string_length_app (a b : string) :
  String.length (a ++ b) = String.length a + String.length b.
Proof. induction a as [|x a IH]; simpl; [reflexivity | now rewrite IH]. Qed.

Lemma prefix_app_self (a b : string) : String.prefix a (a ++ b) = true.
Proof.
  induction a as [|x a IH]; simpl; [now destruct b|].
  destruct (ascii_dec x x); [exact IH | contradiction].
Qed.

Lemma prefix_length (a b : string) :
  String.prefix a b = true -> String.length a <= String.length b.
Proof.
  revert b. induction a as [|x a IH]; intros [|y b]; simpl;
    try (intros; lia); try discriminate.
  destruct (ascii_dec x y); [|discriminate].
  intros H. apply IH in H. lia.
Qed.

Lemma prefix_app_long (s a t : string) :
  String.length s <= String.length a ->
  String.prefix s (a ++ t) = String.prefix s a.
Proof.
  revert a. induction s as [|x s IH]; intros [|y a]; simpl; intros H;
    try reflexivity; try lia.
  - now destruct t.
  - destruct (ascii_dec x y); [apply IH; lia | reflexivity].
Qed.

Lemma prefix_slash s :
  String.prefix "/" s = true <-> exists t, s = String slash t.
Proof.
  split.
  - destruct s as [|c t]; cbn [String.prefix]; [discriminate|].
    destruct (ascii_dec "/" c) as [<-|]; [|discriminate].
    intros _. now exists t.
  - intros [t ->]. cbn [String.prefix].
    destruct (ascii_dec "/" slash) as [_|n]; [|now elim n].
    now destruct t.
Qed.

Lemma initial_slashes_app a t :
  3 <= String.length a -> initial_slashes (a ++ t) = initial_slashes a.
Proof.
  intros H. unfold initial_slashes.
  now rewrite !prefix_app_long by (simpl; lia).
Qed.

Lemma split_on_not_nil c s : split_on c s <> [].
Proof.
  destruct s as [|d t]; simpl; [discriminate|].
  destruct (Ascii.eqb d c); [discriminate|].
  destruct (split_on c t); discriminate.
Qed.

Lemma split_on_app c a b :
  split_on c (a ++ String c b) = (split_on c a ++ split_on c b)%list.
Proof.
  induction a as [|x a IH]; simpl.
  - now rewrite Ascii.eqb_refl.
  - destruct (Ascii.eqb x c); [now rewrite IH|].
    rewrite IH. destruct (split_on c a) eqn:E; [|reflexivity].
    now apply split_on_not_nil in E.
Qed.

Lemma split_on_plain c s : occurs c s = false -> split_on c s = [s].
Proof.
  induction s as [|d t IH]; simpl; [reflexivity|].
  destruct (Ascii.eqb d c); simpl; [discriminate|].
  intros H. now rewrite (IH H).
Qed.

Lemma ends_with_split c s :
  ends_with c s = true -> exists s0, s = s0 ++ String c EmptyString.
Proof.
  induction s as [|d t IH]; simpl; [discriminate|].
  destruct t as [|e t'].
  - intros H. apply Ascii.eqb_eq in H. subst. now exists EmptyString.
  - intros H. destruct (IH H) as [s0 E]. exists (String d s0).
    simpl. now rewrite <- E.
Qed.

Lemma join_snoc (l : list string) x :
  l <> [] -> join "/" (l ++ [x]) = join "/" l ++ "/" ++ x.
Proof.
  unfold join. induction l as [|a t IH]; [congruence|]. intros _.
  destruct t as [|b t'].
  - simpl. reflexivity.
  - change ((a :: b :: t') ++ [x])%list with (a :: ((b :: t') ++ [x]))%list.
    change (String.concat "/" (a :: (b :: t') ++ [x]))
      with (a ++ "/" ++ String.concat "/" ((b :: t') ++ [x])).
    rewrite IH by discriminate.
    change (String.concat "/" (a :: b :: t'))
      with (a ++ "/" ++ String.concat "/" (b :: t')).
    now rewrite !string_app_assoc.
Qed.

Lemma norm_step_plain initial comps s :
  plain_name s -> norm_step initial comps s = (comps ++ [s])%list.
Proof.
  intros [_ [H1 [H2 H3]]]. unfold norm_step.
  destruct (String.eqb_spec s EmptyString); [contradiction|].
  destruct (String.eqb_spec s "."); [contradiction|].
  destruct (String.eqb_spec s ".."); [contradiction|]. reflexivity.
Qed.

Lemma norm_step_dotdot initial comps s :
  s <> ".." -> norm_step initial (comps ++ [s]) ".." = comps.
Proof.
  intros Hs. unfold norm_step. cbn [String.eqb Ascii.eqb Bool.eqb orb negb].
  rewrite length_app, last_last. simpl length.
  replace (length comps + 1 =? 0)%nat with false
    by (symmetry; apply Nat.eqb_neq; lia).
  rewrite andb_false_r. cbn [orb].
  destruct (String.eqb_spec s ".."); [contradiction|].
  apply removelast_last.
Qed.

Lemma comps_child initial a s :
  plain_name s ->
  fold_left (norm_step initial) (split_on slash (a ++ "/" ++ s)) []
  = (fold_left (norm_step initial) (split_on slash a) [] ++ [s])%list.
Proof.
  intros Hs. change (a ++ "/" ++ s) with (a ++ String slash s).
  rewrite split_on_app, (split_on_plain slash s (proj1 Hs)), fold_left_app.
  simpl. now apply norm_step_plain.
Qed.

Lemma plain_temp_output : plain_name TEMP_OUTPUT_DIR.
Proof. repeat split; discriminate. Qed.

Lemma slashes_not_empty n s :
  1 <= n ->
  match slashes n ++ s with EmptyString => "." | p => p end = slashes n ++ s.
Proof. intros H. destruct n; [lia | reflexivity]. Qed.

Lemma initial_slashes_absolute a :
  String.prefix "/" a = true -> 1 <= initial_slashes a.
Proof.
  intros H. unfold initial_slashes. rewrite H.
  destruct (String.prefix "//" a && negb (String.prefix "///" a)); lia.
Qed.

Lemma normpath_absolute p :
  String.prefix "/" p = true ->
  normpath p
  = slashes (initial_slashes p)
    ++ join "/" (fold_left (norm_step (initial_slashes p))
                   (split_on slash p) []).
Proof.
  intros H. pose proof (initial_slashes_absolute p H) as Hi.
  apply prefix_slash in H. destruct H as [t ->].
  unfold normpath. cbv zeta. now apply slashes_not_empty.
Qed.

Section Download.
Variable fs : FileSystem.
Hypothesis cwd_absolute : String.prefix "/" (getcwd fs) = true.

(** Joining a relative path to the working directory puts it behind one
    separator. *)
Lemma join_cwd :
  exists j0, forall b,
      String.prefix "/" b = false ->
      os_path_join (getcwd fs) b = j0 ++ "/" ++ b
      /\ String.prefix "/" (j0 ++ "/" ++ b) = true.
Proof.
  pose proof cwd_absolute as Habs. apply prefix_slash in Habs.
  destruct Habs as [cwd Ecwd]. unfold os_path_join. rewrite Ecwd.
  destruct (ends_with slash (String slash cwd)) eqn:Ee.
  - destruct (ends_with_split _ _ Ee) as [j0 Ej]. exists j0.
    intros b Hb. rewrite Hb, Ej.
    change (String slash EmptyString) with "/".
    rewrite string_app_assoc. split; [reflexivity|].
    rewrite <- string_app_assoc.
    change "/" with (String slash EmptyString) at 2.
    rewrite <- Ej. apply prefix_slash. now exists (cwd ++ b).
  - exists (String slash cwd). intros b Hb. rewrite Hb.
    split; [reflexivity|].
    apply prefix_slash. now exists (cwd ++ "/" ++ b).
Qed.

(** The absolute path of the output directory, and of a plain name in it. *)
Lemma abspath_output :
  exists root comps,
    1 <= String.length root
    /\ abspath fs TEMP_OUTPUT_DIR
       = root ++ join "/" (comps ++ [TEMP_OUTPUT_DIR])
    /\ (forall name, plain_name name ->
          abspath fs (os_path_join TEMP_OUTPUT_DIR name)
          = abspath fs TEMP_OUTPUT_DIR ++ "/" ++ name)
    /\ abspath fs (os_path_join TEMP_OUTPUT_DIR "..")
       = root ++ join "/" comps.
Proof.
  destruct join_cwd as [j0 Hj].
  remember (j0 ++ "/" ++ TEMP_OUTPUT_DIR) as a eqn:Eqa.
  assert (Ha : os_path_join (getcwd fs) TEMP_OUTPUT_DIR = a
               /\ String.prefix "/" a = true)
    by (rewrite Eqa; apply Hj; reflexivity).
  destruct Ha as [Ea Pa].
  assert (La : 3 <= String.length a).
  { rewrite Eqa, string_length_app. simpl. lia. }
  remember (initial_slashes a) as initial eqn:Eqi.
  assert (Hi : 1 <= initial)
    by (rewrite Eqi; now apply initial_slashes_absolute).
  remember (fold_left (norm_step initial) (split_on slash j0) []) as comps
    eqn:Eqc.
  assert (Hcomps : fold_left (norm_step initial) (split_on slash a) []
                   = (comps ++ [TEMP_OUTPUT_DIR])%list)
    by (rewrite Eqa, Eqc; apply comps_child, plain_temp_output).
  assert (Hout : abspath fs TEMP_OUTPUT_DIR
                 = slashes initial ++ join "/" (comps ++ [TEMP_OUTPUT_DIR])).
  { unfold abspath. change (String.prefix "/" TEMP_OUTPUT_DIR) with false.
    cbv iota. rewrite Ea, (normpath_absolute a Pa), <- Eqi, Hcomps.
    reflexivity. }
  assert (Hunder : forall s,
             occurs slash s = false ->
             abspath fs (os_path_join TEMP_OUTPUT_DIR s)
             = slashes initial
               ++ join "/"
                    (fold_left (norm_step initial)
                       (split_on slash (a ++ "/" ++ s)) [])).
  { intros s Hs.
    assert (Hp : String.prefix "/" s = false).
    { destruct (String.prefix "/" s) eqn:Ep; [|reflexivity].
      apply prefix_slash in Ep. destruct Ep as [t ->].
      cbn [occurs] in Hs. now rewrite Ascii.eqb_refl in Hs. }
    assert (Ej : os_path_join TEMP_OUTPUT_DIR s = TEMP_OUTPUT_DIR ++ "/" ++ s).
    { unfold os_path_join. rewrite Hp. reflexivity. }
    rewrite Ej. unfold abspath.
    change (String.prefix "/" (TEMP_OUTPUT_DIR ++ "/" ++ s)) with false.
    cbv iota.
    destruct (Hj (TEMP_OUTPUT_DIR ++ "/" ++ s) eq_refl) as [Eb Pb].
    rewrite Eb.
    assert (Eab : j0 ++ "/" ++ TEMP_OUTPUT_DIR ++ "/" ++ s = a ++ "/" ++ s)
      by (rewrite Eqa; now rewrite !string_app_assoc).
    rewrite Eab in *. rewrite (normpath_absolute _ Pb).
    now rewrite (initial_slashes_app a ("/" ++ s) La), <- Eqi. }
  exists (slashes initial), comps.
  split; [destruct initial; [lia | simpl; lia]|].
  split; [exact Hout|]. split.
  - intros name Hname. rewrite (Hunder name (proj1 Hname)).
    rewrite comps_child by exact Hname. rewrite Hcomps.
    rewrite join_snoc by (now destruct comps).
    rewrite Hout. now rewrite string_app_assoc.
  - rewrite (Hunder ".." eq_refl).
    change (a ++ "/" ++ "..") with (a ++ String slash "..").
    rewrite split_on_app, fold_left_app, Hcomps.
    change (split_on slash "..") with [".."]. cbn [fold_left].
    now rewrite norm_step_dotdot by discriminate.
Qed.

(** The parent of the output directory is not under the output directory. *)
Lemma dotdot_not_under_output :
  String.prefix (abspath fs TEMP_OUTPUT_DIR)
    (abspath fs (os_path_join TEMP_OUTPUT_DIR "..")) = false.
Proof.
  destruct abspath_output as [root [comps [_ [Hout [_ Hup]]]]].
  destruct (String.prefix (abspath fs TEMP_OUTPUT_DIR)
              (abspath fs (os_path_join TEMP_OUTPUT_DIR ".."))) eqn:E;
    [|reflexivity].
  apply prefix_length in E. rewrite Hout, Hup in E.
  rewrite !string_length_app in E.
  destruct comps as [|c t].
  - simpl in E. lia.
  - rewrite join_snoc in E by discriminate.
    rewrite !string_length_app in E. simpl in E. lia.
Qed.

Lemma plain_name_under_output name :
  plain_name name ->
  String.prefix (abspath fs TEMP_OUTPUT_DIR)
    (abspath fs (os_path_join TEMP_OUTPUT_DIR name)) = true.
Proof.
  intros Hname.
  destruct abspath_output as [_ [_ [_ [_ [Hunder _]]]]].
  rewrite (Hunder name Hname). apply prefix_app_self.
Qed.
End Download.

(** ** Downloads *)

Lemma plain_result_name rest :
  occurs slash ("result_" ++ rest) = false -> plain_name ("result_" ++ rest).
Proof. intros H. repeat split; [exact H | discriminate ..]. Qed.

Lemma path_join_result rest :
  path_join TEMP_OUTPUT_DIR ("result_" ++ rest)
  = os_path_join TEMP_OUTPUT_DIR ("result_" ++ rest).
Proof. reflexivity. Qed.

(** The download name of a successful request starts with "result_", and
    the file is saved under that name in the output directory. *)
Lemma download_name_form {xl : Libraries} (u : Upload) resp st :
  upload_file u = (Return resp, st) ->
  status_code resp = 200%Z ->
  exists rest wb,
    download_filename resp = Some ("result_" ++ rest)
    /\ saved st
       = Some (path_join TEMP_OUTPUT_DIR ("result_" ++ rest), wb).
Proof.
  intros H Hok.
  destruct (upload_success_inv u resp st H Hok) as [_ [st1 [st2 [Hp Hsv]]]].
  destruct (process_inv u _ _ _ _ _ Hp Hok) as [df [_ [_ Ha]]].
  destruct (analyze_and_report_inv u _ _ _ _ _ _ Ha)
    as [_ [_ [s1 [wb [ws [name [s2 [wb' [s3 [Ho [_ [Hsaved ->]]]]]]]]]]]].
  apply open_book_inv in Ho.
  destruct Ho as [[_ [_ ->]]|[_ [_ ->]]]; eexists; exists wb';
    (split; [reflexivity | rewrite Hsv; exact Hsaved]).
Qed.

(** X11: the file saved by a successful request can be fetched from the
    download route under the returned download name: when that name holds
    no path separator (the route matches none) and the output directory
    holds the saved file, [download_file] answers with that file. *)
Theorem saved_output_can_be_downloaded :
  forall (xl : Libraries) (u : Upload) (resp : Response) (st : State)
         (fs : FileSystem),
    upload_file u = (Return resp, st) ->
    status_code resp = 200%Z ->
    String.prefix "/" (getcwd fs) = true ->
    holds_saved fs st ->
    exists name,
      download_filename resp = Some name
      /\ (occurs slash name = false ->
          fst (download_file fs name)
          = FileResponse (path_join TEMP_OUTPUT_DIR name) name
              xlsx_media_type).
Proof.
  intros xl u resp st fs H Hok Hcwd Hfs.
  destruct (download_name_form u resp st H Hok) as [rest [wb [Hname Hsaved]]].
  exists ("result_" ++ rest). split; [exact Hname|]. intros Hplain.
  destruct (Hfs _ _ Hsaved) as [Hex Hfile].
  rewrite path_join_result in *.
  unfold download_file. cbv zeta. rewrite Hex, Hfile.
  rewrite (plain_name_under_output fs Hcwd _ (plain_result_name rest Hplain)).
  reflexivity.
Qed.

Lemma saved_output_download_witness :
  (exists st,
      @upload_file sample_libraries upload_legacy
      = (Return (mkResponse 200 true "檔案處理完成！"
                   (Some "result_types.xlsx")), st))
  /\ String.prefix "/" (getcwd (fs_with "/srv/app"
                                  "temp_output/result_types.xlsx")) = true
  /\ holds_saved (fs_with "/srv/app" "temp_output/result_types.xlsx")
       (snd (@upload_file sample_libraries upload_legacy))
  /\ exists name,
      Some "result_types.xlsx" = Some name
      /\ (occurs slash name = false ->
          fst (download_file
                 (fs_with "/srv/app" "temp_output/result_types.xlsx") name)
          = FileResponse (path_join TEMP_OUTPUT_DIR name) name
              xlsx_media_type).
Proof.
  assert (Hfs : holds_saved (fs_with "/srv/app" "temp_output/result_types.xlsx")
                  (snd (@upload_file sample_libraries upload_legacy))).
  { intros p wb Hs. vm_compute in Hs. injection Hs as <- _.
    split; reflexivity. }
  split; [eexists; vm_compute; reflexivity|]. split; [reflexivity|].
  split; [exact Hfs|].
  exact (saved_output_can_be_downloaded sample_libraries upload_legacy
           (mkResponse 200 true "檔案處理完成！" (Some "result_types.xlsx"))
           (snd (@upload_file sample_libraries upload_legacy))
           (fs_with "/srv/app" "temp_output/result_types.xlsx")
           eq_refl eq_refl eq_refl Hfs).
Defined.

(** X12: for a file name without path separator, the download route
    serves only an existing regular file that lies directly in the output
    directory: the name ".." is always refused with a 404, whatever the
    file system says, and a served path resolves to the output directory
    followed by the name. *)
Theorem download_stays_in_output_directory :
  forall (fs : FileSystem) (filename : string),
    String.prefix "/" (getcwd fs) = true ->
    occurs slash filename = false ->
    fst (download_file fs "..") = HTTPException 404 "檔案未找到或已過期。"
    /\ forall p f m,
        fst (download_file fs filename) = FileResponse p f m ->
        filename <> ".."
        /\ p = os_path_join TEMP_OUTPUT_DIR filename
        /\ f = filename
        /\ path_exists fs p = true
        /\ path_isfile fs p = true
        /\ (filename <> EmptyString -> filename <> "." ->
            abspath fs p = abspath fs TEMP_OUTPUT_DIR ++ "/" ++ filename).
Proof.
  intros fs filename Hcwd Hplain.
  assert (Hup : fst (download_file fs "..")
                = HTTPException 404 "檔案未找到或已過期。").
  { unfold download_file. cbv zeta.
    rewrite (dotdot_not_under_output fs Hcwd). cbn [negb].
    now rewrite orb_true_r. }
  split; [exact Hup|].
  intros p f m H.
  assert (Hne : filename <> "..").
  { intros ->. rewrite Hup in H. discriminate. }
  split; [exact Hne|].
  unfold download_file in H. cbv zeta in H.
  destruct (path_exists fs (os_path_join TEMP_OUTPUT_DIR filename)) eqn:Hex;
    [|discriminate].
  destruct (path_isfile fs (os_path_join TEMP_OUTPUT_DIR filename)) eqn:Hfile;
    [|discriminate].
  destruct (String.prefix (abspath fs TEMP_OUTPUT_DIR)
              (abspath fs (os_path_join TEMP_OUTPUT_DIR filename)));
    [|discriminate].
  cbn in H. injection H as <- <- _.
  split; [reflexivity|]. split; [reflexivity|].
  split; [exact Hex|]. split; [exact Hfile|].
  intros Hn1 Hn2.
  destruct (abspath_output fs Hcwd) as [_ [_ [_ [_ [Hunder _]]]]].
  apply Hunder. repeat split; assumption.
Qed.

Lemma download_stays_witness :
  String.prefix "/" (getcwd (fs_with "/srv/app" "temp_output/result_a.xlsx"))
  = true
  /\ occurs slash "result_a.xlsx" = false
  /\ fst (download_file (fs_with "/srv/app" "temp_output/result_a.xlsx")
            "result_a.xlsx")
     = FileResponse "temp_output/result_a.xlsx" "result_a.xlsx"
         xlsx_media_type
  /\ abspath (fs_with "/srv/app" "temp_output/result_a.xlsx")
       "temp_output/result_a.xlsx"
     = abspath (fs_with "/srv/app" "temp_output/result_a.xlsx")
         TEMP_OUTPUT_DIR ++ "/" ++ "result_a.xlsx".
Proof.
  split; [reflexivity|]. split; [reflexivity|]. split; [reflexivity|].
  refine (proj2 (proj2 (proj2 (proj2 (proj2
            (proj2 (download_stays_in_output_directory
                      (fs_with "/srv/app" "temp_output/result_a.xlsx")
                      "result_a.xlsx" eq_refl eq_refl)
               "temp_output/result_a.xlsx" "result_a.xlsx" xlsx_media_type
               eq_refl))))) _ _); discriminate.
Defined.

(** ** Rejections before the document is read *)

Lemma occurs_rfind c s : occurs c s = false -> rfind c s = None.
Proof.
  induction s as [|d t IH]; simpl; [reflexivity|].
  rewrite (Ascii.eqb_sym c d).
  destruct (Ascii.eqb d c); simpl; [discriminate|].
  intros H. now rewrite (IH H).
Qed.

(** X13: an upload over the size limit is answered with status 400 and
    the size message before anything else happens: the file is not
    stored, the document is not read, nothing is saved and no temporary
    directory is made (so the [finally] block finds nothing to remove),
    whatever the name and the content. *)
Theorem oversize_upload_is_rejected_first :
  forall (xl : Libraries) (u : Upload),
    (file_size u > MAX_FILE_SIZE_MB * 1024 * 1024)%Z ->
    upload_file u
    = (Return (bad_request
                 ("上傳檔案大小超出限制。檔案大小不能超過 "
                  ++ str_of_Z MAX_FILE_SIZE_MB ++ " MB。")),
       mkState
         [(INFO, "接收到檔案上傳請求：" ++ filename u ++ " (MIME: "
                 ++ content_type u ++ ")");
          (WARNING, "檔案 " ++ filename u ++ " (大小: "
                    ++ str_of_Z (file_size u) ++ " bytes) 超出大小限制。")]
         None None).
Proof.
  intros xl u Hsize.
  unfold upload_file, try_finally, upload_handler, try_except, upload_body.
  unfold bind at 1. rewrite logging_run.
  destruct (Z.gtb_spec (file_size u) (MAX_FILE_SIZE_MB * 1024 * 1024));
    [|lia].
  unfold bind. rewrite logging_run. unfold ret.
  rewrite cleanup_none by reflexivity. reflexivity.
Qed.

Lemma oversize_upload_witness :
  let u := mkUpload "big.xlsx" "application/octet-stream" 10485761
             "/tmp/tmpk3v9" (Some (OtherException "disk full"))
             (Return scenario_A) (Return ["Data"])
             (fun _ => Return scenario_A) true None (Return sample_book)
             None true None in
  (file_size u > MAX_FILE_SIZE_MB * 1024 * 1024)%Z
  /\ fst (@upload_file sample_libraries u)
     = Return (bad_request
                 ("上傳檔案大小超出限制。檔案大小不能超過 "
                  ++ str_of_Z MAX_FILE_SIZE_MB ++ " MB。")).
Proof.
  intros u.
  assert (H : (file_size u > MAX_FILE_SIZE_MB * 1024 * 1024)%Z)
    by (vm_compute; reflexivity).
  split; [exact H|].
  now rewrite (oversize_upload_is_rejected_first sample_libraries u H).
Defined.

(** X14: a stored upload of admissible size whose lower-cased extension
    is not one of .xlsx, .xls, .xlsm is answered with status 400 and the
    fixed list of supported formats, with nothing saved.  The [try] block
    logs two INFO entries and one WARNING; the [finally] block then
    removes the temporary directory and logs that, at ERROR level with
    the text of the [OSError] when the removal fails; unless it fails,
    nothing worse than a warning is logged.  A file name without any dot
    has the empty extension and is rejected this way. *)
Theorem unsupported_extension_is_rejected :
  forall (xl : Libraries) (u : Upload),
    (file_size u <= MAX_FILE_SIZE_MB * 1024 * 1024)%Z ->
    store_fault u = None ->
    (~ In (file_ext_of u) supported_extensions ->
     exists st body_log,
       upload_file u
       = (Return (mkResponse 400 false
                    "不支援的檔案格式。僅支援 .xlsx, .xls, .xlsm 檔案。" None),
          st)
       /\ saved st = None
       /\ log st = (body_log ++ cleanup_entries u)%list
       /\ map fst body_log = [INFO; INFO; WARNING]
       /\ (rmtree_fault u = None -> at_most_warnings (log st))
       /\ (forall e,
              mkdtemp u <> EmptyString ->
              input_dir_exists u = true ->
              rmtree_fault u = Some e ->
              log st
              = (body_log
                   ++ [(ERROR, ("清理臨時輸入目錄失敗 " ++ mkdtemp u
                                ++ ": " ++ e)%string)])%list))
    /\ (occurs dot (filename u) = false ->
        file_ext_of u = EmptyString
        /\ ~ In (file_ext_of u) supported_extensions).
Proof.
  intros xl u Hsize Hstore. split.
  - intros Hext.
    unfold upload_file, try_finally, upload_handler, try_except,
      upload_body.
    unfold bind at 1. rewrite logging_run.
    destruct (Z.gtb_spec (file_size u) (MAX_FILE_SIZE_MB * 1024 * 1024));
      [lia|].
    unfold bind at 1. cbn [set_temp_input_dir]. cbv zeta.
    unfold bind at 1. rewrite Hstore. cbn [fault ret].
    unfold bind at 1. rewrite logging_run.
    unfold file_ext_of in Hext.
    destruct (splitext (filename u)) as [base ext]. cbn [snd] in Hext.
    destruct (mem String.eqb (lower ext) supported_extensions) eqn:Em.
    + rewrite (mem_In String.eqb String.eqb_spec) in Em. contradiction.
    + cbn [negb]. unfold bind. rewrite logging_run. unfold ret.
      rewrite cleanup_made by reflexivity.
      eexists. eexists. split; [reflexivity|]. split; [reflexivity|].
      cbn [log saved temp_input_dir].
      split; [reflexivity|]. split; [reflexivity|]. split.
      * intros Hr. apply at_most_warnings_app.
        -- intros l m Hin. cbn [In app] in Hin.
           destruct Hin as [Hin|[Hin|[Hin|[]]]]; inversion Hin; auto.
        -- now apply cleanup_entries_quiet.
      * intros e Hd Hex Hr. unfold cleanup_entries.
        rewrite Hex, Hr.
        destruct (String.eqb_spec (mkdtemp u) EmptyString);
          [contradiction | reflexivity].
  - intros Hdot.
    assert (E : file_ext_of u = EmptyString).
    { unfold file_ext_of, splitext. now rewrite (occurs_rfind _ _ Hdot). }
    split; [exact E|]. rewrite E. simpl. intuition discriminate.
Qed.

Lemma unsupported_extension_witness :
  let u := sample_upload "types.csv" (Return sample_book) in
  (file_size u <= MAX_FILE_SIZE_MB * 1024 * 1024)%Z
  /\ store_fault u = None
  /\ ~ In (file_ext_of u) supported_extensions
  /\ exists st body_log,
      @upload_file sample_libraries u
      = (Return (mkResponse 400 false
                   "不支援的檔案格式。僅支援 .xlsx, .xls, .xlsm 檔案。" None),
         st)
      /\ saved st = None
      /\ log st = (body_log ++ cleanup_entries u)%list
      /\ map fst body_log = [INFO; INFO; WARNING]
      /\ (rmtree_fault u = None -> at_most_warnings (log st))
      /\ (forall e,
             mkdtemp u <> EmptyString ->
             input_dir_exists u = true ->
             rmtree_fault u = Some e ->
             log st
             = (body_log
                  ++ [(ERROR, ("清理臨時輸入目錄失敗 " ++ mkdtemp u
                               ++ ": " ++ e)%string)])%list).
Proof.
  intros u.
  assert (H1 : (file_size u <= MAX_FILE_SIZE_MB * 1024 * 1024)%Z)
    by (vm_compute; congruence).
  assert (H2 : ~ In (file_ext_of u) supported_extensions)
    by (vm_compute; intuition discriminate).
  split; [exact H1|]. split; [reflexivity|]. split; [exact H2|].
  exact (proj1 (unsupported_extension_is_rejected sample_libraries u
                  H1 eq_refl) H2).
Defined.

(** ** The order of the input rows *)

Lemma filter_perm {A : Type} (f : A -> bool) l l' :
  Permutation l l' -> Permutation (filter f l) (filter f l').
Proof.
  induction 1 as [|x l l' _ IH|x y l|l l' l'' _ IH1 _ IH2]; simpl.
  - constructor.
  - destruct (f x); [now constructor | exact IH].
  - destruct (f x), (f y); try reflexivity. apply perm_swap.
  - now transitivity (filter f l').
Qed.

Lemma count_perm v xs ys :
  Permutation xs ys -> count String.eqb v xs = count String.eqb v ys.
Proof.
  intros H. unfold count. apply Permutation_length. now apply filter_perm.
Qed.

Lemma group_perm recs recs' n :
  Permutation recs recs' -> Permutation (group recs n) (group recs' n).
Proof.
  intros H. unfold group. apply Permutation_map. now apply filter_perm.
Qed.

Lemma is_mode_perm d xs ys : Permutation xs ys -> is_mode d xs -> is_mode d ys.
Proof.
  intros H [Hin Hmax]. split.
  - now apply (Permutation_in d H).
  - intros v. rewrite <- !(count_perm _ xs ys H). apply Hmax.
Qed.

Lemma agg_mode0_perm xs ys :
  Permutation xs ys -> agg_mode0 xs = agg_mode0 ys.
Proof.
  intros H.
  destruct xs as [|x xs'].
  - apply Permutation_nil in H. now subst.
  - destruct ys as [|y ys'];
      [apply Permutation_sym, Permutation_nil in H; discriminate|].
    destruct (agg_mode0_defined (x :: xs')) as [d Hd]; [discriminate|].
    destruct (agg_mode0_defined (y :: ys')) as [d' Hd']; [discriminate|].
    rewrite Hd, Hd'. f_equal.
    destruct (agg_mode0_least _ _ Hd) as [M L].
    destruct (agg_mode0_least _ _ Hd') as [M' L'].
    apply String.leb_antisym.
    + apply L. now apply (is_mode_perm d' _ _ (Permutation_sym H)).
    + apply L'. now apply (is_mode_perm d _ _ H).
Qed.

Lemma mem_perm {A : Type} (eqb : A -> A -> bool)
    (eqb_spec : forall x y, reflect (x = y) (eqb x y)) v l l' :
  Permutation l l' -> mem eqb v l = mem eqb v l'.
Proof.
  intros H. apply eq_true_iff_eq. rewrite !(mem_In eqb eqb_spec).
  split; apply Permutation_in; [exact H | now apply Permutation_sym].
Qed.

Lemma Highlight_perm recs recs' r :
  Permutation recs recs' -> Highlight recs r = Highlight recs' r.
Proof.
  intros H. unfold Highlight. rewrite !common_types_get.
  rewrite (mem_perm String.eqb String.eqb_spec _ _ _
             (Permutation_map Name H)).
  now rewrite (agg_mode0_perm _ _ (group_perm _ _ (Name r) H)).
Qed.

Lemma occurrences_perm n d recs recs' :
  Permutation recs recs' -> occurrences n d recs = occurrences n d recs'.
Proof.
  intros H. unfold occurrences. apply Permutation_length.
  now apply filter_perm.
Qed.

Lemma In_summary_perm recs recs' t :
  Permutation recs recs' -> In t (summary recs) -> In t (summary recs').
Proof.
  intros H. destruct t as [[n d] c]. rewrite !In_summary.
  rewrite !In_inconsistent_names.
  intros [[r [Hr [Hn Hf]]] [[r2 [Hr2 Hk]] ->]].
  split; [|split].
  - exists r. split; [now apply (Permutation_in r H)|].
    split; [exact Hn|]. now rewrite <- (Highlight_perm recs recs' r H).
  - exists r2. split; [now apply (Permutation_in r2 H) | exact Hk].
  - now apply occurrences_perm.
Qed.

Lemma key_leb_antisym a b :
  key_leb a b = true -> key_leb b a = true -> a = b.
Proof.
  unfold key_leb. destruct a as [a1 a2], b as [b1 b2]. cbn [fst snd].
  rewrite (String.eqb_sym b1 a1).
  destruct (String.eqb_spec a1 b1) as [->|Hne]; intros H1 H2.
  - f_equal. now apply String.leb_antisym.
  - exfalso. apply Hne. now apply String.leb_antisym.
Qed.

(** Two duplicate-free lists sorted by an antisymmetric order with the
    same elements are equal. *)
Lemma sorted_unique {A : Type} (R : A -> A -> Prop)
    (antisym : forall x y, R x y -> R y x -> x = y) l l' :
  StronglySorted R l -> StronglySorted R l' ->
  NoDup l -> NoDup l' ->
  (forall x, In x l <-> In x l') -> l = l'.
Proof.
  intros Hs. revert l'. induction Hs as [|x t Hs IH Hall];
    intros l' Hs' Hnd Hnd' Hsame.
  - destruct l' as [|y t']; [reflexivity|].
    exfalso. apply (proj2 (Hsame y)). now left.
  - destruct Hs' as [|y t' Hs' Hall'].
    + exfalso. apply (proj1 (Hsame x)). now left.
    + rewrite Forall_forall in Hall, Hall'.
      inversion Hnd as [|? ? Hx Hnd1]; inversion Hnd' as [|? ? Hy Hnd1'];
        subst.
      assert (Exy : x = y).
      { destruct (proj1 (Hsame x) (or_introl eq_refl)) as [E|Hin];
          [congruence|].
        destruct (proj2 (Hsame y) (or_introl eq_refl)) as [E|Hin'];
          [congruence|].
        apply antisym; [now apply Hall | now apply Hall']. }
      subst y. f_equal. apply IH; try assumption.
      intros z. split; intros Hz.
      * destruct (proj1 (Hsame z) (or_intror Hz)) as [E|Hin]; [|exact Hin].
        subst z. contradiction.
      * destruct (proj2 (Hsame z) (or_intror Hz)) as [E|Hin]; [|exact Hin].
        subst z. contradiction.
Qed.

Lemma summary_keys_sorted recs :
  StronglySorted (fun a b => key_leb a b = true)
    (map summary_key (summary recs))
  /\ NoDup (map summary_key (summary recs)).
Proof.
  split; [|apply NoDup_groupby_size].
  unfold summary, groupby_size. rewrite map_map. unfold summary_key. simpl.
  rewrite (map_ext _ (fun k => k)) by (intros [a b]; reflexivity).
  rewrite map_id. apply sort_sorted; [apply key_leb_total|apply key_leb_trans].
Qed.

(** A summary row is determined by its key. *)
Lemma summary_row_of_key recs t :
  In t (summary recs) ->
  t = (fst (summary_key t), snd (summary_key t),
       occurrences (fst (summary_key t)) (snd (summary_key t)) recs).
Proof.
  destruct t as [[n d] c]. intros H. apply In_summary in H.
  destruct H as [_ [_ ->]]. reflexivity.
Qed.

(** X15: the analysis does not depend on the order of the rows: after any
    reordering of the Records every Record gets the same flag, every Name
    the same dominant value, and the summary is the same list of rows. *)
Theorem analysis_is_independent_of_row_order :
  forall (recs recs' : list Record_),
    Permutation recs recs' ->
    (forall n, dict_get (common_types recs) n
               = dict_get (common_types recs') n)
    /\ (forall r, Highlight recs r = Highlight recs' r)
    /\ summary recs = summary recs'.
Proof.
  intros recs recs' H. split; [|split].
  - intros n. rewrite !common_types_get.
    rewrite (mem_perm String.eqb String.eqb_spec _ _ _
               (Permutation_map Name H)).
    now rewrite (agg_mode0_perm _ _ (group_perm _ _ n H)).
  - intros r. now apply Highlight_perm.
  - assert (Hkeys : map summary_key (summary recs)
                    = map summary_key (summary recs')).
    { destruct (summary_keys_sorted recs) as [S1 N1].
      destruct (summary_keys_sorted recs') as [S2 N2].
      apply (sorted_unique (fun a b => key_leb a b = true) key_leb_antisym);
        try assumption.
      intros k. rewrite !in_map_iff. split; intros [t [E Ht]]; exists t;
        (split; [exact E|]).
      - now apply (In_summary_perm recs recs').
      - now apply (In_summary_perm recs' recs), Ht; apply Permutation_sym. }
    assert (Hrows : forall rs,
               summary rs
               = map (fun k => (fst k, snd k, occurrences (fst k) (snd k) rs))
                   (map summary_key (summary rs))).
    { intros rs. rewrite map_map. rewrite <- (map_id (summary rs)) at 1.
      apply map_ext_in. intros t Ht. now apply summary_row_of_key. }
    rewrite (Hrows recs), (Hrows recs'), Hkeys.
    apply map_ext. intros [n d]. cbn [fst snd].
    now rewrite (occurrences_perm n d recs recs' H).
Qed.

Lemma analysis_order_witness :
  let r1 := mkRecord 0 "x" "str" [Some "x"; Some "str"] in
  let r2 := mkRecord 1 "x" "int" [Some "x"; Some "int"] in
  Permutation [r1; r2] [r2; r1]
  /\ (forall n, dict_get (common_types [r1; r2]) n
                = dict_get (common_types [r2; r1]) n)
  /\ (forall r, Highlight [r1; r2] r = Highlight [r2; r1] r)
  /\ summary [r1; r2] = summary [r2; r1].
Proof.
  intros r1 r2.
  assert (H : Permutation [r1; r2] [r2; r1]) by apply perm_swap.
  split; [exact H|].
  exact (analysis_is_independent_of_row_order [r1; r2] [r2; r1] H).
Defined.

(** ** The extension of the output *)

(** X16: the download name of every successful request is "result_"
    followed by a stem and an extension that is .xlsx or .xlsm up to case;
    no output carries the legacy extension; unless the input was [.xls],
    stem and extension are the input file name. *)
Theorem output_name_has_modern_extension :
  forall (xl : Libraries) (u : Upload) (resp : Response) (st : State),
    upload_file u = (Return resp, st) ->
    status_code resp = 200%Z ->
    exists stem ext,
      download_filename resp = Some ("result_" ++ stem ++ ext)
      /\ (lower ext = ".xlsx" \/ lower ext = ".xlsm")
      /\ lower ext <> ".xls"
      /\ (file_ext_of u <> ".xls" -> stem ++ ext = filename u).
Proof.
  intros xl u resp st H Hok.
  destruct (upload_success_inv u resp st H Hok)
    as [Hacc [st1 [st2 [Hp Hsv]]]].
  destruct (process_inv u _ _ _ _ _ Hp Hok) as [df [_ [_ Ha]]].
  destruct (analyze_and_report_inv u _ _ _ _ _ _ Ha)
    as [_ [_ [s1 [wb [ws [name [s2 [wb' [s3 [Ho [_ [_ ->]]]]]]]]]]]].
  apply open_book_inv in Ho.
  destruct Ho as [[Hext [_ ->]]|[Hext [_ ->]]].
  - exists (file_base_name_of u), ".xlsx".
    split; [reflexivity|]. split; [now left|].
    split; [discriminate | contradiction].
  - exists (file_base_name_of u), (snd (splitext (filename u))).
    unfold file_base_name_of. rewrite splitext_append.
    split; [reflexivity|].
    destruct Hacc as [_ [_ Hin]]. unfold file_ext_of in *.
    simpl in Hin. split; [intuition congruence|]. split; [exact Hext | auto].
Qed.

Lemma output_name_witness :
  (exists st,
      @upload_file sample_libraries upload_macro
      = (Return (mkResponse 200 true "檔案處理完成！"
                   (Some "result_types.xlsm")), st))
  /\ exists stem ext,
      Some "result_types.xlsm" = Some ("result_" ++ stem ++ ext)
      /\ (lower ext = ".xlsx" \/ lower ext = ".xlsm")
      /\ lower ext <> ".xls"
      /\ (file_ext_of upload_macro <> ".xls" ->
          stem ++ ext = filename upload_macro).
Proof.
  split; [eexists; vm_compute; reflexivity|].
  exact (output_name_has_modern_extension sample_libraries upload_macro
           (mkResponse 200 true "檔案處理完成！" (Some "result_types.xlsm"))
           (snd (@upload_file sample_libraries upload_macro))
           eq_refl eq_refl).
Defined.
